(** * Enhanced autonomous learning core: a shallow embedding

    Source: supabase/functions/enhanced-learning/enhanced_learning_core.py

    The Python classes are embedded as records and their methods as
    functions that pass the object explicitly and return what the method
    returns (or the exception it raises) together with the mutated object.

    Conventions of the embedding.
    - Python floats and ints are exact rationals ([Q]); rounding, infinities
      and NaN are outside the model.  The one infinity of the source,
      [float('-inf')] as the initial [best_score], has a constructor of its
      own.  Equality of numbers is [Qeq] ([==]).
    - [bool] is a subtype of [int] in Python: [True] counts as 1 and
      [False] as 0 wherever a number is expected.
    - A value typed [Any] in the source (everything read out of a request)
      is a [pyval]; maps have string keys, as decoded JSON has.
    - numpy's random generator is an explicit stream of draws.
    - What depends on the interpreter (the salted [hash], [str] of a sorted
      item list and of an exception) is a field of the class [PyRuntime]. *)

From Stdlib Require Import ZArith QArith Qminmax String Ascii Bool Lia Lqa.
From stdpp Require Import base list.

Open Scope Q_scope.

Set Warnings "-register-all".

(** ** Python values, exceptions and results *)

Inductive pyval : Type :=
| PNone
| PBool (b : bool)
| PNum (q : Q)
| PStr (s : string)
| PList (l : list pyval)
| PDict (d : list (string * pyval)).

Inductive exn : Type :=
| AttributeError
| TypeError
| KeyError
| IndexError
| ValueError
| ZeroDivisionError
| OverflowError.

Inductive result (A : Type) : Type :=
| Ok (a : A)
| Raise (e : exn).

Arguments Ok {A} a.
Arguments Raise {A} e.

Definition rbind {A B : Type} (r : result A) (k : A -> result B) : result B :=
  match r with
  | Ok a => k a
  | Raise e => Raise e
  end.

Notation "x <- r ;; k" := (rbind r (fun x => k))
  (at level 100, r at next level, right associativity).

Definition is_ok {A : Type} (r : result A) : bool :=
  match r with Ok _ => true | Raise _ => false end.

(** What the interpreter decides: [hash] (salted per process for strings),
    [str(sorted(d.items()))] and [str(e)] of a caught exception. *)
Class PyRuntime : Type := {
  py_hash : pyval -> Z;
  repr_sorted_items : list (string * pyval) -> string;
  exn_str : exn -> string
}.

(** ** Numbers *)

Definition Qltb (x y : Q) : bool := negb (Qle_bool y x).

(** [max(a, b)] of Python: [b] when [b > a], else [a]. *)
Definition py_max (a b : Q) : Q := if Qltb a b then b else a.

(** [min(a, b)] of Python: [b] when [b < a], else [a]. *)
Definition py_min (a b : Q) : Q := if Qltb b a then b else a.

(** [np.clip(x, lo, hi)] is [minimum(maximum(x, lo), hi)]. *)
Definition np_clip (x lo hi : Q) : Q := py_min (py_max x lo) hi.

Definition as_num (v : pyval) : option Q :=
  match v with
  | PBool true => Some 1
  | PBool false => Some 0
  | PNum q => Some q
  | _ => None
  end.

(** Where an int meets a float in arithmetic, Python converts the int, and
    the conversion raises OverflowError for an int whose magnitude is
    [2^1024 - 2^970] or more (the halfway point above the largest float).
    Every float is below that, so a number beyond it is an int. *)
Definition float_overflow : Z := Eval vm_compute in (2 ^ 1024 - 2 ^ 970)%Z.

(** [|x| < float_overflow], on the numerator and the denominator. *)
Definition fits_float (x : Q) : bool :=
  (Z.abs (Qnum x) <? Z.pos (Qden x) * float_overflow)%Z.

Arguments fits_float : simpl never.

(** A value that arithmetic with a float takes: a float, or an int or a
    bool that converts to one. *)
Definition float_number (v : pyval) : bool :=
  match as_num v with Some x => fits_float x | None => false end.

(** ** Dictionaries: association lists in insertion order *)

Section Dict.
Context {V : Type}.

Fixpoint dict_get (k : string) (d : list (string * V)) : option V :=
  match d with
  | [] => None
  | (k', v) :: d' => if String.eqb k k' then Some v else dict_get k d'
  end.

(** [d[k] = v]: replaces in place, or appends a new key at the end. *)
Fixpoint dict_set (k : string) (v : V) (d : list (string * V))
  : list (string * V) :=
  match d with
  | [] => [(k, v)]
  | (k', v') :: d' =>
      if String.eqb k k' then (k', v) :: d' else (k', v') :: dict_set k v d'
  end.

Definition dict_mem (k : string) (d : list (string * V)) : bool :=
  match dict_get k d with Some _ => true | None => false end.

(** [d.get(k, default)] *)
Definition dict_get_or (k : string) (d : list (string * V)) (default : V) : V :=
  match dict_get k d with Some v => v | None => default end.
End Dict.

(** [obj.get(k, default)]: only a dict has the method. *)
Definition py_get (obj : pyval) (k : string) (default : pyval) : result pyval :=
  match obj with
  | PDict d => Ok (dict_get_or k d default)
  | _ => Raise AttributeError
  end.

(** [obj.items()] *)
Definition py_items (obj : pyval) : result (list (string * pyval)) :=
  match obj with
  | PDict d => Ok d
  | _ => Raise AttributeError
  end.

(** [obj.copy()]: dicts and lists have it; the copy is shallow, and values
    are immutable here, so it is the same value. *)
Definition py_copy (obj : pyval) : result pyval :=
  match obj with
  | PDict d => Ok (PDict d)
  | PList l => Ok (PList l)
  | _ => Raise AttributeError
  end.

(** Truth value of an object. *)
Definition py_truthy (v : pyval) : bool :=
  match v with
  | PNone => false
  | PBool b => b
  | PNum q => negb (Qeq_bool q 0)
  | PStr s => negb (String.eqb s EmptyString)
  | PList l => match l with [] => false | _ => true end
  | PDict d => match d with [] => false | _ => true end
  end.

(** [a == b], which never raises on these values.  Dicts are equal when
    they have the same keys with equal values, whatever the order. *)
Fixpoint py_eq (a b : pyval) {struct a} : bool :=
  match a, b with
  | PNone, PNone => true
  | PStr s, PStr t => String.eqb s t
  | PList la, PList lb =>
      (fix eq_list (la lb : list pyval) {struct la} : bool :=
         match la, lb with
         | [], [] => true
         | x :: la', y :: lb' => py_eq x y && eq_list la' lb'
         | _, _ => false
         end) la lb
  | PDict da, PDict db =>
      Nat.eqb (length da) (length db) &&
      (fix eq_items (da : list (string * pyval)) {struct da} : bool :=
         match da with
         | [] => true
         | (k, v) :: da' =>
             match dict_get k db with
             | Some w => py_eq v w && eq_items da'
             | None => false
             end
         end) da
  | _, _ =>
      match as_num a, as_num b with
      | Some x, Some y => Qeq_bool x y
      | _, _ => false
      end
  end.

(** [a > b]: numbers with numbers, strings with strings (code-point order),
    lists with lists (the first unequal pair decides, then the lengths);
    any other pair of types raises TypeError. *)
Fixpoint py_gt (a b : pyval) {struct a} : result bool :=
  match a, b with
  | PStr s, PStr t => Ok (String.ltb t s)
  | PList la, PList lb =>
      (fix gt_list (la lb : list pyval) {struct la} : result bool :=
         match la, lb with
         | [], _ => Ok false
         | _ :: _, [] => Ok true
         | x :: la', y :: lb' =>
             if py_eq x y then gt_list la' lb' else py_gt x y
         end) la lb
  | _, _ =>
      match as_num a, as_num b with
      | Some x, Some y => Ok (Qltb y x)
      | _, _ => Raise TypeError
      end
  end.

(** [a - y] with a float [y]. *)
Definition py_sub_num (a : pyval) (y : Q) : result Q :=
  match as_num a with
  | Some x => if fits_float x then Ok (x - y) else Raise OverflowError
  | None => Raise TypeError
  end.

(** [x * b] with a float [x]. *)
Definition py_mul_num (x : Q) (b : pyval) : result Q :=
  match as_num b with
  | Some y => if fits_float y then Ok (x * y) else Raise OverflowError
  | None => Raise TypeError
  end.

(** [a + y] with a float [y]. *)
Definition py_add_num (a : pyval) (y : Q) : result Q :=
  match as_num a with
  | Some x => if fits_float x then Ok (x + y) else Raise OverflowError
  | None => Raise TypeError
  end.

(** [a % b] on ints: the sign of the result follows the divisor. *)
Definition py_mod (a b : Z) : result Z :=
  if (b =? 0)%Z then Raise ZeroDivisionError else Ok (a mod b)%Z.

(** [hash(v)]: lists and dicts are unhashable. *)
Definition py_hash_of {rt : PyRuntime} (v : pyval) : result Z :=
  match v with
  | PList _ | PDict _ => Raise TypeError
  | _ => Ok (py_hash v)
  end.

(** ** collections.deque(maxlen=n) *)

Record deque (A : Type) : Type := mk_deque {
  maxlen : nat;
  items : list A
}.

Arguments mk_deque {A} maxlen items.
Arguments maxlen {A} d.
Arguments items {A} d.

Definition deque_new {A : Type} (n : nat) : deque A := mk_deque n [].

(** [d.append(x)]: the element goes to the right end; a deque that is over
    its [maxlen] afterwards drops one element from the left end. *)
Definition deque_append {A : Type} (x : A) (d : deque A) : deque A :=
  let l := items d ++ [x] in
  mk_deque (maxlen d) (if (maxlen d <? length l)%nat then tail l else l).

Definition deque_extend {A : Type} (xs : list A) (d : deque A) : deque A :=
  fold_left (fun d x => deque_append x d) xs d.

(** [d[-i]] for [i >= 1]. *)
Definition deque_from_end {A : Type} (i : nat) (d : deque A) : option A :=
  rev (items d) !! (i - 1)%nat.

(** ** class ReinforcementLearningAgent *)

Module ReinforcementLearningAgent.

Record t : Type := mk {
  state_space_size : Z;
  action_space_size : Z;
  learning_rate : Q;
  discount_factor : Q;
  epsilon : Q;
  epsilon_decay : Q;
  q_table : list (list Q);
  experience_buffer : deque pyval
}.

(** [__init__]; [np.zeros((state_space_size, action_space_size))]. *)
Definition init (state_space_size action_space_size : Z)
    (learning_rate discount_factor epsilon epsilon_decay : Q) : t :=
  mk state_space_size action_space_size learning_rate discount_factor
     epsilon epsilon_decay
     (repeat (repeat 0 (Z.to_nat action_space_size))
             (Z.to_nat state_space_size))
     (deque_new (Z.to_nat 10000)).

(** The constructor's default arguments. *)
Definition default : t :=
  init 1000 10 (1 # 10) (95 # 100) (1 # 10) (995 # 1000).

Definition set_q_table (tbl : list (list Q)) (ag : t) : t :=
  mk (state_space_size ag) (action_space_size ag) (learning_rate ag)
     (discount_factor ag) (epsilon ag) (epsilon_decay ag)
     tbl (experience_buffer ag).

Definition set_epsilon (e : Q) (ag : t) : t :=
  mk (state_space_size ag) (action_space_size ag) (learning_rate ag)
     (discount_factor ag) e (epsilon_decay ag)
     (q_table ag) (experience_buffer ag).

(** An index along an axis of length [n]: negative indices count from
    the end, anything outside [-n, n) raises IndexError. *)
Definition np_index (n : nat) (i : Z) : result nat :=
  if ((0 <=? i) && (i <? Z.of_nat n))%Z then Ok (Z.to_nat i)
  else if ((- Z.of_nat n <=? i) && (i <? 0))%Z
       then Ok (Z.to_nat (i + Z.of_nat n))
       else Raise IndexError.

(** [np.max] of the cells [xs]; an empty array raises ValueError. *)
Definition np_max (xs : list Q) : result Q :=
  match xs with
  | [] => Raise ValueError
  | x :: xs' => Ok (fold_left Qmax xs' x)
  end.

Definition Qsum (xs : list Q) : Q := fold_right Qplus 0 xs.

Definition np_mean (xs : list Q) : Q :=
  Qsum xs / inject_Z (Z.of_nat (length xs)).

(** [np.var]: the mean of the squared deviations from the mean. *)
Definition np_var (xs : list Q) : Q :=
  let m := np_mean xs in
  np_mean (map (fun x => (x - m) * (x - m)) xs).

(** [self.q_table[i]] *)
Definition q_row (ag : t) (i : Z) : result (list Q) :=
  r <- np_index (length (q_table ag)) i ;;
  match q_table ag !! r with
  | Some row => Ok row
  | None => Raise IndexError
  end.

(** The position [(row, column)] that [self.q_table[i, j]] denotes, each
    index taken along its own axis of the array. *)
Definition q_cell (ag : t) (i j : Z) : result (nat * nat) :=
  r <- np_index (length (q_table ag)) i ;;
  match q_table ag !! r with
  | Some row => c <- np_index (length row) j ;; Ok (r, c)
  | None => Raise IndexError
  end.

Definition q_at (tbl : list (list Q)) (rc : nat * nat) : option Q :=
  match tbl !! fst rc with
  | Some row => row !! snd rc
  | None => None
  end.

Definition q_store (tbl : list (list Q)) (rc : nat * nat) (v : Q)
  : list (list Q) :=
  match tbl !! fst rc with
  | Some row => <[fst rc := <[snd rc := v]> row]> tbl
  | None => tbl
  end.

Section WithRuntime.
Context {rt : PyRuntime}.

Definition get_state_hash (ag : t) (state : pyval) : result Z :=
  its <- py_items state ;;
  let state_str := repr_sorted_items its in
  py_mod (py_hash (PStr state_str)) (state_space_size ag).

(** The learning target of [update_q_value]. *)
Definition target_of (ag : t) (reward : Q) (next_state_hash : Z)
    (done : bool) : result Q :=
  if done then Ok reward
  else
    row <- q_row ag next_state_hash ;;
    m <- np_max row ;;
    Ok (reward + discount_factor ag * m).

(** [update_q_value]: every step that can raise comes before the
    first assignment, so a raising call leaves the agent as it was. *)
Definition update_q_value (state : pyval) (action : Z) (reward : Q)
    (next_state : pyval) (done : bool) (ag : t) : result unit * t :=
  let r :=
    state_hash <- get_state_hash ag state ;;
    next_state_hash <- get_state_hash ag next_state ;;
    target <- target_of ag reward next_state_hash done ;;
    rc <- q_cell ag state_hash action ;;
    match q_at (q_table ag) rc with
    | Some current_q =>
        Ok (rc, current_q + learning_rate ag * (target - current_q))
    | None => Raise IndexError
    end in
  match r with
  | Ok (rc, new_q) =>
      let ag1 := set_q_table (q_store (q_table ag) rc new_q) ag in
      (Ok tt,
       set_epsilon (py_max (1 # 100) (epsilon ag1 * epsilon_decay ag1)) ag1)
  | Raise e => (Raise e, ag)
  end.

(** The arguments of one [update_q_value] call. *)
Record q_update : Type := mk_q_update {
  u_state : pyval;
  u_action : Z;
  u_reward : Q;
  u_next_state : pyval;
  u_done : bool
}.

(** Consecutive calls, a caller going on after a call that raises:
    the number of calls that returned, and the agent at the end. *)
Fixpoint run_updates (calls : list q_update) (ag : t) : nat * t :=
  match calls with
  | [] => (O, ag)
  | c :: calls' =>
      let '(r, ag1) :=
        update_q_value (u_state c) (u_action c) (u_reward c)
                       (u_next_state c) (u_done c) ag in
      let '(n, ag2) := run_updates calls' ag1 in
      ((if is_ok r then S n else n), ag2)
  end.
End WithRuntime.

(** The table has the shape the constructor gave it. *)
Definition well_shaped (ag : t) : Prop :=
  (0 <= state_space_size ag)%Z /\
  (0 <= action_space_size ag)%Z /\
  length (q_table ag) = Z.to_nat (state_space_size ag) /\
  Forall (fun row => length row = Z.to_nat (action_space_size ag))
         (q_table ag).


(** [get_policy_strength] reads the whole table. *)
Definition get_policy_strength (ag : t) : result Q :=
  let cells := concat (q_table ag) in
  let q_variance := np_var cells in
  max_q <- np_max cells ;;
  if Qeq_bool max_q 0 then Ok 0
  else Ok (py_min 1 (q_variance / max_q)).

End ReinforcementLearningAgent.

(** [d] to the power [n]. *)
Fixpoint Qpow (d : Q) (n : nat) : Q :=
  match n with
  | O => 1
  | S n' => d * Qpow d n'
  end.

(** ** Concrete inputs used by the examples *)

(** A runtime whose [hash] is constant, so that every context lands in
    row 0 whatever the text of its sorted items is. *)
Definition constant_hash_runtime : PyRuntime := {|
  py_hash := fun _ => 0%Z;
  repr_sorted_items := fun _ => "[]"%string;
  exn_str := fun e =>
    match e with
    | AttributeError => "AttributeError"
    | TypeError => "TypeError"
    | KeyError => "KeyError"
    | IndexError => "IndexError"
    | ValueError => "ValueError"
    | ZeroDivisionError => "ZeroDivisionError"
    | OverflowError => "OverflowError"
    end%string
|}.

(** An agent with one state and two actions that learns at rate 1. *)
Definition two_cell_agent : ReinforcementLearningAgent.t :=
  ReinforcementLearningAgent.init 1 2 1 (95 # 100) (1 # 10) (995 # 1000).

(** Two terminal updates with rewards -1 and -3, one per action. *)
Definition two_negative_rewards : list ReinforcementLearningAgent.q_update :=
  [ ReinforcementLearningAgent.mk_q_update (PDict []) 0 (-1) (PDict []) true;
    ReinforcementLearningAgent.mk_q_update (PDict []) 1 (-3) (PDict []) true ].



(** The performances 0, 1, ..., n-1, each reported by one update. *)
Definition rising_performances (n : nat)
  : list (list (string * pyval) * list (string * pyval)) :=
  map (fun i => ([], [("performance"%string, PNum (inject_Z (Z.of_nat i)))]))
      (seq 0 n).

(** ** class AdaptiveGradientDescent *)

Module AdaptiveGradientDescent.

Record t : Type := mk {
  learning_rate : Q;
  base_learning_rate : Q;
  momentum : Q;
  adaptive_factor : Q;
  decay_factor : Q;
  velocity : list (string * Q);
  performance_history : deque pyval
}.

(** [__init__] *)
Definition init (learning_rate momentum adaptive_factor decay_factor : Q)
  : t :=
  mk learning_rate learning_rate momentum adaptive_factor decay_factor
     [] (deque_new 50).

(** The constructor with its default momentum and factors. *)
Definition default (learning_rate : Q) : t :=
  init learning_rate (9 # 10) (11 # 10) (95 # 100).

Definition set_learning_rate (lr : Q) (g : t) : t :=
  mk lr (base_learning_rate g) (momentum g) (adaptive_factor g)
     (decay_factor g) (velocity g) (performance_history g).

Definition set_velocity (v : list (string * Q)) (g : t) : t :=
  mk (learning_rate g) (base_learning_rate g) (momentum g)
     (adaptive_factor g) (decay_factor g) v (performance_history g).

Definition set_performance_history (h : deque pyval) (g : t) : t :=
  mk (learning_rate g) (base_learning_rate g) (momentum g)
     (adaptive_factor g) (decay_factor g) (velocity g) h.

(** What [update] returns. *)
Record summary : Type := mk_summary {
  s_learning_rate : Q;
  s_velocity : list (string * Q);
  s_momentum : Q
}.

(** The two-point trend rule on the learning rate.  The comparison of
    the last two entries of the window raises when they do not compare. *)
Definition adapt_learning_rate (g : t) : result unit * t :=
  if (2 <=? length (items (performance_history g)))%nat then
    match deque_from_end 1 (performance_history g),
          deque_from_end 2 (performance_history g) with
    | Some newest, Some previous =>
        match py_gt newest previous with
        | Ok true =>
            (Ok tt,
             set_learning_rate
               (py_min (learning_rate g * adaptive_factor g)
                       (base_learning_rate g * 2)) g)
        | Ok false =>
            (Ok tt, set_learning_rate (learning_rate g * decay_factor g) g)
        | Raise e => (Raise e, g)
        end
    | _, _ => (Raise IndexError, g)
    end
  else (Ok tt, g).

(** The loop over [gradients.items()]: a missing velocity entry is
    created as 0 before the product that may raise. *)
Fixpoint update_velocity (gradients : list (string * pyval)) (g : t)
  : result unit * t :=
  match gradients with
  | [] => (Ok tt, g)
  | (param_name, gradient) :: rest =>
      let g1 :=
        if dict_mem param_name (velocity g) then g
        else set_velocity (dict_set param_name 0 (velocity g)) g in
      match dict_get param_name (velocity g1) with
      | Some v =>
          match py_mul_num (learning_rate g1) gradient with
          | Ok step =>
              update_velocity rest
                (set_velocity
                   (dict_set param_name (momentum g1 * v + step)
                             (velocity g1)) g1)
          | Raise e => (Raise e, g1)
          end
      | None => (Raise KeyError, g1)
      end
  end.

Definition update (current_state feedback : list (string * pyval)) (g : t)
  : result summary * t :=
  let performance := dict_get_or "performance" feedback (PNum 0) in
  let gradients := dict_get_or "gradients" feedback (PDict []) in
  let g1 :=
    set_performance_history
      (deque_append performance (performance_history g)) g in
  match adapt_learning_rate g1 with
  | (Raise e, g2) => (Raise e, g2)
  | (Ok _, g2) =>
      match py_items gradients with
      | Raise e => (Raise e, g2)
      | Ok its =>
          match update_velocity its g2 with
          | (Raise e, g3) => (Raise e, g3)
          | (Ok _, g3) =>
              (Ok (mk_summary (learning_rate g3) (velocity g3) (momentum g3)),
               g3)
          end
      end
  end.

Record next_parameters : Type := mk_next {
  n_learning_rate : Q;
  n_update_rule : string;
  n_velocity : list (string * Q)
}.

Definition get_next_parameters (g : t) : next_parameters :=
  mk_next (learning_rate g) "momentum_gradient_descent" (velocity g).

(** Consecutive [update] calls, a caller going on after one that raises. *)
Definition run_updates
    (calls : list (list (string * pyval) * list (string * pyval))) (g : t)
  : t :=
  fold_left (fun g c => snd (update (fst c) (snd c) g)) calls g.

End AdaptiveGradientDescent.

(** ** numpy.random *)

(** The generator: the stream of uniform draws of [[0, 1)] and the stream
    of standard normal draws it is going to produce, and how many of each
    have been consumed. *)
Record np_random : Type := mk_random {
  unit_draws : nat -> Q;
  normal_draws : nat -> Q;
  unit_next : nat;
  normal_next : nat
}.


(** [np.random.uniform(low, high)] is [low + (high - low) * random_sample()]. *)
Definition random_uniform (low high : Q) (rng : np_random) : Q * np_random :=
  (low + (high - low) * unit_draws rng (unit_next rng),
   mk_random (unit_draws rng) (normal_draws rng)
             (S (unit_next rng)) (normal_next rng)).

(** [np.random.normal(loc, scale)] is [loc + scale * standard_normal()];
    a negative scale raises ValueError. *)
Definition random_normal (loc scale : Q) (rng : np_random)
  : result Q * np_random :=
  if Qltb scale 0 then (Raise ValueError, rng)
  else (Ok (loc + scale * normal_draws rng (normal_next rng)),
        mk_random (unit_draws rng) (normal_draws rng)
                  (unit_next rng) (S (normal_next rng))).

(** ** class BayesianOptimizer *)

Module BayesianOptimizer.

(** A score is [float('-inf')] or a number. *)
Inductive score : Type :=
| NegInf
| Score (q : Q).

Record t : Type := mk {
  parameter_space : list (string * (Q * Q));
  observations : list pyval;
  parameter_history : list pyval;
  best_params : pyval;
  best_score : score
}.

(** [__init__] *)
Definition init (parameter_space : list (string * (Q * Q))) : t :=
  mk parameter_space [] [] PNone NegInf.

Definition set_observations (o : list pyval) (b : t) : t :=
  mk (parameter_space b) o (parameter_history b) (best_params b)
     (best_score b).

Definition set_parameter_history (h : list pyval) (b : t) : t :=
  mk (parameter_space b) (observations b) h (best_params b) (best_score b).

Definition set_best (s : score) (p : pyval) (b : t) : t :=
  mk (parameter_space b) (observations b) (parameter_history b) p s.

(** [x > s] for a number [x] and a score [s]. *)
Definition exceeds (x : Q) (s : score) : bool :=
  match s with
  | NegInf => true
  | Score y => Qltb y x
  end.

(** What [update] returns. *)
Record summary : Type := mk_summary {
  s_best_score : score;
  s_best_params : pyval;
  s_observations_count : nat
}.

Definition update (current_state feedback : list (string * pyval)) (b : t)
  : result summary * t :=
  let parameters := dict_get_or "parameters" current_state (PDict []) in
  let performance := dict_get_or "performance" feedback (PNum 0) in
  let b1 := set_observations (observations b ++ [performance]) b in
  match py_copy parameters with
  | Raise e => (Raise e, b1)
  | Ok copied =>
      let b2 := set_parameter_history (parameter_history b1 ++ [copied]) b1 in
      (* [performance > self.best_score]: the score is a float, and only
         a number compares with a float *)
      match as_num performance with
      | None => (Raise TypeError, b2)
      | Some x =>
          let b3 :=
            if exceeds x (best_score b2) then set_best (Score x) copied b2
            else b2 in
          (Ok (mk_summary (best_score b3) (best_params b3)
                          (length (observations b3))), b3)
      end
  end.

(** [_random_sample]: one uniform draw per declared parameter. *)
Fixpoint sample_into (space : list (string * (Q * Q)))
    (params : list (string * pyval)) (rng : np_random)
  : list (string * pyval) * np_random :=
  match space with
  | [] => (params, rng)
  | (param_name, (min_val, max_val)) :: rest =>
      let '(x, rng1) := random_uniform min_val max_val rng in
      sample_into rest (dict_set param_name (PNum x) params) rng1
  end.

Definition _random_sample (b : t) (rng : np_random)
  : list (string * pyval) * np_random :=
  sample_into (parameter_space b) [] rng.

(** The loop of [_ucb_acquisition] over the keys of [best_params]. *)
Fixpoint perturb (b : t) (keys : list string)
    (best_params : list (string * pyval)) (rng : np_random)
  : result (list (string * pyval)) * np_random :=
  match keys with
  | [] => (Ok best_params, rng)
  | param_name :: rest =>
      match dict_get param_name (parameter_space b) with
      | None => (Raise KeyError, rng)
      | Some (min_val, max_val) =>
          let noise_scale := (max_val - min_val) * (1 # 10) in
          match dict_get param_name best_params with
          | None => (Raise KeyError, rng)
          | Some old =>
              match random_normal 0 noise_scale rng with
              | (Raise e, rng1) => (Raise e, rng1)
              | (Ok noise, rng1) =>
                  match py_add_num old noise with
                  | Raise e => (Raise e, rng1)
                  | Ok moved =>
                      perturb b rest
                        (dict_set param_name
                           (PNum (np_clip moved min_val max_val))
                           best_params)
                        rng1
                  end
              end
          end
      end
  end.

(** Iterating a list that stands where the dict of best parameters is
    expected: the first element is looked up in the parameter space, which
    raises for anything but one of its keys, and for such a key the list
    cannot be indexed by it. *)
Definition perturb_list (b : t) (l : list pyval) : result (list (string * pyval)) :=
  match l with
  | [] => Ok []
  | PStr k :: _ =>
      if dict_mem k (parameter_space b) then Raise TypeError
      else Raise KeyError
  | (PList _ | PDict _) :: _ => Raise TypeError
  | _ :: _ => Raise KeyError
  end.

Definition _ucb_acquisition (b : t) (rng : np_random)
  : result (list (string * pyval)) * np_random :=
  if py_truthy (best_params b) then
    match best_params b with
    | PDict d => perturb b (map fst d) d rng
    | PList l => (perturb_list b l, rng)
    | _ => (Raise AttributeError, rng)
    end
  else
    let '(d, rng1) := _random_sample b rng in
    perturb b (map fst d) d rng1.

Definition get_next_parameters (b : t) (rng : np_random)
  : result (list (string * pyval)) * np_random :=
  if (length (observations b) <? 3)%nat then
    let '(d, rng1) := _random_sample b rng in (Ok d, rng1)
  else _ucb_acquisition b rng.

(** Consecutive [update] calls, a caller going on after one that raises. *)
Definition run_updates
    (calls : list (list (string * pyval) * list (string * pyval))) (b : t)
  : t :=
  fold_left (fun b c => snd (update (fst c) (snd c) b)) calls b.

End BayesianOptimizer.

(** ** class LearningExperience *)

Record LearningExperience : Type := mk_experience {
  timestamp : pyval;
  context : pyval;
  action_taken : pyval;
  outcome : pyval;
  reward : pyval;
  confidence : pyval;
  metadata : pyval
}.

(** ** class EnhancedAutonomousLearningCore *)

Module EnhancedAutonomousLearningCore.

Record t : Type := mk {
  config : list (string * pyval);
  gradient_optimizer : AdaptiveGradientDescent.t;
  bayesian_optimizer : BayesianOptimizer.t;
  rl_agent : ReinforcementLearningAgent.t;
  learning_experiences : deque LearningExperience;
  performance_metrics : list (string * list pyval);
  current_optimizer : string;
  learning_iteration : Z;
  last_performance : Q
}.

(** The engine [__init__] leaves for the map [config] that [self.config]
    is and the float [learning_rate] that [self.config.get('learning_rate',
    0.01)] is. *)
Definition build (config : list (string * pyval)) (learning_rate : Q) : t :=
  let parameter_space :=
    [ ("learning_rate"%string, (1 # 1000, 1 # 10));
      ("confidence_threshold"%string, (5 # 10, 95 # 100)) ] in
  mk config
     (AdaptiveGradientDescent.default learning_rate)
     (BayesianOptimizer.init parameter_space)
     ReinforcementLearningAgent.default
     (deque_new (Z.to_nat 10000))
     []
     "gradient"
     0%Z
     0.

(** [__init__] on a configuration that is absent or maps names to floats;
    [config or {}].  The constructor on any value is [construct] below. *)
Definition init (config : option (list (string * Q))) : t :=
  let config := match config with Some c => c | None => [] end in
  build (map (fun kv => (fst kv, PNum (snd kv))) config)
        (dict_get_or "learning_rate" config (1 # 100)).

(** What [__init__] does with any value as [config]: it raises
    AttributeError on a truthy value without [get]; it returns an engine
    otherwise, which is one of the engines of this development when the
    learning rate it finds is a float (or an int or bool that converts to
    one).  An engine whose learning rate is anything else, a string say, is
    built by the code all the same and is outside this development. *)
Inductive construction : Type :=
| Built (e : t)
| Fails (ex : exn)
| OddRate (rate : pyval).

Definition construct (config : pyval) : construction :=
  if py_truthy config then
    match config with
    | PDict d =>
        let rate := dict_get_or "learning_rate" d (PNum (1 # 100)) in
        match as_num rate with
        | Some learning_rate =>
            if fits_float learning_rate then Built (build d learning_rate)
            else OddRate rate
        | None => OddRate rate
        end
    | _ => Fails AttributeError
    end
  else Built (build [] (1 # 100)).

Definition set_gradient_optimizer (g : AdaptiveGradientDescent.t) (e : t) : t :=
  mk (config e) g (bayesian_optimizer e) (rl_agent e)
     (learning_experiences e) (performance_metrics e) (current_optimizer e)
     (learning_iteration e) (last_performance e).

Definition set_bayesian_optimizer (b : BayesianOptimizer.t) (e : t) : t :=
  mk (config e) (gradient_optimizer e) b (rl_agent e)
     (learning_experiences e) (performance_metrics e) (current_optimizer e)
     (learning_iteration e) (last_performance e).

Definition set_rl_agent (a : ReinforcementLearningAgent.t) (e : t) : t :=
  mk (config e) (gradient_optimizer e) (bayesian_optimizer e) a
     (learning_experiences e) (performance_metrics e) (current_optimizer e)
     (learning_iteration e) (last_performance e).

Definition set_learning_experiences (h : deque LearningExperience) (e : t) : t :=
  mk (config e) (gradient_optimizer e) (bayesian_optimizer e) (rl_agent e)
     h (performance_metrics e) (current_optimizer e)
     (learning_iteration e) (last_performance e).

Definition set_performance_metrics (m : list (string * list pyval)) (e : t) : t :=
  mk (config e) (gradient_optimizer e) (bayesian_optimizer e) (rl_agent e)
     (learning_experiences e) m (current_optimizer e)
     (learning_iteration e) (last_performance e).

Definition set_learning_iteration (n : Z) (e : t) : t :=
  mk (config e) (gradient_optimizer e) (bayesian_optimizer e) (rl_agent e)
     (learning_experiences e) (performance_metrics e) (current_optimizer e)
     n (last_performance e).

Definition set_last_performance (p : Q) (e : t) : t :=
  mk (config e) (gradient_optimizer e) (bayesian_optimizer e) (rl_agent e)
     (learning_experiences e) (performance_metrics e) (current_optimizer e)
     (learning_iteration e) p.

(** Methods run on the engine and either return or raise; what they
    assigned before raising stays assigned. *)
Definition M (A : Type) : Type := t -> result A * t.

Definition ret {A : Type} (a : A) : M A := fun e => (Ok a, e).

Definition bind {A B : Type} (m : M A) (k : A -> M B) : M B :=
  fun e =>
    match m e with
    | (Ok a, e1) => k a e1
    | (Raise ex, e1) => (Raise ex, e1)
    end.

Definition lift {A : Type} (r : result A) : M A := fun e => (r, e).

Definition gets {A : Type} (f : t -> A) : M A := fun e => (Ok (f e), e).

Definition modify (f : t -> t) : M unit := fun e => (Ok tt, f e).

Notation "x <~ m ;; k" := (bind m (fun x => k))
  (at level 100, m at next level, right associativity).

(** [self.performance_metrics[key].append(entry)] on a
    [defaultdict(list)]. *)
Definition metrics_append (key : string) (entry : pyval)
    (m : list (string * list pyval)) : list (string * list pyval) :=
  match dict_get key m with
  | Some entries => dict_set key (entries ++ [entry]) m
  | None => dict_set key [entry] m
  end.

Definition _update_performance_metrics (experience : LearningExperience)
  : M unit :=
  performance <~ lift (py_get (outcome experience) "performance" (PNum 0)) ;;
  modify (fun e =>
    set_performance_metrics
      (metrics_append "overall"
         (PDict [("value"%string, performance);
                 ("timestamp"%string, timestamp experience)])
         (performance_metrics e)) e).

(** What the strategy's [update] returned, before the improvement is
    stored next to it. *)
Inductive update_result : Type :=
| GradientSummary (s : AdaptiveGradientDescent.summary)
| BayesianSummary (s : BayesianOptimizer.summary)
| EmptySummary.

Record learning_result : Type := mk_learning_result {
  strategy_summary : update_result;
  performance_improvement : Q
}.

(** The dispatch on [self.current_optimizer]. *)
Definition dispatch_update (current_state feedback : list (string * pyval))
  : M update_result :=
  fun e =>
    if String.eqb (current_optimizer e) "gradient" then
      let '(r, g) :=
        AdaptiveGradientDescent.update current_state feedback
                                       (gradient_optimizer e) in
      (s <- r ;; Ok (GradientSummary s), set_gradient_optimizer g e)
    else if String.eqb (current_optimizer e) "bayesian" then
      let '(r, b) :=
        BayesianOptimizer.update current_state feedback
                                 (bayesian_optimizer e) in
      (s <- r ;; Ok (BayesianSummary s), set_bayesian_optimizer b e)
    else (Ok EmptySummary, e).

Definition _apply_learning_updates (experience : LearningExperience)
  : M learning_result :=
  parameters <~ lift (py_get (context experience) "parameters" (PDict [])) ;;
  performance <~ lift (py_get (outcome experience) "performance" (PNum 0)) ;;
  gradients <~ lift (py_get (outcome experience) "gradients" (PDict [])) ;;
  let current_state :=
    [("parameters"%string, parameters); ("performance"%string, performance)] in
  let feedback :=
    [("performance"%string, performance);
     ("reward"%string, reward experience);
     ("gradients"%string, gradients);
     ("confidence"%string, confidence experience)] in
  summary <~ dispatch_update current_state feedback ;;
  (* [current_performance - self.last_performance] raises unless the
     performance is a number, and one that converts to a float, as the
     subtraction from the float 0.0 of the constructor, or from an earlier
     float performance, asks.  (Where the remembered performance is an int,
     Python subtracts the two ints exactly; the model does not tell an int
     from a float and converts.) *)
  last <~ gets last_performance ;;
  match as_num performance with
  | None => lift (Raise TypeError)
  | Some current_performance =>
      if fits_float current_performance then
        _ <~ modify (set_last_performance current_performance) ;;
        ret (mk_learning_result summary (current_performance - last))
      else lift (Raise OverflowError)
  end.

Section WithRuntime.
Context {rt : PyRuntime}.

(** The body of the [try] in [_update_rl_agent].  The reward reaches the
    arithmetic of [update_q_value] as it is, where a value that is not a
    number raises; nothing is assigned before that point, so the check
    stands here, at the call; so does the conversion of an int reward to
    the floats of the table.  (A reward that is a sequence, which numpy
    would broadcast, is outside the model and counts as not a number.) *)
Definition rl_update (experience : LearningExperience)
    (ag : ReinforcementLearningAgent.t)
  : result unit * ReinforcementLearningAgent.t :=
  let args :=
    h <- py_hash_of (action_taken experience) ;;
    action <- py_mod h (ReinforcementLearningAgent.action_space_size ag) ;;
    next_state <- py_get (outcome experience) "next_state" (PDict []) ;;
    done <- py_get (outcome experience) "episode_done" (PBool false) ;;
    match as_num (reward experience) with
    | Some r =>
        if fits_float r then Ok (action, r, next_state, py_truthy done)
        else Raise OverflowError
    | None => Raise TypeError
    end in
  match args with
  | Ok (action, r, next_state, done) =>
      ReinforcementLearningAgent.update_q_value
        (context experience) action r next_state done ag
  | Raise e => (Raise e, ag)
  end.

(** [_update_rl_agent]: whatever the body raises is logged and
    dropped. *)
Definition _update_rl_agent (experience : LearningExperience) : M unit :=
  fun e =>
    let '(_, ag) := rl_update experience (rl_agent e) in
    (Ok tt, set_rl_agent ag e).

(** The construction of the record out of the request. *)
Definition make_experience (now : string) (experience_data : pyval)
  : result LearningExperience :=
  ts <- py_get experience_data "timestamp" (PStr now) ;;
  ctx <- py_get experience_data "context" (PDict []) ;;
  act <- py_get experience_data "action_taken" (PStr EmptyString) ;;
  out <- py_get experience_data "outcome" (PDict []) ;;
  rew <- py_get experience_data "reward" (PNum 0) ;;
  conf <- py_get experience_data "confidence" (PNum (1 # 2)) ;;
  Ok (mk_experience ts ctx act out rew conf (PDict [])).

(** The body of the [try] in [learn_from_experience]; [now] is
    [datetime.now().isoformat()]. *)
Definition learn_body (now : string) (experience_data : pyval) : M pyval :=
  experience <~ lift (make_experience now experience_data) ;;
  _ <~ modify (fun e =>
         set_learning_experiences
           (deque_append experience (learning_experiences e)) e) ;;
  _ <~ _update_performance_metrics experience ;;
  learning_result <~ _apply_learning_updates experience ;;
  _ <~ _update_rl_agent experience ;;
  iteration <~ gets learning_iteration ;;
  optimizer <~ gets current_optimizer ;;
  strength <~ (fun e =>
    (ReinforcementLearningAgent.get_policy_strength (rl_agent e), e)) ;;
  let result :=
    PDict
      [("learning_iteration"%string, PNum (inject_Z iteration));
       ("performance_improvement"%string,
        PNum (performance_improvement learning_result));
       ("current_optimizer"%string, PStr optimizer);
       ("rl_policy_strength"%string, PNum strength);
       ("confidence"%string, confidence experience);
       ("timestamp"%string, timestamp experience)] in
  _ <~ modify (fun e =>
         set_learning_iteration (learning_iteration e + 1)%Z e) ;;
  ret result.

(** The result the [except] clause builds. *)
Definition failure_result (ex : exn) : pyval :=
  PDict [("error"%string, PStr (exn_str ex));
         ("success"%string, PBool false)].

Definition learn_from_experience (now : string) (experience_data : pyval)
    (e : t) : pyval * t :=
  match learn_body now experience_data e with
  | (Ok result, e1) => (result, e1)
  | (Raise ex, e1) => (failure_result ex, e1)
  end.

(** Consecutive calls on one engine, each with the time it is made at:
    the results in order, and the engine at the end. *)
Fixpoint run_requests (requests : list (string * pyval)) (e : t)
  : list pyval * t :=
  match requests with
  | [] => ([], e)
  | (now, experience_data) :: rest =>
      let '(result, e1) := learn_from_experience now experience_data e in
      let '(results, e2) := run_requests rest e1 in
      (result :: results, e2)
  end.
End WithRuntime.

(** A result is a failure when it carries ['success': False]. *)
Definition is_failure (result : pyval) : bool :=
  match result with
  | PDict d =>
      match dict_get "success" d with
      | Some (PBool false) => true
      | _ => false
      end
  | _ => false
  end.

(** The number of results that are not failures. *)
Definition successes (results : list pyval) : nat :=
  length (List.filter (fun r => negb (is_failure r)) results).

End EnhancedAutonomousLearningCore.

(** The first experience of the scenario of the specification. *)
Definition buy_experience : pyval :=
  PDict [("action_taken"%string, PStr "buy");
         ("outcome"%string, PDict [("performance"%string, PNum (8 # 10))]);
         ("reward"%string, PNum 1)].

(** The second experience of that scenario. *)
Definition buy_again_experience : pyval :=
  PDict [("action_taken"%string, PStr "buy");
         ("outcome"%string, PDict [("performance"%string, PNum (6 # 10))]);
         ("reward"%string, PNum (- (1 # 2)))].

(** An experience whose performance is not a number. *)
Definition bad_performance_experience : pyval :=
  PDict [("action_taken"%string, PStr "buy");
         ("outcome"%string, PDict [("performance"%string, PStr "high")]);
         ("reward"%string, PNum 1)].

(** An experience with a gradient that is not a number. *)
Definition bad_gradient_experience : pyval :=
  PDict [("action_taken"%string, PStr "buy");
         ("outcome"%string,
          PDict [("performance"%string, PNum (8 # 10));
                 ("gradients"%string,
                  PDict [("weight"%string, PStr "steep")])]);
         ("reward"%string, PNum 1)].

(** An experience whose action cannot be hashed. *)
Definition unhashable_action_experience : pyval :=
  PDict [("action_taken"%string, PList [PStr "buy"]);
         ("outcome"%string, PDict [("performance"%string, PNum (8 # 10))]);
         ("reward"%string, PNum 1)].

(** An engine whose agent has one state and two actions. *)
Definition small_core : EnhancedAutonomousLearningCore.t :=
  EnhancedAutonomousLearningCore.set_rl_agent
    two_cell_agent (EnhancedAutonomousLearningCore.init None).

(** The parameter space the engine declares. *)
Definition engine_parameter_space : list (string * (Q * Q)) :=
  [ ("learning_rate"%string, (1 # 1000, 1 # 10));
    ("confidence_threshold"%string, (5 # 10, 95 # 100)) ].

(** A Bayesian strategy after three observations, the best of which was
    made at a learning rate of 0.05. *)
Definition tuned_optimizer : BayesianOptimizer.t :=
  BayesianOptimizer.run_updates
    [ ([("parameters"%string, PDict [("learning_rate"%string, PNum (5 # 100))])],
       [("performance"%string, PNum (9 # 10))]);
      ([("parameters"%string, PDict [("learning_rate"%string, PNum (2 # 100))])],
       [("performance"%string, PNum (4 # 10))]);
      ([("parameters"%string, PDict [("learning_rate"%string, PNum (8 # 100))])],
       [("performance"%string, PNum (7 # 10))]) ]
    (BayesianOptimizer.init engine_parameter_space).

(** A generator whose uniform draws are all 1/2 and whose normal draws are
    all 100 standard deviations. *)
Definition far_out_generator : np_random :=
  mk_random (fun _ => 1 # 2) (fun _ => 100) 0 0.


(** ** Predicates used in the statements *)

(** The order on scores: [-inf] is below every number. *)
Definition score_le (s1 s2 : BayesianOptimizer.score) : Prop :=
  match s1, s2 with
  | BayesianOptimizer.NegInf, _ => True
  | BayesianOptimizer.Score _, BayesianOptimizer.NegInf => False
  | BayesianOptimizer.Score x, BayesianOptimizer.Score y => x <= y
  end.

(** The number [x] is strictly above the score [s]. *)
Definition score_lt_num (s : BayesianOptimizer.score) (x : Q) : Prop :=
  match s with
  | BayesianOptimizer.NegInf => True
  | BayesianOptimizer.Score y => y < x
  end.


(** The feedback of a gradient update that reports the performance [p]. *)
Definition performance_feedback (p : Q)
  : list (string * pyval) * list (string * pyval) :=
  ([], [("performance"%string, PNum p)]).

(** The parameters of the gradient strategy that no update assigns. *)
Definition same_setup (g g' : AdaptiveGradientDescent.t) : Prop :=
  AdaptiveGradientDescent.base_learning_rate g'
    = AdaptiveGradientDescent.base_learning_rate g /\
  AdaptiveGradientDescent.adaptive_factor g'
    = AdaptiveGradientDescent.adaptive_factor g /\
  AdaptiveGradientDescent.decay_factor g'
    = AdaptiveGradientDescent.decay_factor g.

(** Where the learning rate of the gradient strategy lives. *)
Definition rate_in_range (g : AdaptiveGradientDescent.t) : Prop :=
  0 < AdaptiveGradientDescent.learning_rate g
    <= 2 * AdaptiveGradientDescent.base_learning_rate g.

(** Every declared bound is an interval: its minimum is not above its
    maximum. *)
Definition bounds_ordered (space : list (string * (Q * Q))) : Prop :=
  forall k lo hi, In (k, (lo, hi)) space -> lo <= hi.


(** The declared bounds are floats, as the constructor's signature says. *)
Definition bounds_are_floats (space : list (string * (Q * Q))) : Prop :=
  forall k lo hi, In (k, (lo, hi)) space ->
                  fits_float lo = true /\ fits_float hi = true.


(** The counter, the history and the metrics of the engine, which only
    [learn_from_experience] and [_update_performance_metrics] assign. *)
Definition same_bookkeeping (e e' : EnhancedAutonomousLearningCore.t) : Prop :=
  EnhancedAutonomousLearningCore.learning_iteration e'
    = EnhancedAutonomousLearningCore.learning_iteration e /\
  EnhancedAutonomousLearningCore.learning_experiences e'
    = EnhancedAutonomousLearningCore.learning_experiences e /\
  EnhancedAutonomousLearningCore.performance_metrics e'
    = EnhancedAutonomousLearningCore.performance_metrics e.

(** The entry [_update_performance_metrics] appends for an experience. *)
Definition overall_entry (performance : pyval) (experience : LearningExperience)
  : pyval :=
  PDict [("value"%string, performance);
         ("timestamp"%string, timestamp experience)].

(** The engine once the experience is in its history. *)
Definition with_experience (experience : LearningExperience)
    (e : EnhancedAutonomousLearningCore.t) : EnhancedAutonomousLearningCore.t :=
  EnhancedAutonomousLearningCore.set_learning_experiences
    (deque_append experience
       (EnhancedAutonomousLearningCore.learning_experiences e)) e.

(** The result a call of [learn_from_experience] builds when it went
    through. *)
Definition success_result (iteration : Z) (improvement : Q)
    (optimizer : string) (strength : Q) (experience : LearningExperience)
  : pyval :=
  PDict
    [("learning_iteration"%string, PNum (inject_Z iteration));
     ("performance_improvement"%string, PNum improvement);
     ("current_optimizer"%string, PStr optimizer);
     ("rl_policy_strength"%string, PNum strength);
     ("confidence"%string, confidence experience);
     ("timestamp"%string, timestamp experience)].

(** The engine once the experience is in its history and its performance
    in the overall metrics. *)
Definition after_metrics (performance : pyval) (experience : LearningExperience)
    (e : EnhancedAutonomousLearningCore.t) : EnhancedAutonomousLearningCore.t :=
  EnhancedAutonomousLearningCore.set_performance_metrics
    (EnhancedAutonomousLearningCore.metrics_append "overall"
       (overall_entry performance experience)
       (EnhancedAutonomousLearningCore.performance_metrics e))
    (with_experience experience e).

(** The two views [_apply_learning_updates] hands to the strategy. *)
Definition strategy_state (parameters performance : pyval)
  : list (string * pyval) :=
  [("parameters"%string, parameters); ("performance"%string, performance)].

Definition strategy_feedback (experience : LearningExperience)
    (performance gradients : pyval) : list (string * pyval) :=
  [("performance"%string, performance);
   ("reward"%string, reward experience);
   ("gradients"%string, gradients);
   ("confidence"%string, confidence experience)].


(** The assignment that ends [update_q_value]:
    [max(0.01, epsilon * epsilon_decay)]. *)
Definition decayed (epsilon_decay epsilon : Q) : Q :=
  py_max (1 # 100) (epsilon * epsilon_decay).
(** * The rest of the module

    The functions of the source that the sections above did not need. *)

(** ** More of numpy.random *)

(** [np.random.random()] is one draw of [random_sample]. *)
Definition random_random (rng : np_random) : Q * np_random :=
  (unit_draws rng (unit_next rng),
   mk_random (unit_draws rng) (normal_draws rng)
             (S (unit_next rng)) (normal_next rng)).

(** The integers the generator is going to produce: the [n]-th draw, asked
    for a value of [[low, high)]. *)
Record int_source : Type := mk_ints {
  int_draws : nat -> Z -> Z -> Z;
  int_next : nat
}.

(** [randint] never leaves [[low, high)]. *)
Definition int_draws_in_range (ints : int_source) : Prop :=
  forall n low high, (low < high)%Z ->
                     (low <= int_draws ints n low high < high)%Z.

(** [np.random.randint(low, high)]; an empty range raises ValueError. *)
Definition random_randint (low high : Z) (ints : int_source)
  : result Z * int_source :=
  if (high <=? low)%Z then (Raise ValueError, ints)
  else (Ok (int_draws ints (int_next ints) low high),
        mk_ints (int_draws ints) (S (int_next ints))).

(** ** ReinforcementLearningAgent.select_action *)

(** The scan of [np.argmax]: the index of the first cell that no later
    cell has to beat. *)
Fixpoint argmax_from (xs : list Q) (i best_i : nat) (best : Q) : nat :=
  match xs with
  | [] => best_i
  | x :: xs' =>
      if Qltb best x then argmax_from xs' (S i) i x
      else argmax_from xs' (S i) best_i best
  end.

(** [np.argmax]; an empty array raises ValueError. *)
Definition np_argmax (xs : list Q) : result nat :=
  match xs with
  | [] => Raise ValueError
  | x :: xs' => Ok (argmax_from xs' 1 0 x)
  end.

Definition select_action {rt : PyRuntime} (state : pyval)
    (ag : ReinforcementLearningAgent.t) (rng : np_random) (ints : int_source)
  : result Z * np_random * int_source :=
  match ReinforcementLearningAgent.get_state_hash ag state with
  | Raise e => (Raise e, rng, ints)
  | Ok state_hash =>
      let '(u, rng1) := random_random rng in
      if Qltb u (ReinforcementLearningAgent.epsilon ag) then
        let '(r, ints1) :=
          random_randint 0 (ReinforcementLearningAgent.action_space_size ag)
                         ints in
        (r, rng1, ints1)
      else
        (row <- ReinforcementLearningAgent.q_row ag state_hash ;;
         i <- np_argmax row ;;
         Ok (Z.of_nat i),
         rng1, ints)
  end.

(** ** EnhancedAutonomousLearningCore.get_learning_analytics *)

(** The square root of [np.std], which the rationals do not have. *)
Class NumpyFloat : Type := {
  np_sqrt : Q -> Q
}.

(** [l[-n:]] *)
Definition last_n {A : Type} (n : nat) (l : list A) : list A :=
  drop (length l - n) l.

(** The array numpy makes of a list of values before it reduces it:
    numbers, or else the reduction raises TypeError; an int beyond the
    floats makes an array of objects, whose mean raises OverflowError.  (A
    value that is itself a sequence, which numpy would take as one more
    axis, is outside the model and counts as not a number.) *)
Fixpoint np_array (vs : list pyval) : result (list Q) :=
  match vs with
  | [] => Ok []
  | v :: vs' =>
      match as_num v with
      | Some x =>
          if fits_float x then xs <- np_array vs' ;; Ok (x :: xs)
          else Raise OverflowError
      | None => Raise TypeError
      end
  end.

(** [np.min] of the cells [xs]; an empty array raises ValueError. *)
Definition np_min (xs : list Q) : result Q :=
  match xs with
  | [] => Raise ValueError
  | x :: xs' => Ok (fold_left Qmin xs' x)
  end.

Definition np_std {nf : NumpyFloat} (xs : list Q) : Q :=
  np_sqrt (ReinforcementLearningAgent.np_var xs).

(** The list comprehension over [exp.outcome.get('performance', 0.0)]. *)
Fixpoint performance_values (experiences : list LearningExperience)
  : result (list pyval) :=
  match experiences with
  | [] => Ok []
  | exp :: rest =>
      v <- py_get (outcome exp) "performance" (PNum 0) ;;
      vs <- performance_values rest ;;
      Ok (v :: vs)
  end.

(** The ['performance_trend'] entry: each statistic is 0.0 on an empty
    list. *)
Definition performance_trend {nf : NumpyFloat} (values : list pyval)
  : result pyval :=
  match values with
  | [] =>
      Ok (PDict [("mean"%string, PNum 0); ("std"%string, PNum 0);
                 ("min"%string, PNum 0); ("max"%string, PNum 0)])
  | _ =>
      xs <- np_array values ;;
      lo <- np_min xs ;;
      hi <- ReinforcementLearningAgent.np_max xs ;;
      Ok (PDict [("mean"%string, PNum (ReinforcementLearningAgent.np_mean xs));
                 ("std"%string, PNum (np_std xs));
                 ("min"%string, PNum lo);
                 ("max"%string, PNum hi)])
  end.

(** The ['confidence_trend'] entry. *)
Definition confidence_trend {nf : NumpyFloat} (values : list pyval)
  : result pyval :=
  match values with
  | [] => Ok (PDict [("mean"%string, PNum 0); ("std"%string, PNum 0)])
  | _ =>
      xs <- np_array values ;;
      Ok (PDict [("mean"%string, PNum (ReinforcementLearningAgent.np_mean xs));
                 ("std"%string, PNum (np_std xs))])
  end.

(** [get_learning_analytics]: a read of the engine, with nothing around
    it to catch what it raises. *)
Definition get_learning_analytics {nf : NumpyFloat}
    (e : EnhancedAutonomousLearningCore.t) : result pyval :=
  let history := items (EnhancedAutonomousLearningCore.learning_experiences e) in
  let recent_experiences := last_n 100 history in
  perf_values <- performance_values recent_experiences ;;
  let confidence_values := map confidence recent_experiences in
  perf <- performance_trend perf_values ;;
  conf <- confidence_trend confidence_values ;;
  strength <- ReinforcementLearningAgent.get_policy_strength
                (EnhancedAutonomousLearningCore.rl_agent e) ;;
  Ok (PDict
        [("total_experiences"%string,
          PNum (inject_Z (Z.of_nat (length history))));
         ("learning_iteration"%string,
          PNum (inject_Z (EnhancedAutonomousLearningCore.learning_iteration e)));
         ("current_optimizer"%string,
          PStr (EnhancedAutonomousLearningCore.current_optimizer e));
         ("performance_trend"%string, perf);
         ("confidence_trend"%string, conf);
         ("rl_agent_stats"%string,
          PDict [("policy_strength"%string, PNum strength);
                 ("epsilon"%string,
                  PNum (ReinforcementLearningAgent.epsilon
                          (EnhancedAutonomousLearningCore.rl_agent e)))])]).

(** ** get_learning_core and process_learning_request *)

(** A request: a map whose entries ['action'], ['config'] and
    ['experience'] may each be missing and may each be any value. *)
Record request_data : Type := mk_request {
  request_action : option pyval;
  request_config : option pyval;
  request_experience : option pyval
}.

(** [request_data.get('config', {})] *)
Definition config_of (request : request_data) : pyval :=
  match request_config request with Some c => c | None => PDict [] end.

(** [get_learning_core]: the global [_learning_core] is handed out when it
    is set; otherwise the constructor is called, and the global is set when
    it returns. *)
Definition get_learning_core (config : pyval)
    (_learning_core : option EnhancedAutonomousLearningCore.t)
  : EnhancedAutonomousLearningCore.construction :=
  match _learning_core with
  | None => EnhancedAutonomousLearningCore.construct config
  | Some core => EnhancedAutonomousLearningCore.Built core
  end.

(** The result for an action that is neither ['learn'] nor ['analytics']. *)
Definition unknown_action_result : pyval :=
  PDict [("error"%string, PStr "Unknown action");
         ("success"%string, PBool false)].

(** [process_learning_request]: what it returns or raises, and the global
    afterwards.  Nothing catches what the constructor raises, and the
    global stays unset then.  [None] stands for a process whose engine is
    outside this development (see [construct]). *)
Definition process_learning_request {rt : PyRuntime} {nf : NumpyFloat}
    (now : string) (request : request_data)
    (_learning_core : option EnhancedAutonomousLearningCore.t)
  : option (result pyval * option EnhancedAutonomousLearningCore.t) :=
  let action :=
    match request_action request with Some a => a | None => PStr "learn" end in
  let config := config_of request in
  match get_learning_core config _learning_core with
  | EnhancedAutonomousLearningCore.OddRate _ => None
  | EnhancedAutonomousLearningCore.Fails ex =>
      Some (Raise ex, _learning_core)
  | EnhancedAutonomousLearningCore.Built core =>
      if py_eq action (PStr "learn") then
        let experience_data :=
          match request_experience request with
          | Some x => x | None => PDict [] end in
        let '(result, core1) :=
          EnhancedAutonomousLearningCore.learn_from_experience
            now experience_data core in
        Some (Ok result, Some core1)
      else if py_eq action (PStr "analytics") then
        Some (get_learning_analytics core, Some core)
      else Some (Ok unknown_action_result, Some core)
  end.

(** Consecutive requests of one process, a caller going on after one that
    raises: what each returned or raised, and the global at the end. *)
Fixpoint serve {rt : PyRuntime} {nf : NumpyFloat}
    (requests : list (string * request_data))
    (_learning_core : option EnhancedAutonomousLearningCore.t)
  : option (list (result pyval) * option EnhancedAutonomousLearningCore.t) :=
  match requests with
  | [] => Some ([], _learning_core)
  | (now, request) :: rest =>
      match process_learning_request now request _learning_core with
      | None => None
      | Some (r, g1) =>
          match serve rest g1 with
          | None => None
          | Some (rs, g2) => Some (r :: rs, g2)
          end
      end
  end.

(** ** Concrete inputs for the rest of the module *)

(** An integer source that always draws the lowest value. *)
Definition lowest_ints : int_source := mk_ints (fun _ low _ => low) 0.

(** A generator whose uniform draws are all 1/2: above the default
    epsilon, so that [select_action] is greedy. *)
Definition half_generator : np_random :=
  mk_random (fun _ => 1 # 2) (fun _ => 0) 0 0.

(** An agent with one state and three actions whose best action is tied
    between the last two. *)
Definition tied_agent : ReinforcementLearningAgent.t :=
  ReinforcementLearningAgent.set_q_table [[0; 1; 1]]
    (ReinforcementLearningAgent.init 1 3 (1 # 10) (95 # 100) (1 # 10)
                                     (995 # 1000)).

(** A square root good enough for examples: the identity. *)
Definition identity_sqrt : NumpyFloat := {| np_sqrt := fun x => x |}.

(** A report of performance 1/2 with a gradient of 2 on the weight. *)
Definition weight_feedback : list (string * pyval) :=
  [("performance"%string, PNum (1 # 2));
   ("gradients"%string, PDict [("weight"%string, PNum 2)])].

(** A Bayesian strategy whose best parameters name a parameter that the
    space does not declare. *)
Definition stray_optimizer : BayesianOptimizer.t :=
  BayesianOptimizer.run_updates
    [ ([("parameters"%string, PDict [("momentum"%string, PNum (5 # 10))])],
       [("performance"%string, PNum (9 # 10))]);
      ([], [("performance"%string, PStr "n/a")]);
      ([("parameters"%string, PNum 3)], []) ]
    (BayesianOptimizer.init engine_parameter_space).


(** Three requests: one that is not a map, one whose performance is a
    string, and the first experience of the scenario. *)
Definition mixed_requests : list (string * pyval) :=
  [ ("t0"%string, PNum 3);
    ("t1"%string, bad_performance_experience);
    ("t2"%string, buy_experience) ].

(** The two experiences of the scenario, one after the other. *)
Definition scenario_requests : list (string * pyval) :=
  [ ("t0"%string, buy_experience); ("t1"%string, buy_again_experience) ].

(** An experience whose outcome is a string. *)
Definition bad_outcome_experience : pyval :=
  PDict [("action_taken"%string, PStr "buy");
         ("outcome"%string, PStr "lost")].

(** A request for a learning rate of 0.05 and one for 0.5, each with the
    default action and no experience, and a request for analytics. *)
Definition slow_request : request_data :=
  mk_request None (Some (PDict [("learning_rate"%string, PNum (5 # 100))]))
             None.

Definition fast_request : request_data :=
  mk_request None (Some (PDict [("learning_rate"%string, PNum (5 # 10))]))
             None.

(** A learn request whose configuration is the string ['fast']. *)
Definition string_config_request : request_data :=
  mk_request None (Some (PStr "fast")) None.

Definition analytics_request : request_data :=
  mk_request (Some (PStr "analytics")) None None.

(** The engine after the two experiences of the scenario. *)
Definition scenario_core : EnhancedAutonomousLearningCore.t :=
  snd (EnhancedAutonomousLearningCore.run_requests
         (rt := constant_hash_runtime) scenario_requests small_core).
(** ** Predicates used in the statements about the rest of the module *)

(** The decay of the gradient strategy:
    [self.learning_rate *= self.decay_factor]. *)
Definition decayed_rate (decay_factor learning_rate : Q) : Q :=
  learning_rate * decay_factor.

(** The parameters an [update] of the Bayesian strategy copies and the
    number it compares, for a call that returns: the parameters have a
    [copy] and the performance is a number. *)
Definition returning_update
    (c : list (string * pyval) * list (string * pyval))
  : option (pyval * Q) :=
  match py_copy (dict_get_or "parameters" (fst c) (PDict [])),
        as_num (dict_get_or "performance" (snd c) (PNum 0)) with
  | Ok p, Some x => Some (p, x)
  | _, _ => None
  end.


(** A value that [>] takes as a number. *)
Definition numeric (v : pyval) : bool :=
  match as_num v with Some _ => true | None => false end.

Definition is_map (v : pyval) : bool :=
  match v with PDict _ => true | _ => false end.

(** The performance a request reports to the strategy: the request, its
    context and its outcome are maps. *)
Definition reported_performance (data : pyval) : option pyval :=
  match data with
  | PDict d =>
      match dict_get_or "context" d (PDict []),
            dict_get_or "outcome" d (PDict []) with
      | PDict _, PDict out => Some (dict_get_or "performance" out (PNum 0))
      | _, _ => None
      end
  | _ => None
  end.

(** The gradients a request reports are a map of numbers. *)
Definition numeric_gradients (gradients : pyval) : bool :=
  match gradients with
  | PDict its => forallb (fun kv => float_number (snd kv)) its
  | _ => false
  end.

(** A request that the gradient strategy can take: maps where maps are
    read, and for the performance and the gradients numbers that the
    arithmetic with the floats of the engine takes.  The action and the
    reward are free, since the agent's step is allowed to fail. *)
Definition well_formed_request (data : pyval) : bool :=
  match data with
  | PDict d =>
      match dict_get_or "context" d (PDict []),
            dict_get_or "outcome" d (PDict []) with
      | PDict _, PDict out =>
          float_number (dict_get_or "performance" out (PNum 0)) &&
          numeric_gradients (dict_get_or "gradients" out (PDict []))
      | _, _ => false
      end
  | _ => false
  end.

(** A request that is a map whose outcome is not one. *)
Definition bad_outcome_request (data : pyval) : bool :=
  match data with
  | PDict d => negb (is_map (dict_get_or "outcome" d (PDict [])))
  | _ => false
  end.

(** The requests that are maps: the ones of which a record is made. *)
Definition map_requests (requests : list (string * pyval)) : nat :=
  length (List.filter (fun r => is_map (snd r)) requests).

(** A recorded experience whose performance and confidence are numbers. *)
Definition numeric_experience (x : LearningExperience) : bool :=
  match outcome x with
  | PDict out => float_number (dict_get_or "performance" out (PNum 0))
  | _ => false
  end && float_number (confidence x).

(** What no method of the agent assigns. *)
Definition same_agent_setup (ag ag' : ReinforcementLearningAgent.t) : Prop :=
  ReinforcementLearningAgent.state_space_size ag'
    = ReinforcementLearningAgent.state_space_size ag /\
  ReinforcementLearningAgent.action_space_size ag'
    = ReinforcementLearningAgent.action_space_size ag /\
  ReinforcementLearningAgent.learning_rate ag'
    = ReinforcementLearningAgent.learning_rate ag /\
  ReinforcementLearningAgent.discount_factor ag'
    = ReinforcementLearningAgent.discount_factor ag /\
  ReinforcementLearningAgent.epsilon_decay ag'
    = ReinforcementLearningAgent.epsilon_decay ag /\
  ReinforcementLearningAgent.experience_buffer ag'
    = ReinforcementLearningAgent.experience_buffer ag.

(** What a call of [learn_from_experience] leaves as it found it: the
    choice of strategy, the configuration, the strategy that is not the
    chosen one, the constants of the gradient strategy and of the agent, and
    the capacities of the bounded sequences. *)
Definition untouched (e e' : EnhancedAutonomousLearningCore.t) : Prop :=
  EnhancedAutonomousLearningCore.current_optimizer e'
    = EnhancedAutonomousLearningCore.current_optimizer e /\
  EnhancedAutonomousLearningCore.config e'
    = EnhancedAutonomousLearningCore.config e /\
  (EnhancedAutonomousLearningCore.current_optimizer e = "gradient"%string ->
   EnhancedAutonomousLearningCore.bayesian_optimizer e'
     = EnhancedAutonomousLearningCore.bayesian_optimizer e) /\
  (EnhancedAutonomousLearningCore.current_optimizer e <> "gradient"%string ->
   EnhancedAutonomousLearningCore.gradient_optimizer e'
     = EnhancedAutonomousLearningCore.gradient_optimizer e) /\
  same_setup (EnhancedAutonomousLearningCore.gradient_optimizer e)
             (EnhancedAutonomousLearningCore.gradient_optimizer e') /\
  AdaptiveGradientDescent.momentum
    (EnhancedAutonomousLearningCore.gradient_optimizer e')
    = AdaptiveGradientDescent.momentum
        (EnhancedAutonomousLearningCore.gradient_optimizer e) /\
  maxlen (AdaptiveGradientDescent.performance_history
            (EnhancedAutonomousLearningCore.gradient_optimizer e'))
    = maxlen (AdaptiveGradientDescent.performance_history
                (EnhancedAutonomousLearningCore.gradient_optimizer e)) /\
  same_agent_setup (EnhancedAutonomousLearningCore.rl_agent e)
                   (EnhancedAutonomousLearningCore.rl_agent e') /\
  maxlen (EnhancedAutonomousLearningCore.learning_experiences e')
    = maxlen (EnhancedAutonomousLearningCore.learning_experiences e).

(** An engine on which a well-formed request goes through: the gradient
    strategy is the chosen one and its window holds numbers, the agent's
    table has the shape of its sizes, with at least one cell, and the
    performance the engine remembers is one a float can be subtracted
    from. *)
Definition ready (e : EnhancedAutonomousLearningCore.t) : Prop :=
  EnhancedAutonomousLearningCore.current_optimizer e = "gradient"%string /\
  Forall (fun v => numeric v = true)
         (items (AdaptiveGradientDescent.performance_history
                   (EnhancedAutonomousLearningCore.gradient_optimizer e))) /\
  ReinforcementLearningAgent.well_shaped
    (EnhancedAutonomousLearningCore.rl_agent e) /\
  (0 < ReinforcementLearningAgent.state_space_size
         (EnhancedAutonomousLearningCore.rl_agent e))%Z /\
  (0 < ReinforcementLearningAgent.action_space_size
         (EnhancedAutonomousLearningCore.rl_agent e))%Z /\
  fits_float (EnhancedAutonomousLearningCore.last_performance e) = true.

(** The report of [get_learning_analytics], by its entries. *)
Definition analytics_report (total : nat) (iteration : Z) (optimizer : string)
    (performance_trend confidence_trend : pyval) (strength epsilon : Q)
  : pyval :=
  PDict
    [("total_experiences"%string, PNum (inject_Z (Z.of_nat total)));
     ("learning_iteration"%string, PNum (inject_Z iteration));
     ("current_optimizer"%string, PStr optimizer);
     ("performance_trend"%string, performance_trend);
     ("confidence_trend"%string, confidence_trend);
     ("rl_agent_stats"%string,
      PDict [("policy_strength"%string, PNum strength);
             ("epsilon"%string, PNum epsilon)])].

Definition performance_trend_entry (mean std lo hi : Q) : pyval :=
  PDict [("mean"%string, PNum mean); ("std"%string, PNum std);
         ("min"%string, PNum lo); ("max"%string, PNum hi)].

Definition confidence_trend_entry (mean std : Q) : pyval :=
  PDict [("mean"%string, PNum mean); ("std"%string, PNum std)].

(** The map [self.config] is for a configuration with which the
    constructor returns: the configuration itself, or an empty map for a
    configuration that is falsy. *)
Definition config_map (config : pyval) : list (string * pyval) :=
  if py_truthy config then
    match config with PDict d => d | _ => [] end
  else [].

(** The learning rate the constructor finds in it. *)
Definition configured_rate (config : pyval) : pyval :=
  dict_get_or "learning_rate" (config_map config) (PNum (1 # 100)).

(** A request of which [_update_performance_metrics] makes an entry: a map
    whose outcome is a map. *)
Definition metric_request (data : pyval) : bool :=
  match data with
  | PDict d => is_map (dict_get_or "outcome" d (PDict []))
  | _ => false
  end.

Definition metric_requests (requests : list (string * pyval)) : nat :=
  length (List.filter (fun r => metric_request (snd r)) requests).

(** The entries under ['overall']. *)
Definition overall_metrics (e : EnhancedAutonomousLearningCore.t)
  : list pyval :=
  dict_get_or "overall" (EnhancedAutonomousLearningCore.performance_metrics e)
              [].

(** A request whose action is ['learn'], given or by default, and the
    experience it carries. *)
Definition learn_request (request : request_data) : bool :=
  match request_action request with
  | Some action => py_eq action (PStr "learn")
  | None => true
  end.

Definition experience_of (request : request_data) : pyval :=
  match request_experience request with
  | Some experience => experience
  | None => PDict []
  end.

Definition payloads (requests : list (string * request_data))
  : list (string * pyval) :=
  map (fun r => (fst r, experience_of (snd r))) requests.
(** * Properties *)

(** ** Comparisons and clamps *)

Lemma Qltb_lt (x y : Q) : Qltb x y = true <-> x < y.
Proof.
  unfold Qltb. rewrite negb_true_iff, <- not_true_iff_false, Qle_bool_iff.
  split; [apply Qnot_le_lt | apply Qlt_not_le].
Qed.

Lemma Qltb_ge (x y : Q) : Qltb x y = false <-> y <= x.
Proof.
  unfold Qltb. rewrite negb_false_iff. apply Qle_bool_iff.
Qed.

Lemma py_max_cases (a b : Q) :
  (a < b /\ py_max a b = b) \/ (b <= a /\ py_max a b = a).
Proof.
  unfold py_max. destruct (Qltb a b) eqn:E.
  - left. split; [now apply Qltb_lt | reflexivity].
  - right. split; [now apply Qltb_ge | reflexivity].
Qed.

Lemma py_min_cases (a b : Q) :
  (b < a /\ py_min a b = b) \/ (a <= b /\ py_min a b = a).
Proof.
  unfold py_min. destruct (Qltb b a) eqn:E.
  - left. split; [now apply Qltb_lt | reflexivity].
  - right. split; [now apply Qltb_ge | reflexivity].
Qed.

Ltac split_clamps :=
  repeat match goal with
    | |- context [py_max ?a ?b] =>
        let H := fresh "Hmax" in
        destruct (py_max_cases a b) as [[? H] | [? H]]; rewrite H in *
    | |- context [py_min ?a ?b] =>
        let H := fresh "Hmin" in
        destruct (py_min_cases a b) as [[? H] | [? H]]; rewrite H in *
    end.

Lemma py_max_comp (a a' b b' : Q) :
  a == a' -> b == b' -> py_max a b == py_max a' b'.
Proof. intros Ha Hb. split_clamps; lra. Qed.



(** ** The range of the floats *)


(** ** The Q-learning agent *)

Section RLAgent.
Import ReinforcementLearningAgent.

Lemma Qsum_squares_nonneg (m : Q) (xs : list Q) :
  0 <= Qsum (map (fun x => (x - m) * (x - m)) xs).
Proof.
  induction xs as [|x xs IH]; simpl.
  - lra.
  - assert (Hsq : 0 <= (x - m) * (x - m))
      by (generalize (x - m); intros y; nra).
    change (0 <= (x - m) * (x - m)
                 + Qsum (map (fun x => (x - m) * (x - m)) xs)).
    generalize dependent (Qsum (map (fun x => (x - m) * (x - m)) xs)).
    generalize dependent ((x - m) * (x - m)).
    intros; lra.
Qed.

Lemma np_var_nonneg (xs : list Q) : 0 <= np_var xs.
Proof.
  unfold np_var, np_mean at 1. unfold Qdiv.
  apply Qmult_le_0_compat; [apply Qsum_squares_nonneg|].
  apply Qinv_le_0_compat.
  change 0 with (inject_Z 0). rewrite <- Zle_Qle. lia.
Qed.

Lemma np_max_zeros (n : nat) : np_max (repeat 0 (S n)) = Ok 0.
Proof.
  simpl. f_equal.
  induction n as [|n IH]; simpl; [reflexivity | exact IH].
Qed.

Lemma concat_zero_rows (a s : nat) :
  concat (repeat (repeat 0 a) s) = repeat 0 (s * a).
Proof.
  induction s as [|s IH]; simpl; [reflexivity|].
  rewrite IH. symmetry. apply repeat_app.
Qed.

Lemma fold_Qmax_spec (xs : list Q) (x : Q) :
  In (fold_left Qmax xs x) (x :: xs) /\
  (forall y, In y (x :: xs) -> y <= fold_left Qmax xs x).
Proof.
  revert x. induction xs as [|z xs IH]; intros x; simpl.
  - split; [now left | intros y [<- | []]; lra].
  - destruct (IH (Qmax x z)) as [Hin Hub]. split.
    + destruct Hin as [Hin | Hin]; [|now right; right].
      rewrite <- Hin. unfold Qmax, GenericMinMax.gmax.
      destruct (x ?= z); [left | right; left | left]; reflexivity.
    + intros y [<- | [<- | Hy]].
      * eapply Qle_trans; [apply Q.le_max_l | apply Hub; now left].
      * eapply Qle_trans; [apply Q.le_max_r | apply Hub; now left].
      * apply Hub. now right.
Qed.

(** [np_max] returns a cell of the array that no cell exceeds. *)
Lemma np_max_spec (xs : list Q) (m : Q) :
  np_max xs = Ok m -> In m xs /\ (forall y, In y xs -> y <= m).
Proof.
  destruct xs as [|x xs]; simpl; [discriminate|].
  intros [= <-]. apply fold_Qmax_spec.
Qed.

Lemma np_max_nonempty (xs : list Q) :
  xs <> [] -> exists m, np_max xs = Ok m.
Proof. destruct xs; [congruence | eexists; reflexivity]. Qed.

(** C1, as amended.  On a table with at least one cell,
    [get_policy_strength] returns a number that is at most 1; it is
    exactly 0 when the maximum of the table is 0, in particular when every
    cell is 0, and [min(1.0, variance / maximum)] otherwise; it is in
    [0, 1] whenever the maximum is not negative. *)
Theorem get_policy_strength_range (ag : t)
    (Hcells : concat (q_table ag) <> []) :
  exists max_q r,
    np_max (concat (q_table ag)) = Ok max_q /\
    get_policy_strength ag = Ok r /\
    r <= 1 /\
    (max_q == 0 -> r = 0) /\
    (~ max_q == 0 ->
     r = py_min 1 (np_var (concat (q_table ag)) / max_q)) /\
    (0 <= max_q -> 0 <= r <= 1) /\
    ((forall x, In x (concat (q_table ag)) -> x == 0) -> r = 0).
Proof.
  destruct (np_max_nonempty _ Hcells) as [max_q Hmax].
  pose proof (np_var_nonneg (concat (q_table ag))) as Hvar.
  destruct (np_max_spec _ _ Hmax) as [Hin _].
  unfold get_policy_strength. rewrite Hmax. simpl.
  destruct (Qeq_bool max_q 0) eqn:Ez.
  - exists max_q, 0. apply Qeq_bool_iff in Ez.
    repeat split; try reflexivity; lra.
  - apply Qeq_bool_neq in Ez.
    exists max_q, (py_min 1 (np_var (concat (q_table ag)) / max_q)).
    assert (Hratio : 0 <= max_q -> 0 <= np_var (concat (q_table ag)) / max_q).
    { intros Hpos. apply Qle_shift_div_l; lra. }
    split; [reflexivity|]. split; [reflexivity|].
    split; [split_clamps; lra|].
    split; [intros Hz; contradiction|].
    split; [reflexivity|].
    split; [intros Hpos; specialize (Hratio Hpos); split_clamps; lra|].
    intros Hall. exfalso. apply Ez. now apply Hall.
Qed.

(** The amended C1 at the agent the constructor builds by default: its
    1000 x 10 table of zeros has policy strength exactly 0. *)
Lemma get_policy_strength_range_witness :
  concat (q_table default) <> [] /\
  get_policy_strength default = Ok 0.
Proof.
  assert (Hne : concat (q_table default) <> []) by (vm_compute; discriminate).
  split; [exact Hne|].
  destruct (get_policy_strength_range default Hne)
    as (max_q & r & _ & Hr & _ & _ & _ & _ & Hzero).
  rewrite Hr. f_equal. apply Hzero.
  intros x Hx.
  change (q_table default)
    with (repeat (repeat 0 (Z.to_nat 10)) (Z.to_nat 1000)) in Hx.
  rewrite concat_zero_rows in Hx. apply repeat_spec in Hx. now subst.
Defined.

(** C1 as stated fails: two terminal updates with negative rewards fill
    the table of a one-state, two-action agent with [-1; -3]; its variance
    is 1, its maximum -1, and the policy strength -1 is below 0. *)
Lemma get_policy_strength_below_zero :
  let ag := snd (@run_updates constant_hash_runtime
                              two_negative_rewards two_cell_agent) in
  q_table ag = [[-1; -3]] /\
  exists r, get_policy_strength ag = Ok r /\ r == -1 /\ ~ (0 <= r <= 1).
Proof.
  split; [reflexivity|].
  exists (-32 # 32). split; [reflexivity|].
  split; [reflexivity|]. intros [H _]. revert H. now vm_compute.
Qed.

(** *** The update of one cell *)



Lemma np_index_nonneg (n : nat) (i : Z) :
  (0 <= i < Z.of_nat n)%Z -> np_index n i = Ok (Z.to_nat i).
Proof.
  intros Hi. unfold np_index.
  destruct ((0 <=? i)%Z && (i <? Z.of_nat n)%Z) eqn:E1; [reflexivity|].
  apply andb_false_iff in E1. lia.
Qed.

Section WithRuntime.
Context {rt : PyRuntime}.

Lemma get_state_hash_range (ag : t) (state : pyval) (s : Z) :
  (0 <= state_space_size ag)%Z ->
  get_state_hash ag state = Ok s ->
  (0 <= s < state_space_size ag)%Z.
Proof.
  intros Hsz. unfold get_state_hash, py_mod.
  destruct (py_items state) as [its|e]; simpl; [|discriminate].
  destruct (state_space_size ag =? 0)%Z eqn:E; [discriminate|].
  intros [= <-]. apply Z.eqb_neq in E. apply Z.mod_pos_bound. lia.
Qed.

Lemma get_state_hash_dict (ag : t) (d : list (string * pyval)) :
  (0 < state_space_size ag)%Z ->
  exists s, get_state_hash ag (PDict d) = Ok s.
Proof.
  intros Hsz. unfold get_state_hash, py_mod. simpl.
  destruct (state_space_size ag =? 0)%Z eqn:E; [|eauto].
  apply Z.eqb_eq in E. lia.
Qed.



Lemma q_store_shape (tbl : list (list Q)) (rc : nat * nat) (v : Q) (a : nat) :
  Forall (fun row => length row = a) tbl ->
  length (q_store tbl rc v) = length tbl /\
  Forall (fun row => length row = a) (q_store tbl rc v).
Proof.
  intros Hrows. unfold q_store.
  destruct (tbl !! rc.1) as [row|] eqn:Er; [|easy].
  split; [apply length_insert|].
  apply Forall_insert; [exact Hrows|].
  rewrite length_insert. eapply Forall_lookup_1 in Hrows; eauto.
Qed.




Lemma init_well_shaped (s a : Z) (lr g e d : Q) :
  (0 <= s)%Z -> (0 <= a)%Z -> well_shaped (init s a lr g e d).
Proof.
  intros Hs Ha. repeat split; simpl; try assumption.
  - apply repeat_length.
  - apply Forall_forall. intros row Hrow.
    apply list_elem_of_In, repeat_spec in Hrow. subst.
    apply repeat_length.
Qed.

(** *** The decay of epsilon *)

Lemma update_q_value_epsilon (ag : t) state action reward next_state done :
  let '(r, ag') := update_q_value state action reward next_state done ag in
  epsilon_decay ag' = epsilon_decay ag /\
  state_space_size ag' = state_space_size ag /\
  action_space_size ag' = action_space_size ag /\
  match r with
  | Ok _ => epsilon ag' = py_max (1 # 100) (epsilon ag * epsilon_decay ag)
  | Raise _ => ag' = ag
  end.
Proof.
  unfold update_q_value.
  match goal with |- context [match ?r with Ok _ => _ | Raise _ => _ end] =>
    destruct r as [[rc new_q]|e] end; simpl; auto.
Qed.

Lemma Qpow_unit_interval (d : Q) (n : nat) :
  0 <= d <= 1 -> 0 <= Qpow d n <= 1.
Proof.
  intros Hd. induction n as [|n IH]; simpl; [lra|].
  generalize dependent (Qpow d n). intros p Hp. nra.
Qed.


(** With exact products the iterated decay has the closed form of the
    specification.  The products of the code are rounded one by one, so its
    epsilon is the iteration, not the closed form. *)
Lemma decayed_iter_exact (d e : Q) (n : nat) :
  0 <= d <= 1 -> (1 <= n)%nat ->
  Nat.iter n (decayed d) e == py_max (1 # 100) (e * Qpow d n).
Proof.
  intros Hd Hn. destruct n as [|n]; [lia|]. clear Hn.
  induction n as [|n IH].
  - cbn. unfold decayed. apply py_max_comp; [reflexivity | ring].
  - change (Nat.iter (S (S n)) (decayed d) e)
      with (decayed d (Nat.iter (S n) (decayed d) e)).
    unfold decayed at 1.
    rewrite (py_max_comp _ (1 # 100) _
               (py_max (1 # 100) (e * Qpow d (S n)) * d) (Qeq_refl _));
      [|now rewrite IH].
    change (Qpow d (S (S n))) with (d * Qpow d (S n)).
    assert (Hp : 0 <= Qpow d (S n) <= 1) by now apply Qpow_unit_interval.
    generalize dependent (Qpow d (S n)). intros p _ Hp.
    assert (Hswap : e * (d * p) == e * p * d) by ring.
    rewrite (py_max_comp _ (1 # 100) _ (e * p * d) (Qeq_refl _) Hswap).
    generalize (e * p). intros u.
    destruct (py_max_cases (1 # 100) u) as [[Hu ->] | [Hu ->]];
      [reflexivity|].
    assert (u * d <= 1 # 100) by nra.
    split_clamps; nra.
Qed.

End WithRuntime.



End RLAgent.

(** ** Bounded sequences *)

Section Deque.
Context {A : Type}.

Lemma deque_append_maxlen (x : A) (d : deque A) :
  maxlen (deque_append x d) = maxlen d.
Proof. reflexivity. Qed.

Lemma deque_extend_maxlen (xs : list A) (d : deque A) :
  maxlen (deque_extend xs d) = maxlen d.
Proof.
  revert d. induction xs as [|x xs IH]; intros d; [reflexivity|].
  unfold deque_extend in *. simpl. now rewrite IH.
Qed.

(** Within capacity before, within capacity after: the append keeps the
    most recent [maxlen] elements of what was there followed by [x]. *)
Lemma deque_append_items (x : A) (d : deque A) :
  (length (items d) <= maxlen d)%nat ->
  items (deque_append x d)
  = drop (length (items d ++ [x]) - maxlen d) (items d ++ [x]).
Proof.
  intros Hcap. unfold deque_append. simpl.
  rewrite length_app. simpl.
  destruct (maxlen d <? length (items d) + 1)%nat eqn:E.
  - apply Nat.ltb_lt in E.
    replace (length (items d) + 1 - maxlen d)%nat with 1%nat by lia.
    now destruct (items d ++ [x]).
  - apply Nat.ltb_ge in E.
    replace (length (items d) + 1 - maxlen d)%nat with 0%nat by lia.
    reflexivity.
Qed.

Lemma deque_append_length (x : A) (d : deque A) :
  (length (items d) <= maxlen d)%nat ->
  (length (items (deque_append x d)) <= maxlen d)%nat.
Proof.
  intros Hcap. rewrite deque_append_items by exact Hcap.
  rewrite length_drop, length_app. simpl. lia.
Qed.

Lemma deque_extend_items (xs : list A) (d : deque A) :
  (length (items d) <= maxlen d)%nat ->
  items (deque_extend xs d)
  = drop (length (items d ++ xs) - maxlen d) (items d ++ xs)
  /\ (length (items (deque_extend xs d)) <= maxlen d)%nat.
Proof.
  revert d. induction xs as [|x xs IH]; intros d Hcap.
  - simpl. rewrite app_nil_r.
    replace (length (items d) - maxlen d)%nat with 0%nat by lia.
    split; [reflexivity | exact Hcap].
  - change (deque_extend (x :: xs) d)
      with (deque_extend xs (deque_append x d)).
    pose proof (deque_append_length x d Hcap) as Hcap'.
    destruct (IH (deque_append x d) Hcap') as [Hitems Hlen].
    rewrite deque_append_maxlen in *. split; [|exact Hlen].
    rewrite Hitems, deque_append_items by exact Hcap.
    set (m := items d ++ [x]).
    replace (items d ++ x :: xs) with (m ++ xs)
      by (unfold m; now rewrite <- app_assoc).
    rewrite <- drop_app_le by lia.
    rewrite drop_drop. f_equal.
    rewrite length_drop, length_app.
    assert (length m = length (items d) + 1)%nat
      by (unfold m; rewrite length_app; reflexivity).
    lia.
Qed.

(** Reading from the right end after an append. *)
Lemma deque_from_end_append (x : A) (d : deque A) (i : nat) :
  (i < length (items (deque_append x d)))%nat ->
  rev (items (deque_append x d)) !! i = (x :: rev (items d)) !! i.
Proof.
  unfold deque_append. simpl. intros Hi.
  destruct (maxlen d <? length (items d ++ [x]))%nat.
  - destruct (items d ++ [x]) as [|a m] eqn:Em.
    + simpl in Hi. lia.
    + simpl in Hi. rewrite <- (rev_unit (items d) x), Em. simpl.
      symmetry. apply lookup_app_l. now rewrite length_rev.
  - now rewrite rev_unit.
Qed.
End Deque.

(** C8, as amended.  A bounded sequence of capacity [C] into which [C + k]
    records were inserted one by one never held more than [C] elements on
    the way, holds exactly [C] at the end, and these are the [C] most recent
    insertions in their original order: the [k] oldest were evicted.  The
    capacities the constructors declare are 10000 for the history of the
    engine, 50 for the performance window of the gradient strategy and 10000
    for the experience buffer of the agent. *)
Theorem bounded_sequence_keeps_most_recent {A : Type} (C k : nat)
    (inserted : list A) (Hcount : length inserted = (C + k)%nat) :
  let d := deque_extend inserted (deque_new C) in
  (forall n, (length (items (deque_extend (take n inserted) (deque_new C)))
              <= C)%nat) /\
  length (items d) = C /\
  items d = drop k inserted /\
  inserted = take k inserted ++ items d /\
  (forall cfg,
     maxlen (EnhancedAutonomousLearningCore.learning_experiences
               (EnhancedAutonomousLearningCore.init cfg)) = Z.to_nat 10000) /\
  (forall lr m af df,
     maxlen (AdaptiveGradientDescent.performance_history
               (AdaptiveGradientDescent.init lr m af df)) = 50%nat) /\
  (forall s a lr g e dc,
     maxlen (ReinforcementLearningAgent.experience_buffer
               (ReinforcementLearningAgent.init s a lr g e dc)) = Z.to_nat 10000).
Proof.
  cbv zeta.
  assert (Hnew : (length (items (@deque_new A C)) <= maxlen (@deque_new A C))%nat)
    by (simpl; lia).
  destruct (deque_extend_items inserted (deque_new C) Hnew) as [Hitems _].
  simpl in Hitems. replace (length inserted - C)%nat with k in Hitems by lia.
  split.
  { intros n. now destruct (deque_extend_items (take n inserted) (deque_new C) Hnew). }
  split; [rewrite Hitems, length_drop; lia|].
  split; [exact Hitems|].
  split; [rewrite Hitems; symmetry; apply take_drop|].
  repeat split.
Qed.

(** The amended C8 on a window of two slots that received three records. *)
Lemma bounded_sequence_keeps_most_recent_witness :
  length [1; 2; 3]%nat = (2 + 1)%nat /\
  items (deque_extend [1; 2; 3]%nat (deque_new 2)) = [2; 3]%nat.
Proof.
  split; [reflexivity|].
  exact (proj1 (proj2 (proj2
           (bounded_sequence_keeps_most_recent 2 1 [1; 2; 3]%nat eq_refl)))).
Defined.

(** C8 as stated fails: after 51 = 50 + 1 updates the performance window of
    the gradient strategy holds its 50 most recent performances, not the
    k = 1 most recent one. *)
Lemma window_is_not_the_overflow :
  let inserted := map (fun c => dict_get_or "performance" (snd c) (PNum 0))
                      (rising_performances 51) in
  let g := AdaptiveGradientDescent.run_updates
             (rising_performances 51)
             (AdaptiveGradientDescent.default (1 # 100)) in
  length inserted = (50 + 1)%nat /\
  length (items (AdaptiveGradientDescent.performance_history g)) = 50%nat /\
  items (AdaptiveGradientDescent.performance_history g)
    <> drop (length inserted - 1) inserted.
Proof.
  cbv zeta. split; [reflexivity|]. split; [reflexivity|].
  intros Heq. apply (f_equal (@length pyval)) in Heq.
  vm_compute in Heq. discriminate.
Qed.

(** ** The gradient strategy *)

Section Gradient.
Import AdaptiveGradientDescent.

Lemma py_gt_numbers (a b : pyval) (x y : Q) :
  as_num a = Some x -> as_num b = Some y -> py_gt a b = Ok (Qltb y x).
Proof.
  intros Ha Hb.
  destruct a as [|[]| | | |]; try discriminate;
    destruct b as [|[]| | | |]; try discriminate;
    simpl in *; congruence.
Qed.

Lemma adapt_learning_rate_frame (g : t) :
  same_setup g (snd (adapt_learning_rate g)) /\
  performance_history (snd (adapt_learning_rate g)) = performance_history g.
Proof.
  unfold adapt_learning_rate, same_setup.
  destruct (2 <=? length (items (performance_history g)))%nat; [|easy].
  destruct (deque_from_end 1 (performance_history g)); [|easy].
  destruct (deque_from_end 2 (performance_history g)); [|easy].
  destruct (py_gt p p0) as [[]|]; easy.
Qed.

Lemma update_velocity_frame (its : list (string * pyval)) (g : t) :
  learning_rate (snd (update_velocity its g)) = learning_rate g /\
  same_setup g (snd (update_velocity its g)) /\
  performance_history (snd (update_velocity its g)) = performance_history g.
Proof.
  revert g. induction its as [|[k v] its IH]; intros g; [easy|].
  simpl.
  set (g1 := if dict_mem k (velocity g) then g
             else set_velocity (dict_set k 0 (velocity g)) g).
  assert (H1 : learning_rate g1 = learning_rate g /\ same_setup g g1 /\
               performance_history g1 = performance_history g)
    by (unfold g1, same_setup; destruct (dict_mem k (velocity g)); easy).
  destruct (dict_get k (velocity g1)); [|exact H1].
  destruct (py_mul_num (learning_rate g1) v) as [step|]; [|exact H1].
  match goal with |- context [update_velocity its ?g2] =>
    destruct (IH g2) as (IHlr & (IHb & IHa & IHd) & IHh) end.
  destruct H1 as (Hlr & (Hb & Ha & Hd) & Hh). unfold same_setup.
  simpl in *. repeat split; congruence.
Qed.

(** The learning rate after [update] is the one the trend rule sets on
    the window extended by the reported performance. *)
Lemma update_learning_rate (cs fb : list (string * pyval)) (g : t) :
  let g1 := set_performance_history
              (deque_append (dict_get_or "performance" fb (PNum 0))
                            (performance_history g)) g in
  learning_rate (snd (update cs fb g))
    = learning_rate (snd (adapt_learning_rate g1)) /\
  same_setup g (snd (update cs fb g)) /\
  performance_history (snd (update cs fb g)) = performance_history g1.
Proof.
  cbv zeta. unfold update.
  match goal with |- context [adapt_learning_rate ?g1] =>
    pose proof (adapt_learning_rate_frame g1) as [Hs Hh];
    destruct (adapt_learning_rate g1) as [[[]|e] g2] end; simpl in *;
    [|easy].
  destruct (py_items (dict_get_or "gradients" fb (PDict []))) as [its|e];
    simpl; [|easy].
  pose proof (update_velocity_frame its g2) as (Vlr & (Vb & Va & Vd) & Vh).
  destruct (update_velocity its g2) as [[[]|e] g3]; simpl in *;
    destruct Hs as (Hb & Ha & Hd); unfold same_setup; simpl in *;
    repeat split; congruence.
Qed.

Lemma adapt_learning_rate_range (g : t) :
  1 < adaptive_factor g -> 0 < decay_factor g < 1 ->
  rate_in_range g -> rate_in_range (snd (adapt_learning_rate g)).
Proof.
  unfold rate_in_range, adapt_learning_rate. intros Haf Hdf Hr.
  destruct (2 <=? length (items (performance_history g)))%nat; [|easy].
  destruct (deque_from_end 1 (performance_history g)); [|easy].
  destruct (deque_from_end 2 (performance_history g)); [|easy].
  destruct (py_gt p p0) as [[]|]; simpl; [| |easy].
  - split_clamps; nra.
  - nra.
Qed.

Lemma update_range (cs fb : list (string * pyval)) (g : t) :
  1 < adaptive_factor g -> 0 < decay_factor g < 1 ->
  rate_in_range g -> rate_in_range (snd (update cs fb g)).
Proof.
  intros Haf Hdf Hr.
  destruct (update_learning_rate cs fb g) as (Hlr & (Hb & _) & _).
  unfold rate_in_range. rewrite Hlr, Hb.
  match goal with |- context [adapt_learning_rate ?g1] =>
    pose proof (adapt_learning_rate_range g1 Haf Hdf Hr) as Hrange;
    destruct (adapt_learning_rate_frame g1) as [(Hb1 & _) _] end.
  unfold rate_in_range in Hrange. now rewrite Hb1 in Hrange.
Qed.

Lemma run_updates_range calls (g : t) :
  1 < adaptive_factor g -> 0 < decay_factor g < 1 ->
  rate_in_range g ->
  rate_in_range (run_updates calls g) /\ same_setup g (run_updates calls g).
Proof.
  revert g. induction calls as [|[cs fb] calls IH]; intros g Haf Hdf Hr.
  - now split.
  - unfold run_updates in *. simpl.
    destruct (update_learning_rate cs fb g) as (_ & (Hb & Ha & Hd) & _).
    destruct (IH (snd (update cs fb g))) as (IHr & IHb & IHa & IHd).
    + now rewrite Ha.
    + now rewrite Hd.
    + now apply update_range.
    + split; [exact IHr|]. unfold same_setup. repeat split; congruence.
Qed.

(** An update that reports more than the last performance of the window
    does not lower the learning rate. *)
Lemma update_rising (cs fb : list (string * pyval)) (g : t)
    (previous : pyval) (p q : Q) :
  1 < adaptive_factor g -> rate_in_range g ->
  deque_from_end 1 (performance_history g) = Some previous ->
  as_num previous = Some p ->
  as_num (dict_get_or "performance" fb (PNum 0)) = Some q ->
  p < q ->
  learning_rate g <= learning_rate (snd (update cs fb g)).
Proof.
  intros Haf Hr Hprev Hp Hq Hpq.
  destruct (update_learning_rate cs fb g) as (Hlr & _ & _).
  rewrite Hlr. clear Hlr.
  set (perf := dict_get_or "performance" fb (PNum 0)) in *.
  unfold adapt_learning_rate. simpl performance_history.
  destruct (2 <=? length (items (deque_append perf (performance_history g))))%nat
    eqn:Elen; [|simpl; lra].
  apply Nat.leb_le in Elen.
  unfold deque_from_end in *.
  rewrite !deque_from_end_append by lia. simpl.
  replace (rev (items (performance_history g)) !! 0%nat) with (Some previous).
  rewrite (py_gt_numbers perf previous q p Hq Hp).
  apply Qltb_lt in Hpq. rewrite Hpq. simpl.
  unfold rate_in_range in Hr. split_clamps; nra.
Qed.

Lemma update_short_window (cs fb : list (string * pyval)) (g : t) :
  items (performance_history g) = [] ->
  learning_rate (snd (update cs fb g)) = learning_rate g.
Proof.
  intros Hempty.
  destruct (update_learning_rate cs fb g) as (Hlr & _ & _).
  rewrite Hlr. unfold adapt_learning_rate, deque_append. simpl.
  rewrite Hempty. simpl.
  now destruct (maxlen (performance_history g) <? 1)%nat.
Qed.

Lemma run_updates_snoc calls c (g : t) :
  run_updates (calls ++ [c]) g
  = snd (update (fst c) (snd c) (run_updates calls g)).
Proof. unfold run_updates. now rewrite fold_left_app. Qed.

(** C5.  A gradient strategy built with a positive learning rate, an
    adaptive factor above 1 and a decay factor in (0, 1) keeps its
    learning rate at or below twice the base rate through any sequence
    of updates; an update that reports a performance strictly above the
    previously reported one does not lower the learning rate; so two
    consecutive reports p < q leave the rate after q at or above the
    rate after p. *)
Theorem gradient_learning_rate_bounds (g0 : t)
    (calls : list (list (string * pyval) * list (string * pyval)))
    (Haf : 1 < adaptive_factor g0)
    (Hdf : 0 < decay_factor g0 < 1)
    (Hbase : 0 < base_learning_rate g0)
    (Hinit : learning_rate g0 = base_learning_rate g0) :
  let g := run_updates calls g0 in
  learning_rate g <= 2 * base_learning_rate g0 /\
  (forall cs fb previous p q,
     deque_from_end 1 (performance_history g) = Some previous ->
     as_num previous = Some p ->
     as_num (dict_get_or "performance" fb (PNum 0)) = Some q ->
     p < q ->
     learning_rate g <= learning_rate (snd (update cs fb g))) /\
  (forall p q,
     p < q ->
     learning_rate (run_updates (calls ++ [performance_feedback p]) g0)
     <= learning_rate
          (run_updates
             (calls ++ [performance_feedback p; performance_feedback q])
             g0)).
Proof.
  cbv zeta.
  assert (Hr0 : rate_in_range g0)
    by (unfold rate_in_range; rewrite Hinit; lra).
  assert (Hreach : forall cl,
            rate_in_range (run_updates cl g0) /\
            1 < adaptive_factor (run_updates cl g0) /\
            base_learning_rate (run_updates cl g0) = base_learning_rate g0).
  { intros cl.
    destruct (run_updates_range cl g0 Haf Hdf Hr0) as (Hr & Hb & Ha & _).
    rewrite Ha. auto. }
  destruct (Hreach calls) as (Hr & Haf' & Hb).
  split; [unfold rate_in_range in Hr; rewrite Hb in Hr; tauto|].
  split.
  - intros cs fb previous p q Hprev Hp Hq Hpq.
    eapply update_rising; eauto.
  - intros p q Hpq.
    replace (calls ++ [performance_feedback p; performance_feedback q])
      with ((calls ++ [performance_feedback p]) ++ [performance_feedback q])
      by (now rewrite <- app_assoc).
    rewrite (run_updates_snoc (calls ++ [performance_feedback p])).
    destruct (Hreach (calls ++ [performance_feedback p])) as (Hrp & Hafp & _).
    set (gp := run_updates (calls ++ [performance_feedback p]) g0) in *.
    assert (Hh : performance_history gp
                 = deque_append (PNum p)
                     (performance_history (run_updates calls g0))).
    { unfold gp. rewrite run_updates_snoc.
      now destruct (update_learning_rate (fst (performance_feedback p))
                      (snd (performance_feedback p)) (run_updates calls g0))
        as (_ & _ & ->). }
    destruct (items (performance_history gp)) as [|x l] eqn:Eitems.
    + rewrite update_short_window by exact Eitems. lra.
    + eapply (update_rising _ _ gp (PNum p) p q); eauto.
      unfold deque_from_end. rewrite Hh.
      rewrite deque_from_end_append; [reflexivity|].
      rewrite <- Hh, Eitems. simpl. lia.
Qed.

(** C5 at the default strategy after three rising reports. *)
Lemma gradient_learning_rate_bounds_witness :
  let g0 := default (1 # 100) in
  1 < adaptive_factor g0 /\ 0 < decay_factor g0 < 1 /\
  0 < base_learning_rate g0 /\
  learning_rate g0 = base_learning_rate g0 /\
  learning_rate (run_updates (rising_performances 3) g0)
    <= 2 * base_learning_rate g0.
Proof.
  cbv zeta.
  assert (Haf : 1 < adaptive_factor (default (1 # 100))) by reflexivity.
  assert (Hdf : 0 < decay_factor (default (1 # 100)) < 1)
    by (split; reflexivity).
  assert (Hbase : 0 < base_learning_rate (default (1 # 100)))
    by reflexivity.
  repeat (split; [assumption || reflexivity|]).
  exact (proj1 (gradient_learning_rate_bounds (default (1 # 100))
                  (rising_performances 3) Haf Hdf Hbase eq_refl)).
Defined.
End Gradient.

(** ** Dictionaries *)

Section DictFacts.
Context {V : Type}.
Implicit Types (d : list (string * V)) (k : string) (v : V).

Lemma dict_get_In k d v : dict_get k d = Some v -> In (k, v) d.
Proof.
  induction d as [|[k' v'] d IH]; simpl; [discriminate|].
  destruct (String.eqb_spec k k') as [->|Hne].
  - intros [= ->]. now left.
  - intros Hget. right. now apply IH.
Qed.

Lemma dict_get_key k d :
  In k (map fst d) -> exists v, dict_get k d = Some v.
Proof.
  induction d as [|[k' v'] d IH]; simpl; [easy|].
  destruct (String.eqb_spec k k') as [->|Hne]; [eauto|].
  intros [Heq | Hin]; [congruence | now apply IH].
Qed.

Lemma dict_get_set k' k v d :
  dict_get k' (dict_set k v d)
  = if String.eqb k' k then Some v else dict_get k' d.
Proof.
  induction d as [|[k0 v0] d IH]; simpl.
  - reflexivity.
  - destruct (String.eqb_spec k k0) as [->|Hne]; simpl.
    + destruct (String.eqb_spec k' k0); reflexivity.
    + destruct (String.eqb_spec k' k0) as [->|Hne'].
      * destruct (String.eqb_spec k0 k); [congruence | reflexivity].
      * exact IH.
Qed.




End DictFacts.

(** ** The Bayesian strategy *)

Section Bayes.
Import BayesianOptimizer.

Lemma score_le_refl (s : score) : score_le s s.
Proof. destruct s; simpl; [exact I | lra]. Qed.

Lemma score_le_trans (s1 s2 s3 : score) :
  score_le s1 s2 -> score_le s2 s3 -> score_le s1 s3.
Proof. destruct s1, s2, s3; simpl; try easy. lra. Qed.

Lemma exceeds_spec (x : Q) (s : score) :
  exceeds x s = true <-> score_lt_num s x.
Proof. destruct s; simpl; [easy | apply Qltb_lt]. Qed.

(** One update either leaves the best score and parameters alone, or
    has seen a number strictly above the best score and adopts it. *)
Lemma update_best (cs fb : list (string * pyval)) (b : t) :
  let performance := dict_get_or "performance" fb (PNum 0) in
  let b' := snd (update cs fb b) in
  (best_score b' = best_score b /\ best_params b' = best_params b /\
   forall x, as_num performance = Some x ->
             is_ok (fst (update cs fb b)) = true ->
             ~ score_lt_num (best_score b) x)
  \/ (exists x, as_num performance = Some x /\
                score_lt_num (best_score b) x /\
                best_score b' = Score x).
Proof.
  cbv zeta. unfold update.
  destruct (py_copy (dict_get_or "parameters" cs (PDict []))) as [copied|e];
    simpl; [|left; repeat split; intros; discriminate].
  destruct (as_num (dict_get_or "performance" fb (PNum 0))) as [x|] eqn:Ex;
    simpl; [|left; repeat split; intros; discriminate].
  destruct (exceeds x (best_score b)) eqn:Eexc; simpl.
  - right. exists x. apply exceeds_spec in Eexc. auto.
  - left. repeat split. intros x' [= <-] _ Hlt.
    apply exceeds_spec in Hlt. congruence.
Qed.

(** C6.  Across Bayesian updates the best score never goes down, and
    the best score and the best parameters change only on an update
    whose performance is a number strictly above the best score so far;
    a performance equal to the best score changes neither. *)
Theorem best_score_monotone (b : t) (cs fb : list (string * pyval)) :
  let performance := dict_get_or "performance" fb (PNum 0) in
  let b' := snd (update cs fb b) in
  score_le (best_score b) (best_score b') /\
  (best_score b' <> best_score b \/ best_params b' <> best_params b ->
   exists x, as_num performance = Some x /\
             score_lt_num (best_score b) x /\
             best_score b' = Score x) /\
  (forall x y, as_num performance = Some x ->
               best_score b = Score y ->
               x == y ->
               best_score b' = best_score b /\
               best_params b' = best_params b) /\
  (forall calls, score_le (best_score b) (best_score (run_updates calls b))).
Proof.
  cbv zeta.
  assert (Hstep : forall b0 cs0 fb0,
            score_le (best_score b0) (best_score (snd (update cs0 fb0 b0)))).
  { intros b0 cs0 fb0.
    destruct (update_best cs0 fb0 b0) as [(-> & _ & _) | (x & _ & Hlt & ->)].
    - apply score_le_refl.
    - destruct (best_score b0); simpl in *; [exact I | lra]. }
  split; [apply Hstep|]. split; [|split].
  - intros Hchanged.
    destruct (update_best cs fb b) as [(Hs & Hp & _) | Hnew];
      [|exact Hnew].
    destruct Hchanged; congruence.
  - intros x y Hx Hy Hxy.
    destruct (update_best cs fb b) as [(Hs & Hp & _) | (x' & Hx' & Hlt & _)];
      [now split|].
    exfalso. rewrite Hy in Hlt. simpl in Hlt.
    assert (x' = x) by congruence. subst. lra.
  - intros calls. revert b.
    induction calls as [|[cs0 fb0] calls IH]; intros b.
    + apply score_le_refl.
    + unfold run_updates in *. simpl.
      eapply score_le_trans; [apply Hstep | apply IH].
Qed.

(** C6 at the first observation of a fresh strategy: the score moves
    from minus infinity to the observed 1. *)
Lemma best_score_monotone_witness :
  let b := init [("learning_rate"%string, (1 # 1000, 1 # 10))] in
  let fb := [("performance"%string, PNum 1)] in
  best_score (snd (update [] fb b)) <> best_score b /\
  exists x, as_num (dict_get_or "performance" fb (PNum 0)) = Some x /\
            score_lt_num (best_score b) x /\
            best_score (snd (update [] fb b)) = Score x.
Proof.
  cbv zeta.
  assert (Hchanged :
    best_score (snd (update [] [("performance"%string, PNum 1)]
                       (init [("learning_rate"%string, (1 # 1000, 1 # 10))])))
    <> best_score (init [("learning_rate"%string, (1 # 1000, 1 # 10))]))
    by discriminate.
  split; [exact Hchanged|].
  exact (proj1 (proj2 (best_score_monotone
                         (init [("learning_rate"%string, (1 # 1000, 1 # 10))])
                         [] [("performance"%string, PNum 1)]))
               (or_introl Hchanged)).
Defined.

(** *** Proposals stay within the declared bounds *)








(** *** What a proposal holds *)

Lemma dict_set_keys_present {V : Type} (k : string) (v : V)
    (d : list (string * V)) :
  In k (map fst d) -> map fst (dict_set k v d) = map fst d.
Proof.
  induction d as [|[k0 v0] d IH]; simpl; [easy|].
  destruct (String.eqb_spec k k0) as [->|Hne]; [reflexivity|].
  intros [Heq | Hin]; [congruence|]. simpl. f_equal. now apply IH.
Qed.

Lemma dict_set_keys_absent {V : Type} (k : string) (v : V)
    (d : list (string * V)) :
  ~ In k (map fst d) -> map fst (dict_set k v d) = map fst d ++ [k].
Proof.
  induction d as [|[k0 v0] d IH]; simpl; [easy|].
  intros Hnot.
  destruct (String.eqb_spec k k0) as [->|Hne]; [tauto|].
  simpl. f_equal. apply IH. tauto.
Qed.

Lemma sample_into_keys_draws (space : list (string * (Q * Q)))
    (acc : list (string * pyval)) (rng : np_random) :
  List.NoDup (map fst acc ++ map fst space) ->
  map fst (fst (sample_into space acc rng)) = map fst acc ++ map fst space /\
  unit_next (snd (sample_into space acc rng))
  = (unit_next rng + length space)%nat /\
  normal_next (snd (sample_into space acc rng)) = normal_next rng.
Proof.
  revert acc rng. induction space as [|[k [lo hi]] space IH];
    intros acc rng Hnd.
  - simpl. rewrite app_nil_r. repeat split. lia.
  - simpl. simpl in Hnd.
    assert (Hk : ~ In k (map fst acc)).
    { apply List.NoDup_remove_2 in Hnd. intros Hin. apply Hnd.
      apply in_or_app. now left. }
    match goal with |- context [sample_into space ?acc1 ?rng1] =>
      destruct (IH acc1 rng1) as (Hkeys & Hu & Hn) end.
    { rewrite dict_set_keys_absent by exact Hk.
      now rewrite <- app_assoc. }
    rewrite Hkeys, Hu, Hn, dict_set_keys_absent by exact Hk.
    rewrite <- app_assoc. simpl. repeat split. lia.
Qed.

Lemma perturb_keys_draws (b : t) (keys : list string)
    (bp out : list (string * pyval)) (rng rng' : np_random) :
  perturb b keys bp rng = (Ok out, rng') ->
  map fst out = map fst bp /\
  normal_next rng' = (normal_next rng + length keys)%nat /\
  unit_next rng' = unit_next rng.
Proof.
  revert bp rng. induction keys as [|key keys IH]; intros bp rng Hrun.
  - simpl in Hrun. injection Hrun as <- <-. repeat split. simpl. lia.
  - simpl in Hrun.
    destruct (dict_get key (parameter_space b)) as [[lo hi]|]; [|discriminate].
    destruct (dict_get key bp) as [old|] eqn:Eold; [|discriminate].
    unfold random_normal in Hrun.
    destruct (Qltb ((hi - lo) * (1 # 10)) 0); [discriminate|].
    destruct (py_add_num old _) as [moved|]; [|discriminate].
    destruct (IH _ _ Hrun) as (Hkeys & Hn & Hu). simpl in Hn, Hu.
    rewrite Hkeys, Hn, Hu. split; [|simpl; lia].
    apply dict_set_keys_present. apply dict_get_In in Eold.
    now apply (in_map fst) in Eold.
Qed.





End Bayes.

(** ** The learning engine *)

Section Engine.
Import EnhancedAutonomousLearningCore.
Context {rt : PyRuntime}.

Lemma same_bookkeeping_refl (e : t) : same_bookkeeping e e.
Proof. now repeat split. Qed.

Lemma same_bookkeeping_trans (e1 e2 e3 : t) :
  same_bookkeeping e1 e2 -> same_bookkeeping e2 e3 -> same_bookkeeping e1 e3.
Proof.
  unfold same_bookkeeping. intros (? & ? & ?) (? & ? & ?).
  repeat split; congruence.
Qed.

Lemma update_performance_metrics_cases (experience : LearningExperience)
    (e : t) :
  match py_get (outcome experience) "performance" (PNum 0) with
  | Ok performance =>
      _update_performance_metrics experience e
      = (Ok tt,
         set_performance_metrics
           (metrics_append "overall" (overall_entry performance experience)
                           (performance_metrics e)) e)
  | Raise ex => _update_performance_metrics experience e = (Raise ex, e)
  end.
Proof.
  unfold _update_performance_metrics, bind, lift, modify.
  now destruct (py_get (outcome experience) "performance" (PNum 0)).
Qed.

Lemma dispatch_update_frame (cs fb : list (string * pyval)) (e : t) :
  same_bookkeeping e (snd (dispatch_update cs fb e)) /\
  last_performance (snd (dispatch_update cs fb e)) = last_performance e.
Proof.
  unfold dispatch_update.
  destruct (String.eqb (current_optimizer e) "gradient").
  - destruct (AdaptiveGradientDescent.update cs fb (gradient_optimizer e)).
    now repeat split.
  - destruct (String.eqb (current_optimizer e) "bayesian").
    + destruct (BayesianOptimizer.update cs fb (bayesian_optimizer e)).
      now repeat split.
    + now repeat split.
Qed.

Lemma apply_learning_updates_frame (experience : LearningExperience) (e : t) :
  same_bookkeeping e (snd (_apply_learning_updates experience e)).
Proof.
  unfold _apply_learning_updates, bind, lift, gets, modify, ret.
  destruct (py_get (context experience) "parameters" (PDict []));
    [|apply same_bookkeeping_refl].
  destruct (py_get (outcome experience) "performance" (PNum 0)) as [perf|];
    [|apply same_bookkeeping_refl].
  destruct (py_get (outcome experience) "gradients" (PDict []));
    [|apply same_bookkeeping_refl].
  match goal with |- context [dispatch_update ?cs ?fb e] =>
    destruct (dispatch_update_frame cs fb e) as [Hd _];
    destruct (dispatch_update cs fb e) as [[s|ex] e1] end;
    simpl in *; [|exact Hd].
  destruct (as_num perf) as [x|]; [destruct (fits_float x)|]; simpl; exact Hd.
Qed.

(** [_update_rl_agent] returns whatever its body does, and assigns
    nothing but the agent; a body that raises leaves the agent alone. *)
Lemma update_rl_agent_isolated (experience : LearningExperience) (e : t) :
  fst (_update_rl_agent experience e) = Ok tt /\
  same_bookkeeping e (snd (_update_rl_agent experience e)) /\
  (is_ok (fst (rl_update experience (rl_agent e))) = false ->
   rl_agent (snd (_update_rl_agent experience e)) = rl_agent e).
Proof.
  unfold _update_rl_agent.
  destruct (rl_update experience (rl_agent e)) as [r ag] eqn:Erl.
  simpl. repeat split.
  intros Hraise. unfold rl_update in Erl.
  match type of Erl with (match ?args with _ => _ end) = _ =>
    destruct args as [[[[action r0] next_state] done]|ex] end.
  - unfold ReinforcementLearningAgent.update_q_value in Erl.
    match type of Erl with (match ?q with _ => _ end) = _ =>
      destruct q as [[rc new_q]|ex] end;
      injection Erl as <- <-; [discriminate | reflexivity].
  - now injection Erl as <- <-.
Qed.

(** The ways through [learn_from_experience], step by step. *)
Lemma learn_from_experience_cases (now : string) (data : pyval) (e : t) :
  match make_experience now data with
  | Raise ex => learn_from_experience now data e = (failure_result ex, e)
  | Ok experience =>
      match _update_performance_metrics experience (with_experience experience e) with
      | (Raise ex, e2) =>
          learn_from_experience now data e = (failure_result ex, e2)
      | (Ok _, e2) =>
          match _apply_learning_updates experience e2 with
          | (Raise ex, e3) =>
              learn_from_experience now data e = (failure_result ex, e3)
          | (Ok learned, e3) =>
              let e4 := snd (_update_rl_agent experience e3) in
              match ReinforcementLearningAgent.get_policy_strength
                      (rl_agent e4) with
              | Raise ex =>
                  learn_from_experience now data e = (failure_result ex, e4)
              | Ok strength =>
                  learn_from_experience now data e
                  = (success_result (learning_iteration e4)
                       (performance_improvement learned)
                       (current_optimizer e4) strength experience,
                     set_learning_iteration (learning_iteration e4 + 1)%Z e4)
              end
          end
      end
  end.
Proof.
  unfold learn_from_experience, learn_body, bind, lift, modify, gets, ret,
    with_experience.
  destruct (make_experience now data) as [experience|ex]; [|reflexivity].
  destruct (_update_performance_metrics experience _) as [[[]|ex] e2];
    [|reflexivity].
  destruct (_apply_learning_updates experience e2) as [[learned|ex] e3];
    [|reflexivity].
  pose proof (update_rl_agent_isolated experience e3) as [Hok _].
  destruct (_update_rl_agent experience e3) as [r e4]. simpl in *. subst r.
  now destruct (ReinforcementLearningAgent.get_policy_strength (rl_agent e4)).
Qed.

Lemma failure_result_is_failure (ex : exn) :
  is_failure (failure_result ex) = true.
Proof. reflexivity. Qed.

Lemma success_result_not_failure iteration improvement optimizer strength
    experience :
  is_failure (success_result iteration improvement optimizer strength
                             experience) = false.
Proof. reflexivity. Qed.

(** A call either fails and leaves the counter alone, or succeeds,
    reports the counter it found and leaves it one higher. *)
Lemma learn_from_experience_outcome (now : string) (data : pyval) (e : t) :
  (is_failure (fst (learn_from_experience now data e)) = true /\
   learning_iteration (snd (learn_from_experience now data e))
   = learning_iteration e)
  \/
  (exists improvement optimizer strength experience,
     fst (learn_from_experience now data e)
     = success_result (learning_iteration e) improvement optimizer strength
                      experience /\
     learning_iteration (snd (learn_from_experience now data e))
     = (learning_iteration e + 1)%Z).
Proof.
  pose proof (learn_from_experience_cases now data e) as Hcases.
  destruct (make_experience now data) as [experience|ex].
  2:{ rewrite Hcases. left. split; [reflexivity|easy]. }
  pose proof (update_performance_metrics_cases experience
                (with_experience experience e)) as Hmetrics.
  destruct (py_get (outcome experience) "performance" (PNum 0))
    as [performance|ex]; rewrite Hmetrics in Hcases.
  2:{ rewrite Hcases. left. split; [reflexivity|easy]. }
  match type of Hcases with context [_apply_learning_updates experience ?e2] =>
    pose proof (apply_learning_updates_frame experience e2) as (Hit3 & _);
    destruct (_apply_learning_updates experience e2) as [[learned|ex] e3] end;
    simpl in Hit3.
  2:{ rewrite Hcases. left. split; [reflexivity|easy]. }
  pose proof (update_rl_agent_isolated experience e3) as (_ & (Hit4 & _) & _).
  cbv zeta in Hcases.
  destruct (ReinforcementLearningAgent.get_policy_strength
              (rl_agent (snd (_update_rl_agent experience e3))))
    as [strength|ex]; rewrite Hcases; simpl.
  - right. rewrite Hit4, Hit3. eexists _, _, _, _. split; reflexivity.
  - left. split; [reflexivity | congruence].
Qed.

(** Over consecutive calls the counter grows by the number of results
    that are not failures. *)
Lemma run_requests_counts (requests : list (string * pyval)) (e : t) :
  learning_iteration (snd (run_requests requests e))
  = (learning_iteration e
     + Z.of_nat (successes (fst (run_requests requests e))))%Z.
Proof.
  revert e. induction requests as [|[now data] requests IH]; intros e.
  - unfold successes. simpl. lia.
  - simpl.
    pose proof (learn_from_experience_outcome now data e) as Hcall.
    destruct (learn_from_experience now data e) as [result e1].
    specialize (IH e1).
    destruct (run_requests requests e1) as [results e2].
    unfold successes in *. cbn [fst snd List.filter] in *.
    destruct Hcall as [[Hfail Hit] | (i & o & s & x & Hres & Hit)].
    + rewrite Hfail. cbn [negb]. lia.
    + rewrite Hres, success_result_not_failure. cbn [negb length]. lia.
Qed.

(** A strategy step that raises in its dispatch raises as a whole, with
    the engine as the dispatch left it. *)
Lemma apply_learning_updates_dispatch_raises (experience : LearningExperience)
    (parameters performance gradients : pyval) (e2 e3 : t) (ex : exn) :
  py_get (context experience) "parameters" (PDict []) = Ok parameters ->
  py_get (outcome experience) "performance" (PNum 0) = Ok performance ->
  py_get (outcome experience) "gradients" (PDict []) = Ok gradients ->
  dispatch_update (strategy_state parameters performance)
                  (strategy_feedback experience performance gradients) e2
  = (Raise ex, e3) ->
  _apply_learning_updates experience e2 = (Raise ex, e3).
Proof.
  intros Hpar Hperf Hgrad Hdisp.
  unfold _apply_learning_updates, bind, lift.
  rewrite Hpar, Hperf, Hgrad.
  unfold strategy_state, strategy_feedback in Hdisp. now rewrite Hdisp.
Qed.

(** A strategy step that raises after the metrics were updated. *)
Lemma strategy_step_raises (now : string) (data : pyval) (e e3 : t)
    (experience : LearningExperience) (performance : pyval) (ex : exn) :
  make_experience now data = Ok experience ->
  py_get (outcome experience) "performance" (PNum 0) = Ok performance ->
  _apply_learning_updates experience (after_metrics performance experience e)
  = (Raise ex, e3) ->
  learn_from_experience now data e = (failure_result ex, e3) /\
  learning_iteration e3 = learning_iteration e /\
  learning_experiences e3 = deque_append experience (learning_experiences e) /\
  performance_metrics e3
  = metrics_append "overall" (overall_entry performance experience)
                   (performance_metrics e).
Proof.
  intros Hexp Hperf Happly.
  pose proof (learn_from_experience_cases now data e) as Hcases.
  pose proof (update_performance_metrics_cases experience
                (with_experience experience e)) as Hmetrics.
  rewrite Hexp in Hcases. rewrite Hperf in Hmetrics.
  rewrite Hmetrics in Hcases. simpl performance_metrics in Hcases.
  unfold after_metrics in Happly. rewrite Happly in Hcases.
  split; [exact Hcases|].
  match type of Happly with _apply_learning_updates _ ?e2 = _ =>
    pose proof (apply_learning_updates_frame experience e2) as Hframe end.
  rewrite Happly in Hframe. destruct Hframe as (Hit & Hhist & Hmet).
  simpl in *. auto.
Qed.

(** C2.  A call of [learn_from_experience] that returns a failure
    result leaves [learning_iteration] as it was, and one that returns a
    success result leaves it exactly 1 higher; over consecutive calls the
    counter grows by the number of successes.  [_update_rl_agent] never
    raises, and when its body raises while the other steps go through, the
    call is a success and the counter is incremented all the same. *)
Theorem learning_iteration_counts_successes (now : string) (data : pyval)
    (e : t) :
  let result := fst (learn_from_experience now data e) in
  let e' := snd (learn_from_experience now data e) in
  (is_failure result = true -> learning_iteration e' = learning_iteration e) /\
  (is_failure result = false ->
   learning_iteration e' = (learning_iteration e + 1)%Z) /\
  (forall requests,
     learning_iteration (snd (run_requests requests e))
     = (learning_iteration e
        + Z.of_nat (successes (fst (run_requests requests e))))%Z) /\
  (forall experience e0, fst (_update_rl_agent experience e0) = Ok tt) /\
  (forall experience e2 learned e3 strength,
     make_experience now data = Ok experience ->
     _update_performance_metrics experience (with_experience experience e)
     = (Ok tt, e2) ->
     _apply_learning_updates experience e2 = (Ok learned, e3) ->
     is_ok (fst (rl_update experience (rl_agent e3))) = false ->
     ReinforcementLearningAgent.get_policy_strength (rl_agent e3)
     = Ok strength ->
     is_failure result = false /\
     learning_iteration e' = (learning_iteration e + 1)%Z).
Proof.
  cbv zeta.
  assert (Hsucc : is_failure (fst (learn_from_experience now data e)) = false ->
            learning_iteration (snd (learn_from_experience now data e))
            = (learning_iteration e + 1)%Z).
  { destruct (learn_from_experience_outcome now data e)
      as [[Hfail _] | (i & o & s & x & _ & Hit)]; [congruence | auto]. }
  split; [|split; [exact Hsucc|split; [|split]]].
  - destruct (learn_from_experience_outcome now data e)
      as [[_ Hit] | (i & o & s & x & Hres & _)]; [auto|].
    rewrite Hres, success_result_not_failure. discriminate.
  - intros requests. apply run_requests_counts.
  - intros experience e0. apply update_rl_agent_isolated.
  - intros experience e2 learned e3 strength Hexp Hmetrics Happly Hraise Hstr.
    assert (Hnot : is_failure (fst (learn_from_experience now data e)) = false).
    { pose proof (learn_from_experience_cases now data e) as Hcases.
      rewrite Hexp, Hmetrics, Happly in Hcases. cbv zeta in Hcases.
      destruct (update_rl_agent_isolated experience e3) as (_ & _ & Hsame).
      rewrite (Hsame Hraise), Hstr in Hcases. rewrite Hcases.
      apply success_result_not_failure. }
    split; [exact Hnot | exact (Hsucc Hnot)].
Qed.

(** C3.  When the construction of the experience raises, the call
    returns the failure result and the engine is as it was.  When the
    strategy step raises, be it in the dispatch to the active strategy or
    around it, the call returns the failure result with the engine as the
    step left it: the counter is as it was, and the experience appended
    to the history and the entry appended to the overall metrics are still
    there.  The failure result has an ['error'] field and
    ['success': False]. *)
Theorem failure_keeps_partial_updates (now : string) (data : pyval) (e : t) :
  (forall ex,
     make_experience now data = Raise ex ->
     learn_from_experience now data e = (failure_result ex, e)) /\
  (forall experience performance e3 ex,
     make_experience now data = Ok experience ->
     py_get (outcome experience) "performance" (PNum 0) = Ok performance ->
     _apply_learning_updates experience
       (after_metrics performance experience e) = (Raise ex, e3) ->
     learn_from_experience now data e = (failure_result ex, e3) /\
     learning_iteration e3 = learning_iteration e /\
     learning_experiences e3
     = deque_append experience (learning_experiences e) /\
     performance_metrics e3
     = metrics_append "overall" (overall_entry performance experience)
                      (performance_metrics e)) /\
  (forall experience parameters performance gradients e3 ex,
     make_experience now data = Ok experience ->
     py_get (context experience) "parameters" (PDict []) = Ok parameters ->
     py_get (outcome experience) "performance" (PNum 0) = Ok performance ->
     py_get (outcome experience) "gradients" (PDict []) = Ok gradients ->
     dispatch_update (strategy_state parameters performance)
       (strategy_feedback experience performance gradients)
       (after_metrics performance experience e) = (Raise ex, e3) ->
     learn_from_experience now data e = (failure_result ex, e3) /\
     learning_iteration e3 = learning_iteration e /\
     learning_experiences e3
     = deque_append experience (learning_experiences e) /\
     performance_metrics e3
     = metrics_append "overall" (overall_entry performance experience)
                      (performance_metrics e)) /\
  (forall ex,
     is_failure (failure_result ex) = true /\
     exists d, failure_result ex = PDict d /\
               dict_get "error" d = Some (PStr (exn_str ex)) /\
               dict_get "success" d = Some (PBool false)).
Proof.
  split; [|split; [|split]].
  - intros ex Hexp.
    pose proof (learn_from_experience_cases now data e) as Hcases.
    now rewrite Hexp in Hcases.
  - intros experience performance e3 ex. apply strategy_step_raises.
  - intros experience parameters performance gradients e3 ex
           Hexp Hpar Hperf Hgrad Hdisp.
    apply (strategy_step_raises now data e e3 experience performance ex
             Hexp Hperf).
    eapply apply_learning_updates_dispatch_raises; eauto.
  - intros ex. split; [reflexivity|]. eexists. repeat split.
Qed.

(** C10.  The ['learning_iteration'] field of a success result is the
    counter as the call found it, which the call leaves one higher.  On an
    engine that served some calls since its construction, the field is the
    number of those calls that succeeded: the constructor sets the counter
    to 0, so the first success reports 0 and leaves the counter at 1. *)
Theorem reported_iteration_is_count_before (now : string) (data : pyval)
    (e : t) :
  let result := fst (learn_from_experience now data e) in
  let e' := snd (learn_from_experience now data e) in
  (is_failure result = false ->
   exists d,
     result = PDict d /\
     dict_get "learning_iteration" d
     = Some (PNum (inject_Z (learning_iteration e))) /\
     learning_iteration e' = (learning_iteration e + 1)%Z) /\
  (forall cfg requests,
     e = snd (run_requests requests (init cfg)) ->
     is_failure result = false ->
     exists d,
       result = PDict d /\
       dict_get "learning_iteration" d
       = Some (PNum (inject_Z (Z.of_nat
            (successes (fst (run_requests requests (init cfg)))))))) /\
  (forall cfg, learning_iteration (init cfg) = 0%Z).
Proof.
  cbv zeta.
  assert (Hreport : is_failure (fst (learn_from_experience now data e)) = false ->
            exists d,
              fst (learn_from_experience now data e) = PDict d /\
              dict_get "learning_iteration" d
              = Some (PNum (inject_Z (learning_iteration e))) /\
              learning_iteration (snd (learn_from_experience now data e))
              = (learning_iteration e + 1)%Z).
  { intros Hnot.
    destruct (learn_from_experience_outcome now data e)
      as [[Hfail _] | (i & o & s & x & Hres & Hit)]; [congruence|].
    rewrite Hres. eexists. split; [reflexivity|].
    split; [reflexivity|exact Hit]. }
  split; [exact Hreport|]. split; [|reflexivity].
  intros cfg requests He Hnot.
  destruct (Hreport Hnot) as (d & Hd & Hget & _).
  exists d. split; [exact Hd|]. rewrite Hget.
  rewrite He, run_requests_counts. simpl learning_iteration.
  now rewrite Z.add_0_l.
Qed.
End Engine.

Section EngineExamples.
Import EnhancedAutonomousLearningCore.

(** The scenario of the specification: after the performances 0.8 and
    0.6 the second result reports an improvement of -0.2 and iteration 1,
    and the counter is 2. *)
Example two_experiences_scenario :
  let r1 := learn_from_experience (rt := constant_hash_runtime)
              "t0" buy_experience small_core in
  let r2 := learn_from_experience (rt := constant_hash_runtime)
              "t1" buy_again_experience (snd r1) in
  learning_iteration (snd r2) = 2%Z /\
  exists d improvement,
    fst r2 = PDict d /\
    dict_get "learning_iteration" d = Some (PNum 1) /\
    dict_get "performance_improvement" d = Some (PNum improvement) /\
    improvement == - (2 # 10).
Proof.
  cbv zeta. split; [reflexivity|].
  eexists _, _. split; [vm_compute; reflexivity|].
  split; [reflexivity|]. split; reflexivity.
Qed.

(** C2 on an experience whose action is a list: hashing it raises inside
    [_update_rl_agent], and the call succeeds and counts all the same. *)
Lemma learning_iteration_counts_successes_witness :
  let r := learn_from_experience (rt := constant_hash_runtime)
             "t0" unhashable_action_experience small_core in
  is_ok (fst (rl_update (rt := constant_hash_runtime)
                (mk_experience (PStr "t0") (PDict [])
                   (PList [PStr "buy"])
                   (PDict [("performance"%string, PNum (8 # 10))])
                   (PNum 1) (PNum (1 # 2)) (PDict []))
                two_cell_agent)) = false /\
  is_failure (fst r) = false /\ learning_iteration (snd r) = 1%Z.
Proof.
  cbv zeta. split; [reflexivity|].
  eapply (proj2 (proj2 (proj2 (proj2
            (learning_iteration_counts_successes
               (rt := constant_hash_runtime)
               "t0" unhashable_action_experience small_core)))));
    lazy; reflexivity.
Defined.

(** C3 on an experience with a gradient that is a string: the gradient
    strategy raises on the product with the learning rate, inside the
    dispatch, and the history and the metrics keep what was appended. *)
Lemma failure_keeps_partial_updates_witness :
  let r := learn_from_experience (rt := constant_hash_runtime)
             "t0" bad_gradient_experience (init None) in
  fst r = failure_result (rt := constant_hash_runtime) TypeError /\
  learning_iteration (snd r) = 0%Z /\
  length (items (learning_experiences (snd r))) = 1%nat /\
  performance_metrics (snd r)
  = [("overall"%string,
      [PDict [("value"%string, PNum (8 # 10));
              ("timestamp"%string, PStr "t0")]])].
Proof.
  cbv zeta.
  destruct (proj1 (proj2 (proj2
              (failure_keeps_partial_updates (rt := constant_hash_runtime)
                 "t0" bad_gradient_experience (init None))))
              _ (PDict []) (PNum (8 # 10))
              (PDict [("weight"%string, PStr "steep")]) _ TypeError
              eq_refl eq_refl eq_refl eq_refl eq_refl)
    as (Hres & Hit & Hhist & Hmet).
  rewrite Hres.
  split; [reflexivity|]. split; [exact Hit|].
  split.
  - exact (f_equal (fun h => length (items h)) Hhist).
  - exact Hmet.
Defined.

(** C10 on the first experience of the scenario: the result reports
    iteration 0 and the counter is 1 afterwards. *)
Lemma reported_iteration_is_count_before_witness :
  let r := learn_from_experience (rt := constant_hash_runtime)
             "t0" buy_experience small_core in
  is_failure (fst r) = false /\
  exists d,
    fst r = PDict d /\
    dict_get "learning_iteration" d = Some (PNum 0) /\
    learning_iteration (snd r) = 1%Z.
Proof.
  cbv zeta.
  assert (Hnot : is_failure
                   (fst (learn_from_experience (rt := constant_hash_runtime)
                           "t0" buy_experience small_core)) = false)
    by (vm_compute; reflexivity).
  split; [exact Hnot|].
  exact (proj1 (reported_iteration_is_count_before
                  (rt := constant_hash_runtime)
                  "t0" buy_experience small_core) Hnot).
Defined.
End EngineExamples.

(** * Properties of the rest of the module *)

(** ** The agent: hashing, choosing, bounded values *)

Section MoreRL.
Import ReinforcementLearningAgent.
Context {rt : PyRuntime}.

(** X1.  The state hash is a row index: for a map and a positive
    [state_space_size] it exists and lies in [0, state_space_size), whatever
    the sign of [hash], so that it indexes the table without wrapping; a
    state that is not a map raises AttributeError and a [state_space_size]
    of 0 raises ZeroDivisionError. *)
Theorem get_state_hash_is_row (ag : t) (d : list (string * pyval)) :
  ((0 < state_space_size ag)%Z ->
   exists s, get_state_hash ag (PDict d) = Ok s /\
             (0 <= s < state_space_size ag)%Z /\
             np_index (Z.to_nat (state_space_size ag)) s = Ok (Z.to_nat s)) /\
  (state_space_size ag = 0%Z ->
   get_state_hash ag (PDict d) = Raise ZeroDivisionError) /\
  (forall state, (forall d', state <> PDict d') ->
                 get_state_hash ag state = Raise AttributeError).
Proof.
  split; [|split].
  - intros Hpos. destruct (get_state_hash_dict ag d Hpos) as [s Hs].
    exists s. split; [exact Hs|].
    assert (Hr : (0 <= s < state_space_size ag)%Z)
      by (apply (get_state_hash_range ag (PDict d)); [lia | exact Hs]).
    split; [exact Hr|]. apply np_index_nonneg. lia.
  - intros Hz. unfold get_state_hash, py_mod. simpl. now rewrite Hz.
  - intros state Hnot. destruct state; try reflexivity.
    now destruct (Hnot d0).
Qed.


(** *** select_action *)

Lemma argmax_from_spec (xs pre : list Q) (best_i : nat) (best : Q) :
  pre !! best_i = Some best ->
  (forall j x, pre !! j = Some x -> x <= best) ->
  (forall j x, (j < best_i)%nat -> pre !! j = Some x -> x < best) ->
  exists m,
    (pre ++ xs) !! argmax_from xs (length pre) best_i best = Some m /\
    (forall j x, (pre ++ xs) !! j = Some x -> x <= m) /\
    (forall j x, (j < argmax_from xs (length pre) best_i best)%nat ->
                 (pre ++ xs) !! j = Some x -> x < m).
Proof.
  revert pre best_i best.
  induction xs as [|y xs IH]; intros pre best_i best Hbest Hle Hlt.
  - simpl. rewrite app_nil_r. eauto.
  - simpl.
    replace (pre ++ y :: xs) with ((pre ++ [y]) ++ xs)
      by (now rewrite <- app_assoc).
    replace (S (length pre)) with (length (pre ++ [y]))
      by (rewrite length_app; simpl; lia).
    assert (Hsnoc : forall j x, (pre ++ [y]) !! j = Some x ->
              pre !! j = Some x \/ (j = length pre /\ x = y)).
    { intros j x Hj. apply lookup_app_Some in Hj as [Hj | [Hge Hj]];
        [now left|].
      right. destruct (j - length pre)%nat eqn:E; simpl in Hj;
        [|discriminate].
      injection Hj as <-. split; [lia | reflexivity]. }
    destruct (Qltb best y) eqn:Ecmp.
    + apply Qltb_lt in Ecmp. apply IH.
      * rewrite lookup_app_r by lia. now rewrite Nat.sub_diag.
      * intros j x Hj. destruct (Hsnoc j x Hj) as [Hpre | [_ ->]]; [|lra].
        specialize (Hle j x Hpre). lra.
      * intros j x Hjlt Hj. destruct (Hsnoc j x Hj) as [Hpre | [-> _]]; [|lia].
        specialize (Hle j x Hpre). lra.
    + apply Qltb_ge in Ecmp. apply IH.
      * apply lookup_app_l_Some. exact Hbest.
      * intros j x Hj. destruct (Hsnoc j x Hj) as [Hpre | [_ ->]];
          [now apply (Hle j) | exact Ecmp].
      * intros j x Hjlt Hj. destruct (Hsnoc j x Hj) as [Hpre | [-> _]].
        -- now apply (Hlt j).
        -- apply lookup_lt_Some in Hbest. lia.
Qed.

(** [np_argmax] returns the first index of the maximum. *)
Lemma np_argmax_spec (row : list Q) (i : nat) :
  np_argmax row = Ok i ->
  exists m,
    row !! i = Some m /\
    (forall j x, row !! j = Some x -> x <= m) /\
    (forall j x, (j < i)%nat -> row !! j = Some x -> x < m).
Proof.
  destruct row as [|x row]; simpl; [discriminate|].
  intros [= <-].
  apply (argmax_from_spec row [x] 0 x).
  - reflexivity.
  - intros [|j] y Hy; simpl in Hy; [injection Hy as <-; lra | discriminate].
  - intros j y Hj. lia.
Qed.

(** X2.  On an agent of the constructor's shape with at least one state
    and one action, [select_action] on a map returns an action of
    [0, action_space_size), which [update_q_value] accepts as an index; it
    consumes one uniform draw; when the draw is below epsilon the action
    is the integer drawn, and otherwise it is the first index at which the
    row of the state is maximal (the lowest action among ties). *)
Theorem select_action_valid (ag : t) (d : list (string * pyval))
    (rng : np_random) (ints : int_source)
    (Hshape : well_shaped ag)
    (HS : (0 < state_space_size ag)%Z)
    (HA : (0 < action_space_size ag)%Z)
    (Hints : int_draws_in_range ints) :
  exists s a rng' ints',
    get_state_hash ag (PDict d) = Ok s /\
    select_action (PDict d) ag rng ints = (Ok a, rng', ints') /\
    (0 <= a < action_space_size ag)%Z /\
    np_index (Z.to_nat (action_space_size ag)) a = Ok (Z.to_nat a) /\
    unit_next rng' = S (unit_next rng) /\
    (unit_draws rng (unit_next rng) < epsilon ag ->
     a = int_draws ints (int_next ints) 0 (action_space_size ag)) /\
    (epsilon ag <= unit_draws rng (unit_next rng) ->
     ints' = ints /\
     exists row m,
       q_table ag !! Z.to_nat s = Some row /\
       row !! Z.to_nat a = Some m /\
       (forall j x, row !! j = Some x -> x <= m) /\
       (forall j x, (j < Z.to_nat a)%nat -> row !! j = Some x -> x < m)).
Proof.
  destruct (get_state_hash_dict ag d HS) as [s Hs].
  assert (Hsr : (0 <= s < state_space_size ag)%Z)
    by (apply (get_state_hash_range ag (PDict d)); [lia | exact Hs]).
  destruct Hshape as (_ & _ & Hlen & Hrows).
  destruct (lookup_lt_is_Some_2 (q_table ag) (Z.to_nat s)) as [row Hrow];
    [lia|].
  assert (Hrowlen : length row = Z.to_nat (action_space_size ag))
    by (eapply Forall_lookup_1 in Hrows; eauto).
  assert (Hqrow : q_row ag s = Ok row).
  { unfold q_row. rewrite np_index_nonneg by lia. simpl. now rewrite Hrow. }
  unfold select_action. rewrite Hs. unfold random_random.
  destruct (Qltb (unit_draws rng (unit_next rng)) (epsilon ag)) eqn:Ecmp.
  - apply Qltb_lt in Ecmp. unfold random_randint.
    destruct (action_space_size ag <=? 0)%Z eqn:Ea;
      [apply Z.leb_le in Ea; lia|].
    pose proof (Hints (int_next ints) 0%Z (action_space_size ag) HA) as Hdraw.
    eexists s, _, _, _. split; [reflexivity|]. split; [reflexivity|].
    split; [exact Hdraw|]. split; [apply np_index_nonneg; lia|].
    split; [reflexivity|]. split; [reflexivity|].
    intros Hge. lra.
  - apply Qltb_ge in Ecmp. rewrite Hqrow. simpl.
    destruct row as [|x row'] eqn:Erow; [simpl in Hrowlen; lia|].
    rewrite <- Erow in *.
    destruct (np_argmax row) as [i|e] eqn:Earg; [|subst row; discriminate].
    destruct (np_argmax_spec row i Earg) as (m & Hm & Hmax & Hfirst).
    pose proof (lookup_lt_Some _ _ _ Hm) as Hi.
    simpl. eexists s, _, _, _. split; [reflexivity|]. split; [reflexivity|].
    split; [lia|]. split; [apply np_index_nonneg; lia|].
    split; [reflexivity|]. split; [intros Hlt; lra|].
    intros _. split; [reflexivity|].
    exists row, m. rewrite Nat2Z.id. auto.
Qed.

End MoreRL.

(** X1 on the default agent and the empty state. *)
Lemma get_state_hash_is_row_witness :
  (0 < ReinforcementLearningAgent.state_space_size
         ReinforcementLearningAgent.default)%Z /\
  exists s,
    ReinforcementLearningAgent.get_state_hash (rt := constant_hash_runtime)
      ReinforcementLearningAgent.default (PDict []) = Ok s /\
    (0 <= s < 1000)%Z.
Proof.
  assert (Hpos : (0 < ReinforcementLearningAgent.state_space_size
                         ReinforcementLearningAgent.default)%Z)
    by reflexivity.
  split; [exact Hpos|].
  destruct (proj1 (get_state_hash_is_row (rt := constant_hash_runtime)
                     ReinforcementLearningAgent.default []) Hpos)
    as (s & Hs & Hr & _).
  exists s. split; [exact Hs | exact Hr].
Defined.


(** X2 on a row [0, 1, 1] and a draw above epsilon: of the two best
    actions the lower one, 1, is chosen. *)
Lemma select_action_valid_witness :
  ReinforcementLearningAgent.well_shaped tied_agent /\
  int_draws_in_range lowest_ints /\
  fst (fst (select_action (rt := constant_hash_runtime)
              (PDict []) tied_agent half_generator lowest_ints)) = Ok 1%Z.
Proof.
  assert (Hshape : ReinforcementLearningAgent.well_shaped tied_agent).
  { repeat split; simpl; try lia. repeat constructor. }
  assert (Hints : int_draws_in_range lowest_ints)
    by (intros n low high Hlt; simpl; lia).
  split; [exact Hshape|]. split; [exact Hints|].
  destruct (select_action_valid (rt := constant_hash_runtime)
              tied_agent [] half_generator lowest_ints Hshape
              eq_refl eq_refl Hints)
    as (s & a & rng' & ints' & _ & Hsel & _).
  rewrite Hsel. simpl. vm_compute in Hsel. now injection Hsel as <- _ _.
Defined.


(** ** The gradient strategy: velocities and the floor of the rate *)

Section MoreGradient.
Import AdaptiveGradientDescent.

Lemma dict_get_or_set {V : Type} (k' k : string) (v d0 : V)
    (d : list (string * V)) :
  k' <> k -> dict_get_or k' (dict_set k v d) d0 = dict_get_or k' d d0.
Proof.
  intros Hne. unfold dict_get_or. rewrite dict_get_set.
  destruct (String.eqb_spec k' k); [contradiction | reflexivity].
Qed.

(** The loop over the gradients, when it goes through: each named
    velocity takes one momentum step, the others stay. *)
Lemma update_velocity_steps (its : list (string * pyval)) (g g' : t) :
  List.NoDup (map fst its) ->
  update_velocity its g = (Ok tt, g') ->
  (forall k gr, In (k, gr) its ->
     exists x, as_num gr = Some x /\
               dict_get k (velocity g')
               = Some (momentum g * dict_get_or k (velocity g) 0
                       + learning_rate g * x)) /\
  (forall k, ~ In k (map fst its) ->
             dict_get k (velocity g') = dict_get k (velocity g)).
Proof.
  revert g. induction its as [|[k0 gr0] its IH]; intros g Hnd Hrun.
  - simpl in Hrun. injection Hrun as <-. split; [intros k gr []|easy].
  - apply List.NoDup_cons_iff in Hnd as [Hk0 Hnd]. simpl in Hrun.
    set (g1 := if dict_mem k0 (velocity g) then g
               else set_velocity (dict_set k0 0 (velocity g)) g) in *.
    assert (Hg1 : learning_rate g1 = learning_rate g /\
                  momentum g1 = momentum g /\
                  dict_get k0 (velocity g1)
                  = Some (dict_get_or k0 (velocity g) 0) /\
                  forall k, k <> k0 ->
                            dict_get k (velocity g1) = dict_get k (velocity g)).
    { unfold g1, dict_mem, dict_get_or.
      destruct (dict_get k0 (velocity g)) eqn:E; simpl.
      - repeat split. exact E.
      - repeat split.
        + rewrite dict_get_set. now rewrite String.eqb_refl.
        + intros k Hk. rewrite dict_get_set.
          now destruct (String.eqb_spec k k0). }
    destruct Hg1 as (Hlr1 & Hm1 & Hv1 & Hother1).
    rewrite Hv1 in Hrun.
    unfold py_mul_num in Hrun.
    destruct (as_num gr0) as [x0|] eqn:Ex0; [|discriminate].
    destruct (fits_float x0); [|discriminate].
    match type of Hrun with update_velocity its ?g2 = _ =>
      destruct (IH g2 Hnd Hrun) as [IHin IHout] end.
    simpl in IHin, IHout. split.
    + intros k gr [[= <- <-] | Hin].
      * exists x0. split; [exact Ex0|].
        rewrite IHout by exact Hk0. rewrite dict_get_set, String.eqb_refl.
        now rewrite Hlr1, Hm1.
      * destruct (IHin k gr Hin) as (x & Hx & Hget).
        exists x. split; [exact Hx|]. rewrite Hget.
        assert (Hne : k <> k0)
          by (intros ->; apply Hk0; now apply (in_map fst) in Hin).
        rewrite dict_get_or_set by exact Hne.
        unfold dict_get_or. rewrite (Hother1 k Hne).
        now rewrite Hlr1, Hm1.
    + intros k Hk.
      assert (Hne : k <> k0) by (intros ->; apply Hk; now left).
      rewrite IHout by (intros Hin; apply Hk; now right).
      rewrite dict_get_set.
      destruct (String.eqb_spec k k0); [contradiction|].
      now apply Hother1.
Qed.

(** X4.  An [update] that returns has moved the velocity of every
    parameter named in ['gradients'] to
    [momentum * old + learning_rate * gradient], where the old velocity of
    a parameter met for the first time is 0 and the learning rate is the
    one the same call has just adapted; the velocity of every other
    parameter is as it was, and the summary returned carries the new rate
    and velocities. *)
Theorem update_moves_named_velocities (cs fb its : list (string * pyval))
    (g g' : t) (s : summary)
    (Hgrads : dict_get_or "gradients" fb (PDict []) = PDict its)
    (Hnd : List.NoDup (map fst its))
    (Hrun : update cs fb g = (Ok s, g')) :
  (forall k gr, In (k, gr) its ->
     exists x, as_num gr = Some x /\
               dict_get k (velocity g')
               = Some (momentum g * dict_get_or k (velocity g) 0
                       + learning_rate g' * x)) /\
  (forall k, ~ In k (map fst its) ->
             dict_get k (velocity g') = dict_get k (velocity g)) /\
  s_learning_rate s = learning_rate g' /\
  s_velocity s = velocity g' /\
  s_momentum s = momentum g.
Proof.
  unfold update in Hrun. rewrite Hgrads in Hrun. simpl py_items in Hrun.
  match type of Hrun with context [adapt_learning_rate ?g1] =>
    assert (Hframe : velocity (snd (adapt_learning_rate g1)) = velocity g /\
                     momentum (snd (adapt_learning_rate g1)) = momentum g);
    [|destruct (adapt_learning_rate g1) as [[[]|e] g2]; [|discriminate]] end.
  { unfold adapt_learning_rate.
    match goal with |- context [(2 <=? ?n)%nat] =>
      destruct (2 <=? n)%nat end; [|easy].
    match goal with |- context [deque_from_end 1 ?h] =>
      destruct (deque_from_end 1 h); [|easy];
      destruct (deque_from_end 2 h); [|easy] end.
    match goal with |- context [py_gt ?a ?b] =>
      destruct (py_gt a b) as [[]|] end; easy. }
  simpl in Hframe. destruct Hframe as [Hv2 Hm2].
  pose proof (update_velocity_frame its g2) as (Hlr3 & _ & _).
  destruct (update_velocity its g2) as [[[]|e] g3] eqn:Evel; [|discriminate].
  injection Hrun as <- <-. simpl in Hlr3.
  destruct (update_velocity_steps its g2 g3 Hnd Evel) as [Hin Hout].
  rewrite Hv2, Hm2 in Hin. rewrite Hv2 in Hout. rewrite Hlr3.
  split; [exact Hin|]. split; [exact Hout|].
  simpl. repeat split.
  assert (Hm3 : momentum g3 = momentum g2).
  { clear -Evel. revert g2 Evel.
    induction its as [|[k v] its IH]; intros g2 Evel.
    - simpl in Evel. now injection Evel as <-.
    - simpl in Evel.
      destruct (dict_mem k (velocity g2)); simpl in Evel.
      + destruct (dict_get k (velocity g2)); [|discriminate].
        destruct (py_mul_num (learning_rate g2) v); [|discriminate].
        now rewrite (IH _ Evel).
      + destruct (dict_get k (dict_set k 0 (velocity g2))); [|discriminate].
        destruct (py_mul_num (learning_rate g2) v); [|discriminate].
        now rewrite (IH _ Evel). }
  now rewrite Hm3, Hm2.
Qed.

Lemma adapt_learning_rate_floor (g : t) :
  1 < adaptive_factor g -> 0 < decay_factor g < 1 -> rate_in_range g ->
  learning_rate g * decay_factor g <= learning_rate (snd (adapt_learning_rate g)).
Proof.
  unfold rate_in_range, adapt_learning_rate. intros Haf Hdf Hr.
  destruct (2 <=? length (items (performance_history g)))%nat;
    [|simpl; nra].
  destruct (deque_from_end 1 (performance_history g)); [|simpl; nra].
  destruct (deque_from_end 2 (performance_history g)); [|simpl; nra].
  destruct (py_gt p p0) as [[]|]; simpl; [|lra|nra].
  split_clamps; nra.
Qed.

(** X5.  With an adaptive factor above 1 and a decay factor in (0, 1),
    as the constructor's defaults are, and a strategy that starts at its
    positive base rate: one update lowers the learning rate by the decay
    factor at most, whatever it is given and whether it returns or raises;
    so after n updates the rate is not negative and is at least the base
    rate decayed n times (each product as the code computes it).  Nothing
    else holds it up: the rate has no floor above 0. *)
Theorem learning_rate_floor (g0 : t)
    (calls : list (list (string * pyval) * list (string * pyval)))
    (Haf : 1 < adaptive_factor g0)
    (Hdf : 0 < decay_factor g0 < 1)
    (Hbase : 0 < base_learning_rate g0)
    (Hinit : learning_rate g0 = base_learning_rate g0) :
  0 <= learning_rate (run_updates calls g0) /\
  Nat.iter (length calls) (decayed_rate (decay_factor g0))
           (base_learning_rate g0)
  <= learning_rate (run_updates calls g0) /\
  (forall cs fb,
     decayed_rate (decay_factor g0) (learning_rate (run_updates calls g0))
     <= learning_rate (snd (update cs fb (run_updates calls g0)))).
Proof.
  assert (Hr0 : rate_in_range g0)
    by (unfold rate_in_range; rewrite Hinit; lra).
  assert (Hstep : forall calls0 cs fb,
            decayed_rate (decay_factor g0)
                         (learning_rate (run_updates calls0 g0))
            <= learning_rate (snd (update cs fb (run_updates calls0 g0)))).
  { intros calls0 cs fb.
    destruct (run_updates_range calls0 g0 Haf Hdf Hr0) as (Hr & Hb & Ha & Hd).
    set (g := run_updates calls0 g0) in *.
    destruct (update_learning_rate cs fb g) as (-> & _ & _).
    match goal with |- context [adapt_learning_rate ?g1] =>
      pose proof (adapt_learning_rate_floor g1) as Hfloor end.
    simpl in Hfloor. rewrite Ha, Hd in Hfloor.
    exact (Hfloor Haf Hdf Hr). }
  split; [|split; [|apply Hstep]].
  { destruct (run_updates_range calls g0 Haf Hdf Hr0) as [[Hpos _] _]. lra. }
  rewrite <- Hinit. clear Hinit Hbase.
  induction calls as [|[cs fb] calls IH] using rev_ind; [simpl; lra|].
  rewrite run_updates_snoc, length_app. simpl fst. simpl snd.
  simpl length. rewrite Nat.add_1_r, Nat.iter_succ.
  specialize (Hstep calls cs fb). unfold decayed_rate in Hstep |- * at 1.
  generalize dependent (Nat.iter (length calls)
                          (decayed_rate (decay_factor g0)) (learning_rate g0)).
  intros low IH.
  generalize dependent (learning_rate (run_updates calls g0)). intros lr.
  match goal with |- _ -> _ -> _ <= ?x => generalize x end. intros lr'.
  generalize dependent (decay_factor g0). intros d. intros. nra.
Qed.
End MoreGradient.

(** X4 on a fresh strategy and a gradient of 2 on a weight never seen:
    its velocity becomes 0.9 * 0 + 0.01 * 2. *)
Lemma update_moves_named_velocities_witness :
  let r := AdaptiveGradientDescent.update [] weight_feedback
             (AdaptiveGradientDescent.default (1 # 100)) in
  is_ok (fst r) = true /\
  exists v, dict_get "weight" (AdaptiveGradientDescent.velocity (snd r))
            = Some v /\ v == 2 # 100.
Proof.
  cbv zeta. split; [reflexivity|].
  assert (Hnd : List.NoDup (map fst [("weight"%string, PNum 2)]))
    by (constructor; [simpl; tauto | constructor]).
  destruct (update_moves_named_velocities [] weight_feedback
              [("weight"%string, PNum 2)]
              (AdaptiveGradientDescent.default (1 # 100)) _ _
              eq_refl Hnd eq_refl) as (Hin & _).
  destruct (Hin "weight"%string (PNum 2)) as (x & Hx & Hget);
    [now left|].
  injection Hx as <-. eexists. split; [exact Hget|]. reflexivity.
Defined.

(** X5 on the default strategy after three reports. *)
Lemma learning_rate_floor_witness :
  let g0 := AdaptiveGradientDescent.default (1 # 100) in
  decayed_rate (95 # 100)
    (decayed_rate (95 # 100) (decayed_rate (95 # 100) (1 # 100)))
  <= AdaptiveGradientDescent.learning_rate
       (AdaptiveGradientDescent.run_updates (rising_performances 3) g0).
Proof.
  cbv zeta.
  assert (Hdf : 0 < AdaptiveGradientDescent.decay_factor
                      (AdaptiveGradientDescent.default (1 # 100)) < 1)
    by (split; reflexivity).
  exact (proj1 (proj2 (learning_rate_floor
                         (AdaptiveGradientDescent.default (1 # 100))
                         (rising_performances 3) eq_refl Hdf eq_refl
                         eq_refl))).
Defined.

(** ** The Bayesian strategy: the best score, the count of observations,
    the keys of a proposal *)

Section MoreBayes.
Import BayesianOptimizer.

(** What one [update] does, read off its arguments alone. *)
Lemma update_by_arguments (cs fb : list (string * pyval)) (b : t) :
  let performance := dict_get_or "performance" fb (PNum 0) in
  let b' := snd (update cs fb b) in
  observations b' = observations b ++ [performance] /\
  parameter_space b' = parameter_space b /\
  match returning_update (cs, fb) with
  | Some (p, x) =>
      is_ok (fst (update cs fb b)) = true /\
      parameter_history b' = parameter_history b ++ [p] /\
      (if exceeds x (best_score b)
       then best_score b' = Score x /\ best_params b' = p
       else best_score b' = best_score b /\ best_params b' = best_params b)
  | None =>
      is_ok (fst (update cs fb b)) = false /\
      (length (parameter_history b') <= S (length (parameter_history b)))%nat /\
      best_score b' = best_score b /\ best_params b' = best_params b
  end.
Proof.
  cbv zeta. unfold update, returning_update. simpl fst. simpl snd.
  destruct (py_copy (dict_get_or "parameters" cs (PDict []))) as [p|e]; simpl.
  - destruct (as_num (dict_get_or "performance" fb (PNum 0))) as [x|]; simpl.
    + destruct (exceeds x (best_score b)); simpl; repeat split; reflexivity.
    + repeat split; try reflexivity. rewrite length_app. simpl. lia.
  - repeat split; try reflexivity. lia.
Qed.

Lemma run_updates_cons c calls (b : t) :
  run_updates (c :: calls) b
  = run_updates calls (snd (update (fst c) (snd c) b)).
Proof. reflexivity. Qed.



(** X7.  Every [update] call adds one observation, also the calls that
    raise (parameters without a [copy], a performance that is not a number),
    while the parameter history may fall behind; so the cold start of
    [get_next_parameters] lasts until three calls were made, returned or
    not. *)
Theorem observations_count_every_call
    (calls : list (list (string * pyval) * list (string * pyval))) (b : t) :
  length (observations (run_updates calls b))
  = (length (observations b) + length calls)%nat /\
  (length (parameter_history (run_updates calls b))
   <= length (parameter_history b) + length calls)%nat /\
  (forall rng,
     get_next_parameters (run_updates calls b) rng
     = if (length (observations b) + length calls <? 3)%nat
       then (Ok (fst (_random_sample (run_updates calls b) rng)),
             snd (_random_sample (run_updates calls b) rng))
       else _ucb_acquisition (run_updates calls b) rng).
Proof.
  assert (Hcount : forall cl b0,
            length (observations (run_updates cl b0))
            = (length (observations b0) + length cl)%nat /\
            (length (parameter_history (run_updates cl b0))
             <= length (parameter_history b0) + length cl)%nat).
  { induction cl as [|[cs fb] cl IH]; intros b0; [simpl; lia|].
    rewrite run_updates_cons. simpl fst. simpl snd.
    destruct (IH (snd (update cs fb b0))) as [IHo IHp].
    pose proof (update_by_arguments cs fb b0) as (Hobs & _ & Hargs).
    cbv zeta in Hobs, Hargs. rewrite IHo, Hobs, length_app. simpl.
    split; [lia|].
    destruct (returning_update (cs, fb)) as [[p x]|].
    - destruct Hargs as (_ & Hhist & _).
      rewrite Hhist, length_app in IHp. simpl in IHp. lia.
    - destruct Hargs as (_ & Hlen & _). lia. }
  destruct (Hcount calls b) as [Ho Hp].
  split; [exact Ho|]. split; [exact Hp|].
  intros rng. unfold get_next_parameters. rewrite Ho.
  destruct (length (observations b) + length calls <? 3)%nat; [|reflexivity].
  now destruct (_random_sample (run_updates calls b) rng).
Qed.

(** *** Proposals and undeclared parameters *)

(** A loop that meets an undeclared key does not get past it. *)
Lemma perturb_undeclared_raises (b : t) (keys : list string)
    (bp : list (string * pyval)) (rng : np_random) :
  (exists k, In k keys /\ dict_get k (parameter_space b) = None) ->
  exists ex rng', perturb b keys bp rng = (Raise ex, rng').
Proof.
  revert bp rng.
  induction keys as [|key keys IH]; intros bp rng (k & Hk & Hundecl).
  - destruct Hk.
  - cbn [perturb].
    destruct (dict_get key (parameter_space b)) as [[lo hi]|] eqn:Espace;
      [|eauto].
    destruct (dict_get key bp) as [old|]; [|eauto].
    destruct (random_normal 0 ((hi - lo) * (1 # 10)) rng)
      as [[noise|ex] rng1]; [|eauto].
    destruct (py_add_num old noise) as [moved|ex]; [|eauto].
    apply IH. exists k. split; [|exact Hundecl].
    destruct Hk as [<- | Hk]; [congruence | exact Hk].
Qed.

Lemma perturb_undeclared (b : t) (keys : list string)
    (bp : list (string * pyval)) (rng : np_random) :
  bounds_ordered (parameter_space b) ->
  List.NoDup keys ->
  (forall k, In k keys ->
             exists old x, dict_get k bp = Some old /\ as_num old = Some x /\
                           fits_float x = true) ->
  (exists k, In k keys /\ dict_get k (parameter_space b) = None) ->
  exists rng', perturb b keys bp rng = (Raise KeyError, rng').
Proof.
  intros Hord. revert bp rng.
  induction keys as [|key keys IH];
    intros bp rng Hnd Hnum (k & Hk & Hundecl).
  - destruct Hk.
  - cbn [perturb]. apply List.NoDup_cons_iff in Hnd as [Hkey Hnd].
    destruct (dict_get key (parameter_space b)) as [[lo hi]|] eqn:Espace;
      [|eauto].
    destruct (Hnum key) as (old & x & -> & Ex & Hfit); [now left|].
    assert (Hscale : Qltb ((hi - lo) * (1 # 10)) 0 = false).
    { apply Qltb_ge. apply dict_get_In in Espace.
      specialize (Hord _ _ _ Espace). lra. }
    unfold random_normal. rewrite Hscale.
    unfold py_add_num. rewrite Ex, Hfit.
    apply IH; [exact Hnd | |].
    + intros k' Hk'. rewrite dict_get_set.
      destruct (String.eqb_spec k' key) as [->|Hne]; [contradiction|].
      apply Hnum. now right.
    + exists k. split; [|exact Hundecl].
      destruct Hk as [<- | Hk]; [congruence | exact Hk].
Qed.

(** X8.  Once there are three observations, best parameters that are a
    dict with a key that the parameter space does not declare make
    [get_next_parameters] raise, for every draw: [update] stores whatever
    parameters it is given, and nothing checks them against the space.  With
    bounds that are floats the right way round and values that are numbers
    a float can be added to, the loop reaches the undeclared key and the
    exception is KeyError. *)
Theorem undeclared_parameter_raises (b : t) (rng : np_random)
    (d : list (string * pyval))
    (Hobs : (3 <= length (observations b))%nat)
    (Hbest : best_params b = PDict d)
    (Hstray : exists k, In k (map fst d) /\
                        dict_get k (parameter_space b) = None) :
  (exists ex rng', get_next_parameters b rng = (Raise ex, rng')) /\
  (bounds_ordered (parameter_space b) ->
   bounds_are_floats (parameter_space b) ->
   List.NoDup (map fst d) ->
   (forall k v, In (k, v) d ->
                exists x, as_num v = Some x /\ fits_float x = true) ->
   exists rng', get_next_parameters b rng = (Raise KeyError, rng')).
Proof.
  unfold get_next_parameters.
  destruct (length (observations b) <? 3)%nat eqn:Elen;
    [apply Nat.ltb_lt in Elen; lia|].
  unfold _ucb_acquisition. rewrite Hbest.
  destruct d as [|kv d']; [destruct Hstray as (k & [] & _)|].
  cbn [py_truthy]. split.
  - now apply perturb_undeclared_raises.
  - intros Hord _ Hnd Hnum.
    apply perturb_undeclared; [exact Hord | exact Hnd | | exact Hstray].
    intros k Hk. destruct (dict_get_key _ _ Hk) as [v Hv].
    destruct (Hnum k v (dict_get_In _ _ _ Hv)) as (x & Hx & Hfit). eauto.
Qed.

(** *** The keys of a proposal and the draws it costs *)

(** X9.  A proposal of the cold start has exactly the declared
    parameters, in the declared order, and costs one uniform draw each and
    no normal draw.  A proposal made by perturbing best parameters has
    exactly the keys of the best parameters, which may be fewer than the
    declared ones, in their order, and costs one normal draw each and no
    uniform draw. *)
Theorem proposal_keys_and_draws (b : t) (rng rng' : np_random)
    (params : list (string * pyval))
    (Hspace : List.NoDup (map fst (parameter_space b)))
    (Hrun : get_next_parameters b rng = (Ok params, rng')) :
  ((length (observations b) < 3)%nat ->
   map fst params = map fst (parameter_space b) /\
   unit_next rng' = (unit_next rng + length (parameter_space b))%nat /\
   normal_next rng' = normal_next rng) /\
  (forall d, (3 <= length (observations b))%nat ->
             best_params b = PDict d -> d <> [] ->
             map fst params = map fst d /\
             normal_next rng' = (normal_next rng + length d)%nat /\
             unit_next rng' = unit_next rng).
Proof.
  unfold get_next_parameters in Hrun. split.
  - intros Hlt. apply Nat.ltb_lt in Hlt. rewrite Hlt in Hrun.
    unfold _random_sample in Hrun.
    destruct (sample_into_keys_draws (parameter_space b) [] rng Hspace)
      as (Hkeys & Hu & Hn).
    destruct (sample_into (parameter_space b) [] rng) as [d0 rng0].
    injection Hrun as <- <-. auto.
  - intros d Hge Hbest Hne.
    apply Nat.ltb_ge in Hge. rewrite Hge in Hrun.
    unfold _ucb_acquisition in Hrun. rewrite Hbest in Hrun.
    destruct d as [|kv d']; [congruence|].
    simpl py_truthy in Hrun. cbv iota in Hrun.
    destruct (perturb_keys_draws _ _ _ _ _ _ Hrun) as (Hkeys & Hn & Hu).
    rewrite length_map in Hn. auto.
Qed.
End MoreBayes.

(** X8 on a strategy that was given a momentum to remember, in a space
    that declares none. *)
Lemma undeclared_parameter_raises_witness :
  (3 <= length (BayesianOptimizer.observations stray_optimizer))%nat /\
  fst (BayesianOptimizer.get_next_parameters stray_optimizer far_out_generator)
  = Raise KeyError.
Proof.
  assert (Hobs : (3 <= length (BayesianOptimizer.observations
                                 stray_optimizer))%nat)
    by (vm_compute; lia).
  split; [exact Hobs|].
  assert (Hord : bounds_ordered
                   (BayesianOptimizer.parameter_space stray_optimizer)).
  { intros k lo hi [[= <- <- <-] | [[= <- <- <-] | []]];
      unfold Qle; simpl; lia. }
  assert (Hstray : exists k,
             In k (map fst [("momentum"%string, PNum (5 # 10))]) /\
             dict_get k (BayesianOptimizer.parameter_space stray_optimizer)
             = None)
    by (exists "momentum"%string; split; [now left | reflexivity]).
  assert (Hfloat : bounds_are_floats
                     (BayesianOptimizer.parameter_space stray_optimizer)).
  { intros k lo hi [[= <- <- <-] | [[= <- <- <-] | []]];
      split; vm_compute; reflexivity. }
  destruct (proj2 (undeclared_parameter_raises stray_optimizer
                     far_out_generator
                     [("momentum"%string, PNum (5 # 10))] Hobs eq_refl Hstray)
              Hord Hfloat) as [rng' Hrun].
  - repeat constructor. simpl. tauto.
  - intros k v [[= <- <-] | []]. eexists.
    split; [reflexivity | vm_compute; reflexivity].
  - now rewrite Hrun.
Defined.

(** X9 on the strategy with three observations: the proposal has the one
    key of the best parameters, not the two declared ones. *)
Lemma proposal_keys_and_draws_witness :
  List.NoDup (map fst (BayesianOptimizer.parameter_space tuned_optimizer)) /\
  exists params rng',
    BayesianOptimizer.get_next_parameters tuned_optimizer far_out_generator
    = (Ok params, rng') /\
    map fst params = ["learning_rate"%string] /\
    normal_next rng' = 1%nat.
Proof.
  assert (Hnd : List.NoDup
                  (map fst (BayesianOptimizer.parameter_space tuned_optimizer))).
  { repeat constructor; simpl; intuition discriminate. }
  split; [exact Hnd|].
  destruct (BayesianOptimizer.get_next_parameters tuned_optimizer
              far_out_generator) as [[params|e] rng'] eqn:Hrun;
    [|vm_compute in Hrun; discriminate].
  exists params, rng'. split; [reflexivity|].
  destruct (proj2 (proposal_keys_and_draws tuned_optimizer far_out_generator
                     rng' params Hnd Hrun)
              [("learning_rate"%string, PNum (5 # 100))])
    as (Hkeys & Hn & _);
    [vm_compute; lia | reflexivity | discriminate |].
  split; [exact Hkeys | exact Hn].
Defined.

(** ** The engine: what a call leaves alone, what it records, when it
    goes through *)

Section MoreEngine.
Import EnhancedAutonomousLearningCore.
Context {rt : PyRuntime}.

Lemma same_setup_refl (g : AdaptiveGradientDescent.t) : same_setup g g.
Proof. now repeat split. Qed.

Lemma same_agent_setup_refl (ag : ReinforcementLearningAgent.t) :
  same_agent_setup ag ag.
Proof. now repeat split. Qed.

Lemma untouched_refl (e : t) : untouched e e.
Proof.
  unfold untouched.
  repeat split; auto using same_setup_refl, same_agent_setup_refl.
Qed.

Lemma untouched_trans (e1 e2 e3 : t) :
  untouched e1 e2 -> untouched e2 e3 -> untouched e1 e3.
Proof.
  unfold untouched, same_setup, same_agent_setup.
  intros (Ho & Hc & Hb & Hg & (Hs1 & Hs2 & Hs3) & Hm & Hw & Ha & Hl)
         (Ho' & Hc' & Hb' & Hg' & (Hs1' & Hs2' & Hs3') & Hm' & Hw' & Ha' & Hl').
  destruct Ha as (A1 & A2 & A3 & A4 & A5 & A6).
  destruct Ha' as (A1' & A2' & A3' & A4' & A5' & A6').
  rewrite Ho in Hb', Hg'.
  repeat split; try congruence.
  - intros H. rewrite (Hb' H). auto.
  - intros H. rewrite (Hg' H). auto.
Qed.

(** [update] of the gradient strategy assigns neither its momentum nor
    the capacity of its window. *)
Lemma gradient_update_constants (cs fb : list (string * pyval))
    (g : AdaptiveGradientDescent.t) :
  AdaptiveGradientDescent.momentum (snd (AdaptiveGradientDescent.update cs fb g))
    = AdaptiveGradientDescent.momentum g /\
  maxlen (AdaptiveGradientDescent.performance_history
            (snd (AdaptiveGradientDescent.update cs fb g)))
    = maxlen (AdaptiveGradientDescent.performance_history g).
Proof.
  destruct (update_learning_rate cs fb g) as (_ & _ & Hh).
  cbv zeta in Hh. rewrite Hh. split; [|reflexivity].
  unfold AdaptiveGradientDescent.update.
  assert (Hadapt : forall g0,
            AdaptiveGradientDescent.momentum
              (snd (AdaptiveGradientDescent.adapt_learning_rate g0))
            = AdaptiveGradientDescent.momentum g0).
  { intros g0. unfold AdaptiveGradientDescent.adapt_learning_rate.
    destruct (2 <=? _)%nat; [|reflexivity].
    destruct (deque_from_end 1 _); [|reflexivity].
    destruct (deque_from_end 2 _); [|reflexivity].
    now destruct (py_gt p p0) as [[]|]. }
  assert (Hvel : forall its g0,
            AdaptiveGradientDescent.momentum
              (snd (AdaptiveGradientDescent.update_velocity its g0))
            = AdaptiveGradientDescent.momentum g0).
  { induction its as [|[k v] its IH]; intros g0; [reflexivity|]. simpl.
    set (g1 := if dict_mem k (AdaptiveGradientDescent.velocity g0) then g0
               else AdaptiveGradientDescent.set_velocity
                      (dict_set k 0 (AdaptiveGradientDescent.velocity g0)) g0).
    assert (H1 : AdaptiveGradientDescent.momentum g1
                 = AdaptiveGradientDescent.momentum g0)
      by (unfold g1; now destruct (dict_mem k _)).
    destruct (dict_get k (AdaptiveGradientDescent.velocity g1)); [|exact H1].
    destruct (py_mul_num _ v); [|exact H1].
    rewrite IH. exact H1. }
  match goal with |- context [AdaptiveGradientDescent.adapt_learning_rate ?g1] =>
    specialize (Hadapt g1);
    destruct (AdaptiveGradientDescent.adapt_learning_rate g1) as [[[]|ex] g2]
  end; simpl in *; [|exact Hadapt].
  destruct (py_items _) as [its|ex]; [|exact Hadapt].
  specialize (Hvel its g2).
  destruct (AdaptiveGradientDescent.update_velocity its g2) as [[[]|ex] g3];
    simpl in *; congruence.
Qed.

Lemma dispatch_update_untouched (cs fb : list (string * pyval)) (e : t) :
  untouched e (snd (dispatch_update cs fb e)).
Proof.
  unfold dispatch_update.
  destruct (String.eqb_spec (current_optimizer e) "gradient") as [Hg|Hg].
  - destruct (update_learning_rate cs fb (gradient_optimizer e))
      as (_ & Hsetup & _).
    destruct (gradient_update_constants cs fb (gradient_optimizer e))
      as [Hm Hw].
    destruct (AdaptiveGradientDescent.update cs fb (gradient_optimizer e)).
    unfold untouched. simpl in *.
    repeat split; auto using same_agent_setup_refl; try apply Hsetup.
    congruence.
  - destruct (String.eqb (current_optimizer e) "bayesian").
    + destruct (BayesianOptimizer.update cs fb (bayesian_optimizer e)).
      unfold untouched. simpl.
      repeat split; auto using same_agent_setup_refl. congruence.
    + apply untouched_refl.
Qed.

Lemma apply_learning_updates_untouched (experience : LearningExperience)
    (e : t) :
  untouched e (snd (_apply_learning_updates experience e)).
Proof.
  unfold _apply_learning_updates, bind, lift, gets, modify, ret.
  destruct (py_get (context experience) "parameters" (PDict []));
    [|apply untouched_refl].
  destruct (py_get (outcome experience) "performance" (PNum 0)) as [perf|];
    [|apply untouched_refl].
  destruct (py_get (outcome experience) "gradients" (PDict []));
    [|apply untouched_refl].
  match goal with |- context [dispatch_update ?cs ?fb e] =>
    pose proof (dispatch_update_untouched cs fb e) as Hd;
    destruct (dispatch_update cs fb e) as [[s|ex] e1] end;
    simpl in *; [|exact Hd].
  destruct (as_num perf) as [x|]; [destruct (fits_float x)|]; simpl; exact Hd.
Qed.

(** [update_q_value] assigns the table and epsilon, nothing else, and
    keeps the shape of the table. *)
Lemma update_q_value_constants (ag : ReinforcementLearningAgent.t)
    state action reward next_state done :
  let ag' := snd (ReinforcementLearningAgent.update_q_value
                    state action reward next_state done ag) in
  same_agent_setup ag ag' /\
  (ReinforcementLearningAgent.well_shaped ag ->
   ReinforcementLearningAgent.well_shaped ag').
Proof.
  cbv zeta. unfold ReinforcementLearningAgent.update_q_value.
  match goal with |- context [match ?r with Ok _ => _ | Raise _ => _ end] =>
    destruct r as [[rc new_q]|ex] end; simpl;
    [|split; [apply same_agent_setup_refl | auto]].
  split; [now repeat split|].
  intros (HS & HA & Hlen & Hrows).
  destruct (q_store_shape (ReinforcementLearningAgent.q_table ag) rc new_q
              (Z.to_nat (ReinforcementLearningAgent.action_space_size ag))
              Hrows) as [Hl Hr].
  repeat split; simpl; try assumption. congruence.
Qed.

Lemma rl_update_constants (experience : LearningExperience)
    (ag : ReinforcementLearningAgent.t) :
  same_agent_setup ag (snd (rl_update experience ag)) /\
  (ReinforcementLearningAgent.well_shaped ag ->
   ReinforcementLearningAgent.well_shaped (snd (rl_update experience ag))).
Proof.
  unfold rl_update.
  match goal with |- context [match ?args with Ok _ => _ | Raise _ => _ end] =>
    destruct args as [[[[action r0] next_state] done]|ex] end.
  - apply update_q_value_constants.
  - split; [apply same_agent_setup_refl | auto].
Qed.

Lemma update_rl_agent_untouched (experience : LearningExperience) (e : t) :
  untouched e (snd (_update_rl_agent experience e)).
Proof.
  unfold _update_rl_agent.
  destruct (rl_update_constants experience (rl_agent e)) as [Hsetup _].
  destruct (rl_update experience (rl_agent e)) as [r ag].
  unfold untouched. simpl in *.
  repeat split; auto using same_setup_refl; apply Hsetup.
Qed.

(** The record made of a request: a map gives one, anything else has no
    [get]. *)
Lemma make_experience_map (now : string) (data : pyval) :
  match data with
  | PDict d =>
      exists experience,
        make_experience now data = Ok experience /\
        context experience = dict_get_or "context" d (PDict []) /\
        outcome experience = dict_get_or "outcome" d (PDict []) /\
        confidence experience = dict_get_or "confidence" d (PNum (1 # 2)) /\
        reward experience = dict_get_or "reward" d (PNum 0)
  | _ => make_experience now data = Raise AttributeError
  end.
Proof.
  destruct data; try reflexivity.
  eexists. split; [reflexivity|]. now repeat split.
Qed.

(** The engine a call leaves, read along its steps. *)
Lemma learn_from_experience_steps (now : string) (data : pyval) (e : t) :
  untouched e (snd (learn_from_experience now data e)) /\
  learning_experiences (snd (learn_from_experience now data e))
  = match make_experience now data with
    | Ok experience => deque_append experience (learning_experiences e)
    | Raise _ => learning_experiences e
    end.
Proof.
  pose proof (learn_from_experience_cases now data e) as Hcases.
  destruct (make_experience now data) as [experience|ex].
  2:{ rewrite Hcases. split; [apply untouched_refl | reflexivity]. }
  assert (H1 : untouched e (with_experience experience e) /\
               learning_experiences (with_experience experience e)
               = deque_append experience (learning_experiences e)).
  { split; [|reflexivity]. unfold untouched, with_experience. simpl.
    repeat split; auto using same_setup_refl, same_agent_setup_refl. }
  pose proof (update_performance_metrics_cases experience
                (with_experience experience e)) as Hmetrics.
  destruct (py_get (outcome experience) "performance" (PNum 0))
    as [performance|ex]; rewrite Hmetrics in Hcases.
  2:{ rewrite Hcases. exact H1. }
  match type of Hcases with context [_apply_learning_updates experience ?e2] =>
    assert (H2 : untouched e e2 /\
                 learning_experiences e2
                 = deque_append experience (learning_experiences e));
    [split; [|reflexivity]; unfold untouched, with_experience; simpl;
     repeat split; auto using same_setup_refl, same_agent_setup_refl|];
    pose proof (apply_learning_updates_untouched experience e2) as Hu3;
    pose proof (apply_learning_updates_frame experience e2) as (_ & Hh3 & _);
    destruct (_apply_learning_updates experience e2) as [[learned|ex] e3] end;
    simpl in Hu3, Hh3.
  2:{ rewrite Hcases. simpl. split.
      - eapply untouched_trans; [apply H2 | exact Hu3].
      - rewrite Hh3. apply H2. }
  pose proof (update_rl_agent_untouched experience e3) as Hu4.
  pose proof (update_rl_agent_isolated experience e3) as (_ & (_ & Hh4 & _) & _).
  cbv zeta in Hcases.
  assert (H4 : untouched e (snd (_update_rl_agent experience e3)))
    by (eapply untouched_trans; [apply H2|];
        eapply untouched_trans; [exact Hu3 | exact Hu4]).
  destruct (ReinforcementLearningAgent.get_policy_strength _);
    rewrite Hcases; simpl; (split; [|rewrite Hh4, Hh3; apply H2]).
  - exact H4.
  - exact H4.
Qed.

Lemma run_requests_cons now data requests (e : t) :
  run_requests ((now, data) :: requests) e
  = (fst (learn_from_experience now data e)
       :: fst (run_requests requests (snd (learn_from_experience now data e))),
     snd (run_requests requests (snd (learn_from_experience now data e)))).
Proof.
  cbn [run_requests].
  destruct (learn_from_experience now data e) as [r e1]. cbn [fst snd].
  now destruct (run_requests requests e1).
Qed.

Lemma run_requests_untouched (requests : list (string * pyval)) (e : t) :
  untouched e (snd (run_requests requests e)).
Proof.
  revert e. induction requests as [|[now data] requests IH]; intros e.
  - apply untouched_refl.
  - rewrite run_requests_cons. simpl.
    eapply untouched_trans; [|apply IH].
    apply learn_from_experience_steps.
Qed.

(** A configuration of numbers, read as the constructor stores it. *)
Lemma dict_get_or_numbers (k : string) (c : list (string * Q)) (default : Q) :
  dict_get_or k (map (fun kv => (fst kv, PNum (snd kv))) c) (PNum default)
  = PNum (dict_get_or k c default).
Proof.
  unfold dict_get_or.
  induction c as [|[k' v] c IH]; [reflexivity|].
  cbn [map dict_get fst snd]. now destruct (String.eqb k k').
Qed.

(** The constructor on a configuration of floats returns the engine of
    [init]. *)
Lemma construct_init (c : list (string * Q)) :
  fits_float (dict_get_or "learning_rate" c (1 # 100)) = true ->
  construct (PDict (map (fun kv => (fst kv, PNum (snd kv))) c))
  = Built (init (Some c)).
Proof.
  intros Hfit. unfold construct, init.
  destruct c as [|kv c]; [reflexivity|].
  cbn [py_truthy map]. rewrite <- (map_cons (fun kv => (fst kv, PNum (snd kv)))).
  rewrite dict_get_or_numbers. cbn [as_num]. now rewrite Hfit.
Qed.

(** X10.  The engine never changes its choice of strategy, which the
    constructor sets to the gradient one: after any requests the Bayesian
    strategy of an engine that the constructor built is still as built, with
    no observation and a cold start for every proposal; the configuration,
    the base learning rate and momentum of the gradient strategy, the sizes
    of the agent and its experience buffer, which stays empty, are the
    constructor's too. *)
Theorem engine_never_leaves_gradient
    (cfg : option (list (string * Q))) (requests : list (string * pyval)) :
  let e' := snd (run_requests requests (init cfg)) in
  current_optimizer e' = "gradient"%string /\
  config e' = config (init cfg) /\
  bayesian_optimizer e' = BayesianOptimizer.init engine_parameter_space /\
  (forall rng,
     BayesianOptimizer.get_next_parameters (bayesian_optimizer e') rng
     = (Ok (fst (BayesianOptimizer._random_sample (bayesian_optimizer e') rng)),
        snd (BayesianOptimizer._random_sample (bayesian_optimizer e') rng))) /\
  PNum (AdaptiveGradientDescent.base_learning_rate (gradient_optimizer e'))
    = dict_get_or "learning_rate" (config (init cfg)) (PNum (1 # 100)) /\
  AdaptiveGradientDescent.momentum (gradient_optimizer e') = 9 # 10 /\
  ReinforcementLearningAgent.state_space_size (rl_agent e') = 1000%Z /\
  ReinforcementLearningAgent.action_space_size (rl_agent e') = 10%Z /\
  items (ReinforcementLearningAgent.experience_buffer (rl_agent e')) = [].
Proof.
  cbv zeta.
  destruct (run_requests_untouched requests (init cfg))
    as (Ho & Hc & Hb & _ & (Hbase & _) & Hm & _ & Ha & _).
  destruct Ha as (A1 & A2 & _ & _ & _ & A6).
  specialize (Hb eq_refl).
  split; [exact Ho|]. split; [exact Hc|]. split; [exact Hb|].
  split.
  { intros rng. rewrite Hb. unfold BayesianOptimizer.get_next_parameters.
    change (length (BayesianOptimizer.observations
                      (bayesian_optimizer (init cfg))) <? 3)%nat with true.
    cbv iota.
    now destruct (BayesianOptimizer._random_sample
                    (bayesian_optimizer (init cfg)) rng). }
  split; [rewrite Hbase; unfold init; cbn [build config gradient_optimizer
            AdaptiveGradientDescent.default
            AdaptiveGradientDescent.base_learning_rate];
          symmetry; apply dict_get_or_numbers|].
  split; [rewrite Hm; reflexivity|].
  split; [rewrite A1; reflexivity|].
  split; [rewrite A2; reflexivity|].
  rewrite A6. reflexivity.
Qed.

(** *** What the history records *)

Lemma run_requests_history (requests : list (string * pyval)) (e : t) :
  exists recorded : list LearningExperience,
    length recorded = map_requests requests /\
    learning_experiences (snd (run_requests requests e))
    = deque_extend recorded (learning_experiences e).
Proof.
  revert e. induction requests as [|[now data] requests IH]; intros e.
  - exists []. split; reflexivity.
  - rewrite run_requests_cons. cbn [snd].
    destruct (learn_from_experience_steps now data e) as [_ Hhist].
    destruct (IH (snd (learn_from_experience now data e)))
      as (recorded & Hlen & Hrec).
    rewrite Hrec, Hhist. unfold map_requests in *. cbn [List.filter snd].
    pose proof (make_experience_map now data) as Hmake.
    destruct data; cbn [is_map]; try (rewrite Hmake; now exists recorded).
    destruct Hmake as (experience & -> & _).
    exists (experience :: recorded). split; [simpl; lia | reflexivity].
Qed.

(** X11.  A record goes into the history for every request that is a
    map, whether the call then succeeds or fails, and for no other request:
    the history holds as many records as there were such requests, up to
    its capacity, while [learning_iteration] may have grown by less. *)
Theorem history_records_every_map_request
    (requests : list (string * pyval)) (e : t)
    (Hcap : (length (items (learning_experiences e))
             <= maxlen (learning_experiences e))%nat) :
  let e' := snd (run_requests requests e) in
  length (items (learning_experiences e'))
  = Nat.min (maxlen (learning_experiences e))
            (length (items (learning_experiences e)) + map_requests requests) /\
  (successes (fst (run_requests requests e)) <= map_requests requests)%nat /\
  (learning_iteration e'
   <= learning_iteration e + Z.of_nat (map_requests requests))%Z.
Proof.
  cbv zeta.
  destruct (run_requests_history requests e) as (recorded & Hlen & Hrec).
  split.
  { rewrite Hrec.
    destruct (deque_extend_items recorded (learning_experiences e) Hcap)
      as [Hitems _].
    rewrite Hitems, length_drop, length_app. lia. }
  assert (Hsucc : (successes (fst (run_requests requests e))
                   <= map_requests requests)%nat).
  { clear. revert e.
    induction requests as [|[now data] requests IH]; intros e.
    - unfold successes, map_requests. simpl. lia.
    - rewrite run_requests_cons. cbn [fst].
      specialize (IH (snd (learn_from_experience now data e))).
      unfold successes, map_requests in *. cbn [List.filter snd].
      pose proof (learn_from_experience_cases now data e) as Hcases.
      pose proof (make_experience_map now data) as Hmake.
      destruct data; cbn [is_map];
        try (assert (Hf : is_failure (fst (learn_from_experience now _ e))
                          = true)
               by (rewrite Hmake in Hcases; rewrite Hcases; reflexivity);
             rewrite Hf; cbn [negb]; lia).
      destruct (negb _); simpl; lia. }
  split; [exact Hsucc|].
  rewrite run_requests_counts. lia.
Qed.

(** *** The improvement a success reports *)

Lemma apply_learning_updates_returns (experience : LearningExperience)
    (e e3 : t) (learned : learning_result) :
  _apply_learning_updates experience e = (Ok learned, e3) ->
  exists ctx out x,
    context experience = PDict ctx /\
    outcome experience = PDict out /\
    as_num (dict_get_or "performance" out (PNum 0)) = Some x /\
    performance_improvement learned = x - last_performance e /\
    last_performance e3 = x.
Proof.
  unfold _apply_learning_updates, bind, lift, gets, modify, ret.
  destruct (context experience) as [| | | | |ctx]; try discriminate.
  destruct (outcome experience) as [| | | | |out]; try discriminate.
  cbn [py_get].
  match goal with |- context [dispatch_update ?cs ?fb e] =>
    destruct (dispatch_update_frame cs fb e) as [_ Hlast];
    destruct (dispatch_update cs fb e) as [[s|ex] e1] end;
    [|discriminate].
  simpl in Hlast.
  destruct (as_num (dict_get_or "performance" out (PNum 0))) as [x|] eqn:Ex;
    [|discriminate].
  destruct (fits_float x); [|discriminate].
  intros [= <- <-]. exists ctx, out, x.
  cbn [performance_improvement last_performance set_last_performance].
  rewrite Hlast. now repeat split.
Qed.

(** What a call that succeeds was given and what it returns. *)
Lemma learn_from_experience_success
    (now : string) (data : pyval) (e : t)
    (Hok : is_failure (fst (learn_from_experience now data e)) = false) :
  exists d ctx out x iteration optimizer strength experience,
    data = PDict d /\
    dict_get_or "context" d (PDict []) = PDict ctx /\
    dict_get_or "outcome" d (PDict []) = PDict out /\
    as_num (dict_get_or "performance" out (PNum 0)) = Some x /\
    fst (learn_from_experience now data e)
    = success_result iteration (x - last_performance e) optimizer strength
                     experience /\
    last_performance (snd (learn_from_experience now data e)) = x.
Proof.
  pose proof (learn_from_experience_cases now data e) as Hcases.
  pose proof (make_experience_map now data) as Hmake.
  destruct data as [| | | | |d];
    try (rewrite Hmake in Hcases; rewrite Hcases in Hok; discriminate).
  destruct Hmake as (experience & Hexp & Hctx & Hout & _).
  rewrite Hexp in Hcases.
  pose proof (update_performance_metrics_cases experience
                (with_experience experience e)) as Hmetrics.
  destruct (py_get (outcome experience) "performance" (PNum 0))
    as [performance|ex]; rewrite Hmetrics in Hcases;
    [|rewrite Hcases in Hok; discriminate].
  match type of Hcases with context [_apply_learning_updates experience ?e2] =>
    pose proof (apply_learning_updates_returns experience e2) as Hret;
    destruct (_apply_learning_updates experience e2) as [[learned|ex] e3] end;
    [|rewrite Hcases in Hok; discriminate].
  destruct (Hret e3 learned eq_refl) as (ctx & out & x & Hc & Ho & Hx & Himp & Hl).
  cbv zeta in Hcases.
  assert (Hlast4 : last_performance (snd (_update_rl_agent experience e3))
                   = last_performance e3).
  { unfold _update_rl_agent.
    now destruct (rl_update experience (rl_agent e3)). }
  destruct (ReinforcementLearningAgent.get_policy_strength _) as [strength|ex];
    [|rewrite Hcases in Hok; discriminate].
  rewrite Hcases. cbn [fst snd].
  exists d, ctx, out, x. eexists _, _, strength, experience.
  split; [reflexivity|]. split; [now rewrite <- Hctx|].
  split; [now rewrite <- Hout|]. split; [exact Hx|]. split.
  - rewrite Himp. reflexivity.
  - cbn. rewrite Hlast4. exact Hl.
Qed.

(** X12.  A call that succeeds was given a map whose context and
    outcome are maps and whose performance is a number; the improvement it
    reports is that performance minus the one the engine remembered, and the
    engine remembers the new one afterwards: the improvement is measured
    against the last request whose strategy step went through, not against
    the best or the average. *)
Theorem improvement_is_against_last_performance
    (now : string) (data : pyval) (e : t)
    (Hok : is_failure (fst (learn_from_experience now data e)) = false) :
  exists v x,
    reported_performance data = Some v /\ as_num v = Some x /\
    py_get (fst (learn_from_experience now data e))
           "performance_improvement" PNone
    = Ok (PNum (x - last_performance e)) /\
    last_performance (snd (learn_from_experience now data e)) = x.
Proof.
  destruct (learn_from_experience_success now data e Hok)
    as (d & ctx & out & x & iteration & optimizer & strength & experience
        & Hdata & Hctx & Hout & Hx & Hres & Hlast).
  exists (dict_get_or "performance" out (PNum 0)), x.
  split.
  { rewrite Hdata. unfold reported_performance. now rewrite Hctx, Hout. }
  split; [exact Hx|]. split; [|exact Hlast].
  rewrite Hres. unfold success_result, py_get, dict_get_or.
  reflexivity.
Qed.

(** *** A performance that is not a number *)

Lemma deque_append_last {A : Type} (x : A) (d : deque A) :
  (1 <= maxlen d)%nat -> exists pre, items (deque_append x d) = pre ++ [x].
Proof.
  intros Hcap. unfold deque_append. cbn [items].
  destruct (maxlen d <? length (items d ++ [x]))%nat eqn:E;
    [|now exists (items d)].
  apply Nat.ltb_lt in E. rewrite length_app in E. simpl in E.
  destruct (items d) as [|y l]; [simpl in E; lia|].
  exists l. reflexivity.
Qed.

Lemma deque_append_last_two {A : Type} (x y : A) (d : deque A) (pre : list A) :
  (2 <= maxlen d)%nat -> items d = pre ++ [y] ->
  exists pre', items (deque_append x d) = pre' ++ [y; x].
Proof.
  intros Hcap Hitems. unfold deque_append. cbn [items]. rewrite Hitems.
  rewrite <- app_assoc. cbn [app].
  destruct (maxlen d <? length (pre ++ [y; x]))%nat eqn:E;
    [|now exists pre].
  apply Nat.ltb_lt in E. rewrite length_app in E. simpl in E.
  destruct pre as [|z pre']; [simpl in E; lia|].
  exists pre'. reflexivity.
Qed.

(** The trend rule on a window that ends in a string and a number. *)
Lemma gradient_update_mixed_window (cs fb : list (string * pyval))
    (g : AdaptiveGradientDescent.t) (pre : list pyval) (s : string) (x : Q) :
  (2 <= maxlen (AdaptiveGradientDescent.performance_history g))%nat ->
  items (AdaptiveGradientDescent.performance_history g) = pre ++ [PStr s] ->
  as_num (dict_get_or "performance" fb (PNum 0)) = Some x ->
  fst (AdaptiveGradientDescent.update cs fb g) = Raise TypeError.
Proof.
  intros Hcap Hitems Hx. unfold AdaptiveGradientDescent.update.
  destruct (deque_append_last_two (dict_get_or "performance" fb (PNum 0))
              (PStr s) _ pre Hcap Hitems) as [pre' Hwin].
  unfold AdaptiveGradientDescent.adapt_learning_rate.
  cbn [AdaptiveGradientDescent.performance_history
       AdaptiveGradientDescent.set_performance_history].
  unfold deque_from_end. rewrite Hwin.
  rewrite length_app, rev_app_distr. cbn [length rev app].
  replace (2 <=? length pre' + 2)%nat with true
    by (symmetry; apply Nat.leb_le; lia).
  cbn [lookup list_lookup Nat.sub].
  destruct (dict_get_or "performance" fb (PNum 0)) as [|[]| | | |];
    try discriminate; reflexivity.
Qed.

(** The window of the gradient strategy after a call that reached the
    strategy. *)
Lemma learn_from_experience_window (now : string) (data : pyval) (e : t)
    (v : pyval) :
  current_optimizer e = "gradient"%string ->
  reported_performance data = Some v ->
  AdaptiveGradientDescent.performance_history
    (gradient_optimizer (snd (learn_from_experience now data e)))
  = deque_append v (AdaptiveGradientDescent.performance_history
                      (gradient_optimizer e)).
Proof.
  intros Hopt Hrep.
  pose proof (learn_from_experience_cases now data e) as Hcases.
  pose proof (make_experience_map now data) as Hmake.
  destruct data as [| | | | |d]; try discriminate.
  destruct Hmake as (experience & Hexp & Hctx & Hout & _).
  unfold reported_performance in Hrep. rewrite <- Hctx, <- Hout in Hrep.
  destruct (context experience) as [| | | | |ctx] eqn:Ec; try discriminate.
  destruct (outcome experience) as [| | | | |out] eqn:Eo; try discriminate.
  injection Hrep as <-.
  rewrite Hexp in Hcases.
  pose proof (update_performance_metrics_cases experience
                (with_experience experience e)) as Hmetrics.
  rewrite Eo in Hmetrics. cbn [py_get] in Hmetrics.
  rewrite Hmetrics in Hcases.
  match type of Hcases with context [_apply_learning_updates experience ?e2] =>
    assert (Hwin : AdaptiveGradientDescent.performance_history
                     (gradient_optimizer
                        (snd (_apply_learning_updates experience e2)))
                   = deque_append (dict_get_or "performance" out (PNum 0))
                       (AdaptiveGradientDescent.performance_history
                          (gradient_optimizer e))) end.
  { unfold _apply_learning_updates, bind, lift, gets, modify, ret.
    rewrite Ec, Eo. cbn [py_get]. unfold dispatch_update.
    cbn [current_optimizer set_performance_metrics with_experience
         set_learning_experiences gradient_optimizer].
    rewrite Hopt. cbn [String.eqb Ascii.eqb Bool.eqb andb].
    match goal with |- context [AdaptiveGradientDescent.update ?cs ?fb ?g] =>
      destruct (update_learning_rate cs fb g) as (_ & _ & Hh);
      destruct (AdaptiveGradientDescent.update cs fb g) as [[s|ex] g'] end;
      cbv zeta in Hh; cbn [snd rbind] in *.
    - destruct (as_num (dict_get_or "performance" out (PNum 0))) as [x|];
        [destruct (fits_float x)|];
        cbn [snd gradient_optimizer set_last_performance
             set_gradient_optimizer]; exact Hh.
    - exact Hh. }
  match type of Hcases with context [_apply_learning_updates experience ?e2] =>
    destruct (_apply_learning_updates experience e2) as [[learned|ex] e3] end;
    cbn [snd] in Hwin.
  2:{ rewrite Hcases. exact Hwin. }
  cbv zeta in Hcases.
  assert (H4 : gradient_optimizer (snd (_update_rl_agent experience e3))
               = gradient_optimizer e3).
  { unfold _update_rl_agent.
    now destruct (rl_update experience (rl_agent e3)). }
  destruct (ReinforcementLearningAgent.get_policy_strength _);
    rewrite Hcases; cbn [snd gradient_optimizer set_learning_iteration];
    rewrite H4; exact Hwin.
Qed.

(** X13.  A request that reports a string as its performance fails, and
    makes the next request fail too, with a TypeError, although that one
    reports a number: the gradient strategy puts the performance into its
    window before anything checks it, and the trend rule of the next call
    compares the number with the string.  Neither call counts as a learning
    iteration. *)
Theorem string_performance_fails_next_request
    (now1 now2 : string) (data1 data2 : pyval) (e : t)
    (s : string) (v : pyval) (x : Q)
    (Hopt : current_optimizer e = "gradient"%string)
    (Hcap : (2 <= maxlen (AdaptiveGradientDescent.performance_history
                            (gradient_optimizer e)))%nat)
    (H1 : reported_performance data1 = Some (PStr s))
    (H2 : reported_performance data2 = Some v)
    (Hx : as_num v = Some x) :
  let r1 := learn_from_experience now1 data1 e in
  let r2 := learn_from_experience now2 data2 (snd r1) in
  is_failure (fst r1) = true /\
  fst r2 = failure_result TypeError /\
  learning_iteration (snd r2) = learning_iteration e.
Proof.
  cbv zeta.
  assert (Hfail1 : is_failure (fst (learn_from_experience now1 data1 e))
                   = true).
  { destruct (is_failure (fst (learn_from_experience now1 data1 e))) eqn:E;
      [reflexivity|].
    destruct (learn_from_experience_success now1 data1 e E)
      as (d1 & ctx1 & out1 & x1 & _ & _ & _ & _ & Hd1 & Hc1 & Ho1 & Hx1 & _).
    rewrite Hd1 in H1. unfold reported_performance in H1.
    rewrite Hc1, Ho1 in H1. injection H1 as H1.
    rewrite H1 in Hx1. discriminate. }
  split; [exact Hfail1|].
  pose proof (learn_from_experience_window now1 data1 e _ Hopt H1) as Hwin.
  destruct (learn_from_experience_steps now1 data1 e)
    as [(Hopt1 & _ & _ & _ & _ & _ & Hcap1 & _) _].
  assert (Hit1 : learning_iteration (snd (learn_from_experience now1 data1 e))
                 = learning_iteration e).
  { destruct (learn_from_experience_outcome now1 data1 e)
      as [[_ Hit] | (i & o & st & ex & Hres & _)]; [exact Hit|].
    rewrite Hres, success_result_not_failure in Hfail1. discriminate. }
  set (e1 := snd (learn_from_experience now1 data1 e)) in *.
  rewrite Hopt in Hopt1.
  destruct (deque_append_last (PStr s)
              (AdaptiveGradientDescent.performance_history
                 (gradient_optimizer e))) as [pre Hpre]; [lia|].
  rewrite <- Hwin in Hpre.
  pose proof (make_experience_map now2 data2) as Hmake.
  destruct data2 as [| | | | |d]; try discriminate.
  destruct Hmake as (experience & Hexp & Hctx & Hout & _).
  unfold reported_performance in H2. rewrite <- Hctx, <- Hout in H2.
  destruct (context experience) as [| | | | |ctx] eqn:Ec; try discriminate.
  destruct (outcome experience) as [| | | | |out] eqn:Eo; try discriminate.
  injection H2 as <-.
  set (performance := dict_get_or "performance" out (PNum 0)) in *.
  set (gradients := dict_get_or "gradients" out (PDict [])).
  set (parameters := dict_get_or "parameters" ctx (PDict [])).
  assert (Hstep : exists e3,
            _apply_learning_updates experience
              (after_metrics performance experience e1)
            = (Raise TypeError, e3)).
  { pose proof (gradient_update_mixed_window
                  (strategy_state parameters performance)
                  (strategy_feedback experience performance gradients)
                  (gradient_optimizer e1) pre s x) as Hraise.
    rewrite Hcap1 in Hraise. specialize (Hraise Hcap Hpre Hx).
    destruct (AdaptiveGradientDescent.update
                (strategy_state parameters performance)
                (strategy_feedback experience performance gradients)
                (gradient_optimizer e1)) as [r g'] eqn:Eupd.
    cbn [fst] in Hraise. subst r.
    eexists.
    apply (apply_learning_updates_dispatch_raises experience
             parameters performance gradients).
    - rewrite Ec. reflexivity.
    - rewrite Eo. reflexivity.
    - rewrite Eo. reflexivity.
    - unfold dispatch_update.
      cbn [current_optimizer after_metrics set_performance_metrics
           with_experience set_learning_experiences gradient_optimizer].
      rewrite Hopt1. cbn [String.eqb Ascii.eqb Bool.eqb andb].
      rewrite Eupd. reflexivity. }
  destruct Hstep as [e3 Hstep].
  destruct (strategy_step_raises now2 (PDict d) e1 e3 experience performance
              TypeError Hexp) as (Hres & Hit & _).
  - rewrite Eo. reflexivity.
  - exact Hstep.
  - rewrite Hres. cbn [fst snd]. split; [reflexivity | congruence].
Qed.

(** *** Requests that go through *)

Lemma deque_append_Forall {A : Type} (P : A -> Prop) (x : A) (d : deque A) :
  Forall P (items d) -> P x -> Forall P (items (deque_append x d)).
Proof.
  intros Hd Hx. unfold deque_append. cbn [items].
  assert (Hall : Forall P (items d ++ [x]))
    by (apply Forall_app; split; [exact Hd | now constructor]).
  destruct (maxlen d <? length (items d ++ [x]))%nat; [|exact Hall].
  destruct (items d ++ [x]) as [|y l]; [constructor|].
  now inversion Hall.
Qed.

Lemma adapt_learning_rate_numeric (g : AdaptiveGradientDescent.t) :
  Forall (fun v => numeric v = true)
         (items (AdaptiveGradientDescent.performance_history g)) ->
  fst (AdaptiveGradientDescent.adapt_learning_rate g) = Ok tt.
Proof.
  intros Hnum. unfold AdaptiveGradientDescent.adapt_learning_rate.
  destruct (2 <=? length (items (AdaptiveGradientDescent.performance_history g)))%nat
    eqn:Elen; [|reflexivity].
  apply Nat.leb_le in Elen. unfold deque_from_end.
  assert (Hrev : Forall (fun v => numeric v = true)
                   (rev (items (AdaptiveGradientDescent.performance_history g))))
    by now apply Forall_rev.
  destruct (lookup_lt_is_Some_2
              (rev (items (AdaptiveGradientDescent.performance_history g)))
              (1 - 1)%nat) as [newest Hn]; [rewrite length_rev; lia|].
  destruct (lookup_lt_is_Some_2
              (rev (items (AdaptiveGradientDescent.performance_history g)))
              (2 - 1)%nat) as [previous Hp]; [rewrite length_rev; lia|].
  rewrite Hn, Hp.
  pose proof (Forall_lookup_1 _ _ _ _ Hrev Hn) as Hnn.
  pose proof (Forall_lookup_1 _ _ _ _ Hrev Hp) as Hpn.
  unfold numeric in Hnn, Hpn. cbv beta in Hnn, Hpn.
  destruct (as_num newest) as [a|] eqn:Ea; [|discriminate].
  destruct (as_num previous) as [b|] eqn:Eb; [|discriminate].
  rewrite (py_gt_numbers newest previous a b Ea Eb).
  now destruct (Qltb b a).
Qed.

Lemma float_number_numeric (v : pyval) :
  float_number v = true -> numeric v = true.
Proof. unfold float_number, numeric. now destruct (as_num v). Qed.

Lemma update_velocity_numeric (its : list (string * pyval))
    (g : AdaptiveGradientDescent.t) :
  forallb (fun kv => float_number (snd kv)) its = true ->
  fst (AdaptiveGradientDescent.update_velocity its g) = Ok tt.
Proof.
  revert g. induction its as [|[k v] its IH]; intros g Hnum; [reflexivity|].
  cbn [forallb snd] in Hnum. apply andb_true_iff in Hnum as [Hv Hrest].
  cbn [AdaptiveGradientDescent.update_velocity].
  set (g1 := if dict_mem k (AdaptiveGradientDescent.velocity g) then g
             else AdaptiveGradientDescent.set_velocity
                    (dict_set k 0 (AdaptiveGradientDescent.velocity g)) g).
  assert (Hget : exists old,
            dict_get k (AdaptiveGradientDescent.velocity g1) = Some old).
  { unfold g1, dict_mem.
    destruct (dict_get k (AdaptiveGradientDescent.velocity g)) eqn:E.
    - eauto.
    - cbn [AdaptiveGradientDescent.velocity AdaptiveGradientDescent.set_velocity].
      rewrite dict_get_set, String.eqb_refl. eauto. }
  destruct Hget as [old ->].
  unfold float_number in Hv. unfold py_mul_num.
  destruct (as_num v); [|discriminate]. rewrite Hv. apply IH. exact Hrest.
Qed.

Lemma gradient_update_numeric (cs fb : list (string * pyval))
    (g : AdaptiveGradientDescent.t) :
  Forall (fun v => numeric v = true)
         (items (AdaptiveGradientDescent.performance_history g)) ->
  float_number (dict_get_or "performance" fb (PNum 0)) = true ->
  numeric_gradients (dict_get_or "gradients" fb (PDict [])) = true ->
  is_ok (fst (AdaptiveGradientDescent.update cs fb g)) = true /\
  Forall (fun v => numeric v = true)
         (items (AdaptiveGradientDescent.performance_history
                   (snd (AdaptiveGradientDescent.update cs fb g)))).
Proof.
  intros Hwin Hperf Hgrads.
  destruct (update_learning_rate cs fb g) as (_ & _ & Hh).
  cbv zeta in Hh. rewrite Hh.
  cbn [AdaptiveGradientDescent.performance_history
       AdaptiveGradientDescent.set_performance_history].
  pose proof (deque_append_Forall (fun v => numeric v = true) _ _ Hwin
                (float_number_numeric _ Hperf)) as Hwin'.
  split; [|exact Hwin'].
  unfold AdaptiveGradientDescent.update.
  match goal with |- context [AdaptiveGradientDescent.adapt_learning_rate ?g1] =>
    pose proof (adapt_learning_rate_numeric g1 Hwin') as Hadapt;
    destruct (AdaptiveGradientDescent.adapt_learning_rate g1) as [r g2] end.
  cbn [fst] in Hadapt. subst r.
  unfold numeric_gradients in Hgrads.
  destruct (dict_get_or "gradients" fb (PDict [])) as [| | | | |its];
    try discriminate.
  cbn [py_items].
  pose proof (update_velocity_numeric its g2 Hgrads) as Hvel.
  destruct (AdaptiveGradientDescent.update_velocity its g2) as [r g3].
  cbn [fst] in Hvel. subst r. reflexivity.
Qed.

Lemma get_policy_strength_returns (ag : ReinforcementLearningAgent.t) :
  ReinforcementLearningAgent.well_shaped ag ->
  (0 < ReinforcementLearningAgent.state_space_size ag)%Z ->
  (0 < ReinforcementLearningAgent.action_space_size ag)%Z ->
  exists q, ReinforcementLearningAgent.get_policy_strength ag = Ok q /\ q <= 1.
Proof.
  intros (_ & _ & Hlen & Hrows) HS HA.
  unfold ReinforcementLearningAgent.get_policy_strength.
  destruct (ReinforcementLearningAgent.q_table ag) as [|row tbl] eqn:Etbl;
    [simpl in Hlen; lia|].
  apply Forall_cons_1 in Hrows as [Hrow _].
  destruct row as [|c row]; [simpl in Hrow; lia|].
  cbn [concat app ReinforcementLearningAgent.np_max rbind].
  match goal with |- context [Qeq_bool ?m 0] => destruct (Qeq_bool m 0) end.
  - exists 0. split; [reflexivity | lra].
  - eexists. split; [reflexivity|].
    match goal with |- py_min 1 ?r <= 1 =>
      generalize r; intros r0;
      destruct (py_min_cases 1 r0) as [[? ->] | [? ->]]; lra end.
Qed.

(** One well-formed request on a ready engine succeeds and leaves the
    engine ready. *)
Lemma well_formed_request_succeeds (now : string) (data : pyval) (e : t) :
  ready e -> well_formed_request data = true ->
  is_failure (fst (learn_from_experience now data e)) = false /\
  ready (snd (learn_from_experience now data e)).
Proof.
  intros (Hopt & Hwin & Hshape & HS & HA & _) Hreq.
  pose proof (learn_from_experience_cases now data e) as Hcases.
  pose proof (make_experience_map now data) as Hmake.
  destruct data as [| | | | |d]; try discriminate.
  destruct Hmake as (experience & Hexp & Hctx & Hout & _).
  unfold well_formed_request in Hreq. rewrite <- Hctx, <- Hout in Hreq.
  destruct (context experience) as [| | | | |ctx] eqn:Ec; try discriminate.
  destruct (outcome experience) as [| | | | |out] eqn:Eo; try discriminate.
  apply andb_true_iff in Hreq as [Hperf Hgrads].
  rewrite Hexp in Hcases.
  pose proof (update_performance_metrics_cases experience
                (with_experience experience e)) as Hmetrics.
  rewrite Eo in Hmetrics. cbn [py_get] in Hmetrics.
  rewrite Hmetrics in Hcases.
  match type of Hcases with context [_apply_learning_updates experience ?e2] =>
    assert (Happly : is_ok (fst (_apply_learning_updates experience e2)) = true
                     /\ Forall (fun v => numeric v = true)
                          (items (AdaptiveGradientDescent.performance_history
                                    (gradient_optimizer
                                       (snd (_apply_learning_updates
                                               experience e2)))))
                     /\ rl_agent (snd (_apply_learning_updates experience e2))
                        = rl_agent e
                     /\ current_optimizer
                          (snd (_apply_learning_updates experience e2))
                        = current_optimizer e
                     /\ fits_float
                          (last_performance
                             (snd (_apply_learning_updates experience e2)))
                        = true) end.
  { unfold _apply_learning_updates, bind, lift, gets, modify, ret.
    rewrite Ec, Eo. cbn [py_get]. unfold dispatch_update.
    cbn [current_optimizer set_performance_metrics with_experience
         set_learning_experiences gradient_optimizer].
    rewrite Hopt. cbn [String.eqb Ascii.eqb Bool.eqb andb].
    match goal with |- context [AdaptiveGradientDescent.update ?cs ?fb ?g] =>
      destruct (gradient_update_numeric cs fb g Hwin Hperf Hgrads)
        as [Hok Hwin'];
      destruct (AdaptiveGradientDescent.update cs fb g) as [[s|ex] g'] end;
      cbn [fst snd is_ok] in Hok, Hwin'; [|discriminate].
    cbn [rbind]. unfold float_number in Hperf.
    destruct (as_num (dict_get_or "performance" out (PNum 0)));
      [|discriminate].
    rewrite Hperf. cbn. rewrite Hopt. repeat split; auto. }
  match type of Hcases with context [_apply_learning_updates experience ?e2] =>
    destruct (_apply_learning_updates experience e2) as [[learned|ex] e3] end;
    cbn [fst snd is_ok] in Happly;
    destruct Happly as (Hok & Hwin3 & Hag3 & Hopt3 & Hlast3);
    [|discriminate].
  cbv zeta in Hcases.
  assert (H4 : gradient_optimizer (snd (_update_rl_agent experience e3))
               = gradient_optimizer e3 /\
               current_optimizer (snd (_update_rl_agent experience e3))
               = current_optimizer e3 /\
               rl_agent (snd (_update_rl_agent experience e3))
               = snd (rl_update experience (rl_agent e3)) /\
               last_performance (snd (_update_rl_agent experience e3))
               = last_performance e3).
  { unfold _update_rl_agent.
    now destruct (rl_update experience (rl_agent e3)). }
  destruct H4 as (Hg4 & Hopt4 & Hag4 & Hlast4).
  destruct (rl_update_constants experience (rl_agent e3))
    as [(A1 & A2 & _) Hshape4].
  rewrite Hag3 in *. specialize (Hshape4 Hshape).
  rewrite <- Hag4 in A1, A2, Hshape4.
  destruct (get_policy_strength_returns
              (rl_agent (snd (_update_rl_agent experience e3))))
    as (q & Hq & _); [exact Hshape4 | lia | lia |].
  rewrite Hq in Hcases. rewrite Hcases. cbn [fst snd].
  split; [apply success_result_not_failure|].
  unfold ready.
  cbn [current_optimizer gradient_optimizer rl_agent last_performance
       set_learning_iteration].
  rewrite Hopt4, Hopt3, Hg4, Hlast4.
  split; [exact Hopt|]. split; [exact Hwin3|]. split; [exact Hshape4|].
  split; [lia|]. split; [lia | exact Hlast3].
Qed.

(** Every engine that the constructor returns with a float as its
    learning rate is ready. *)
Lemma construct_ready (config : pyval) (e : t) :
  construct config = Built e -> ready e.
Proof.
  assert (Hbuild : forall d q, ready (build d q)).
  { intros d q. unfold ready. split; [reflexivity|]. split; [constructor|].
    split; [|repeat split; reflexivity].
    apply init_well_shaped; lia. }
  unfold construct.
  destruct (py_truthy config); [|intros [= <-]; apply Hbuild].
  destruct config as [| | | | |d]; try discriminate.
  destruct (as_num _) as [q|]; [|discriminate].
  destruct (fits_float q); [|discriminate].
  intros [= <-]. apply Hbuild.
Qed.

(** X14.  On an engine whose gradient strategy, with a float as its
    learning rate, is the chosen one, whose gradient window holds numbers,
    whose table has cells and whose remembered performance is a float or
    converts to one, as is every engine that the constructor
    returns for a configuration that is falsy or a map whose learning rate
    is absent or a float: every request of a sequence of well-formed
    requests (maps where maps are read, floats or ints and bools that
    convert to floats as performance and gradients) succeeds, whatever its
    action and reward are; the results are all successes and
    [learning_iteration] has grown by the number of requests. *)
Theorem well_formed_requests_all_succeed
    (requests : list (string * pyval)) (e : t)
    (Hready : ready e \/ exists config, construct config = Built e)
    (Hreq : Forall (fun r => well_formed_request (snd r) = true) requests) :
  Forall (fun r => is_failure r = false) (fst (run_requests requests e)) /\
  learning_iteration (snd (run_requests requests e))
  = (learning_iteration e + Z.of_nat (length requests))%Z /\
  ready (snd (run_requests requests e)).
Proof.
  assert (Hready' : ready e).
  { destruct Hready as [Hr | [config Hbuilt]];
      [exact Hr | exact (construct_ready config e Hbuilt)]. }
  clear Hready. rename Hready' into Hready.
  revert e Hready.
  induction requests as [|[now data] requests IH]; intros e Hready.
  - cbn. split; [constructor|]. split; [lia | exact Hready].
  - apply Forall_cons_1 in Hreq as [Hhead Hrest]. cbn [snd] in Hhead.
    rewrite run_requests_cons. cbn [fst snd].
    destruct (well_formed_request_succeeds now data e Hready Hhead)
      as [Hok Hready1].
    destruct (IH Hrest _ Hready1) as (IHok & IHit & IHready).
    split; [constructor; assumption|]. split; [|exact IHready].
    rewrite IHit.
    destruct (learn_from_experience_outcome now data e)
      as [[Hfail _] | (i & o & st & ex & _ & Hit)];
      [rewrite Hok in Hfail; discriminate|].
    rewrite Hit. cbn [length]. lia.
Qed.

(** *** The agent behind the engine *)

Lemma rl_update_epsilon (experience : LearningExperience)
    (ag : ReinforcementLearningAgent.t) :
  0 <= ReinforcementLearningAgent.epsilon_decay ag <= 1 ->
  1 # 100 <= ReinforcementLearningAgent.epsilon ag ->
  1 # 100 <= ReinforcementLearningAgent.epsilon (snd (rl_update experience ag))
          <= ReinforcementLearningAgent.epsilon ag.
Proof.
  intros Hd He. unfold rl_update.
  match goal with |- context [match ?args with Ok _ => _ | Raise _ => _ end] =>
    destruct args as [[[[action r0] next_state] done]|ex] end;
    [|cbn [snd]; lra].
  pose proof (update_q_value_epsilon ag (context experience) action r0
                next_state done) as Heps.
  destruct (ReinforcementLearningAgent.update_q_value
              (context experience) action r0 next_state done ag)
    as [[[]|ex] ag'].
  - destruct Heps as (_ & _ & _ & Heps). cbn [snd]. rewrite Heps.
    revert Hd He.
    generalize (ReinforcementLearningAgent.epsilon ag).
    generalize (ReinforcementLearningAgent.epsilon_decay ag).
    intros dcy eps Hd He.
    destruct (py_max_cases (1 # 100) (eps * dcy)) as [[? ->] | [? ->]]; nra.
  - destruct Heps as (_ & _ & _ & ->). cbn [snd]. lra.
Qed.

Lemma learn_from_experience_agent (now : string) (data : pyval) (e : t) :
  rl_agent (snd (learn_from_experience now data e)) = rl_agent e \/
  exists experience,
    rl_agent (snd (learn_from_experience now data e))
    = snd (rl_update experience (rl_agent e)).
Proof.
  pose proof (learn_from_experience_cases now data e) as Hcases.
  destruct (make_experience now data) as [experience|ex];
    [|rewrite Hcases; now left].
  pose proof (update_performance_metrics_cases experience
                (with_experience experience e)) as Hmetrics.
  destruct (py_get (outcome experience) "performance" (PNum 0))
    as [performance|ex]; rewrite Hmetrics in Hcases;
    [|rewrite Hcases; now left].
  match type of Hcases with context [_apply_learning_updates experience ?e2] =>
    assert (Hag3 : rl_agent (snd (_apply_learning_updates experience e2))
                   = rl_agent e) end.
  { unfold _apply_learning_updates, bind, lift, gets, modify, ret.
    destruct (py_get (context experience) "parameters" (PDict []));
      [|reflexivity].
    destruct (py_get (outcome experience) "performance" (PNum 0)) as [perf|];
      [|reflexivity].
    destruct (py_get (outcome experience) "gradients" (PDict []));
      [|reflexivity].
    unfold dispatch_update.
    destruct (String.eqb _ "gradient").
    - destruct (AdaptiveGradientDescent.update _ _ _) as [[s|ex] g'];
        cbn [rbind]; [|reflexivity].
      now destruct (as_num perf) as [x|]; [destruct (fits_float x)|].
    - destruct (String.eqb _ "bayesian").
      + destruct (BayesianOptimizer.update _ _ _) as [[s|ex] b'];
          cbn [rbind]; [|reflexivity].
        now destruct (as_num perf) as [x|]; [destruct (fits_float x)|].
      + now destruct (as_num perf) as [x|]; [destruct (fits_float x)|]. }
  match type of Hcases with context [_apply_learning_updates experience ?e2] =>
    destruct (_apply_learning_updates experience e2) as [[learned|ex] e3] end;
    cbn [snd] in Hag3; [|rewrite Hcases; now left].
  cbv zeta in Hcases. right. exists experience.
  assert (H4 : rl_agent (snd (_update_rl_agent experience e3))
               = snd (rl_update experience (rl_agent e3))).
  { unfold _update_rl_agent.
    now destruct (rl_update experience (rl_agent e3)). }
  rewrite Hag3 in H4.
  destruct (ReinforcementLearningAgent.get_policy_strength _);
    rewrite Hcases; cbn [snd rl_agent set_learning_iteration]; exact H4.
Qed.

(** X15.  Whatever requests an engine serves, valid or not, its agent
    stays sound: the table keeps the shape of the declared sizes, so that
    [get_policy_strength] returns (a number that is at most 1) and never
    raises, and epsilon never grows and never falls below 0.01. *)
Theorem engine_keeps_agent_sound
    (requests : list (string * pyval)) (e : t)
    (Hshape : ReinforcementLearningAgent.well_shaped (rl_agent e))
    (HS : (0 < ReinforcementLearningAgent.state_space_size (rl_agent e))%Z)
    (HA : (0 < ReinforcementLearningAgent.action_space_size (rl_agent e))%Z)
    (Hdecay : 0 <= ReinforcementLearningAgent.epsilon_decay (rl_agent e) <= 1)
    (Heps : 1 # 100 <= ReinforcementLearningAgent.epsilon (rl_agent e)) :
  let ag' := rl_agent (snd (run_requests requests e)) in
  ReinforcementLearningAgent.well_shaped ag' /\
  (exists q, ReinforcementLearningAgent.get_policy_strength ag' = Ok q /\
             q <= 1) /\
  1 # 100 <= ReinforcementLearningAgent.epsilon ag'
          <= ReinforcementLearningAgent.epsilon (rl_agent e).
Proof.
  cbv zeta.
  assert (Hinv : ReinforcementLearningAgent.well_shaped
                   (rl_agent (snd (run_requests requests e))) /\
                 1 # 100 <= ReinforcementLearningAgent.epsilon
                              (rl_agent (snd (run_requests requests e)))
                         <= ReinforcementLearningAgent.epsilon (rl_agent e)).
  { revert e Hshape HS HA Hdecay Heps.
    induction requests as [|[now data] requests IH];
      intros e Hshape HS HA Hdecay Heps.
    - cbn. split; [exact Hshape | lra].
    - rewrite run_requests_cons. cbn [snd].
      set (e1 := snd (learn_from_experience now data e)).
      destruct (learn_from_experience_steps now data e)
        as [(_ & _ & _ & _ & _ & _ & _ & (A1 & A2 & _ & _ & A5 & _) & _) _].
      fold e1 in A1, A2, A5.
      assert (H1 : ReinforcementLearningAgent.well_shaped (rl_agent e1) /\
                   1 # 100 <= ReinforcementLearningAgent.epsilon (rl_agent e1)
                           <= ReinforcementLearningAgent.epsilon (rl_agent e)).
      { destruct (learn_from_experience_agent now data e)
          as [Hsame | [experience Hupd]]; fold e1 in Hsame || fold e1 in Hupd.
        - rewrite Hsame. split; [exact Hshape | lra].
        - rewrite Hupd. split.
          + now apply rl_update_constants.
          + now apply rl_update_epsilon. }
      destruct H1 as [Hshape1 Heps1].
      destruct (IH e1) as [IHshape IHeps];
        try (rewrite ?A1, ?A2, ?A5; assumption || lra || lia).
      split; [exact IHshape | lra]. }
  destruct Hinv as [Hshape' Heps'].
  destruct (run_requests_untouched requests e)
    as (_ & _ & _ & _ & _ & _ & _ & (A1 & A2 & _) & _).
  split; [exact Hshape'|]. split; [|exact Heps'].
  apply get_policy_strength_returns; [exact Hshape' | lia | lia].
Qed.
(** *** The metrics *)

Lemma metrics_append_overall (entry : pyval) (m : list (string * list pyval)) :
  dict_get_or "overall" (metrics_append "overall" entry m) []
  = dict_get_or "overall" m [] ++ [entry].
Proof.
  unfold metrics_append, dict_get_or.
  destruct (dict_get "overall" m) as [entries|] eqn:E;
    rewrite dict_get_set, String.eqb_refl; reflexivity.
Qed.

Lemma learn_from_experience_metrics (now : string) (data : pyval) (e : t) :
  exists entries,
    overall_metrics (snd (learn_from_experience now data e))
    = overall_metrics e ++ entries /\
    length entries = (if metric_request data then 1 else 0)%nat.
Proof.
  pose proof (learn_from_experience_cases now data e) as Hcases.
  pose proof (make_experience_map now data) as Hmake.
  destruct data as [| | | | |d];
    try (rewrite Hmake in Hcases; rewrite Hcases; exists [];
         split; [now rewrite app_nil_r | reflexivity]).
  destruct Hmake as (experience & Hexp & _ & Hout & _).
  rewrite Hexp in Hcases. unfold metric_request. rewrite <- Hout.
  pose proof (update_performance_metrics_cases experience
                (with_experience experience e)) as Hmetrics.
  destruct (outcome experience) as [| | | | |out] eqn:Eo;
    cbn [py_get] in Hmetrics; rewrite Hmetrics in Hcases;
    try (rewrite Hcases; exists [];
         split; [now rewrite app_nil_r | reflexivity]).
  cbn [is_map].
  exists [overall_entry (dict_get_or "performance" out (PNum 0)) experience].
  split; [|reflexivity].
  match type of Hcases with context [_apply_learning_updates experience ?e2] =>
    assert (H2 : overall_metrics e2
                 = overall_metrics e
                   ++ [overall_entry (dict_get_or "performance" out (PNum 0))
                                     experience])
      by (unfold overall_metrics; cbn [performance_metrics
            set_performance_metrics with_experience set_learning_experiences];
          apply metrics_append_overall);
    pose proof (apply_learning_updates_frame experience e2) as (_ & _ & Hm3);
    destruct (_apply_learning_updates experience e2) as [[learned|ex] e3] end;
    cbn [snd] in Hm3.
  2:{ rewrite Hcases. unfold overall_metrics in *. cbn [snd].
      now rewrite Hm3. }
  pose proof (update_rl_agent_isolated experience e3) as (_ & (_ & _ & Hm4) & _).
  cbv zeta in Hcases.
  destruct (ReinforcementLearningAgent.get_policy_strength _);
    rewrite Hcases; unfold overall_metrics in *;
    cbn [snd performance_metrics set_learning_iteration];
    now rewrite Hm4, Hm3.
Qed.

(** X19.  The entries under ['overall'] of the performance metrics only
    ever grow: a sequence of requests appends one entry for every request
    that is a map with a map as outcome, whether the call then succeeds or
    fails, and keeps every earlier entry in place; unlike the history, the
    list has no capacity. *)
Theorem overall_metrics_only_grow
    (requests : list (string * pyval)) (e : t) :
  exists entries,
    overall_metrics (snd (run_requests requests e))
    = overall_metrics e ++ entries /\
    length entries = metric_requests requests.
Proof.
  revert e. induction requests as [|[now data] requests IH]; intros e.
  - exists []. split; [now rewrite app_nil_r | reflexivity].
  - rewrite run_requests_cons. cbn [snd].
    destruct (learn_from_experience_metrics now data e)
      as (first & Hfirst & Hlen1).
    destruct (IH (snd (learn_from_experience now data e)))
      as (later & Hlater & Hlen).
    exists (first ++ later). split.
    + now rewrite Hlater, Hfirst, app_assoc.
    + rewrite length_app, Hlen1, Hlen. unfold metric_requests.
      cbn [List.filter snd]. now destruct (metric_request data).
Qed.
End MoreEngine.

Section MoreEngineExamples.
Import EnhancedAutonomousLearningCore.

(** X11 on three requests of which two are maps: two records, one
    of them for a call that failed. *)
Lemma history_records_every_map_request_witness :
  length (items (learning_experiences
                   (snd (run_requests (rt := constant_hash_runtime)
                           mixed_requests small_core)))) = 2%nat.
Proof.
  assert (Hcap : (length (items (learning_experiences small_core))
                  <= maxlen (learning_experiences small_core))%nat)
    by (simpl; lia).
  rewrite (proj1 (history_records_every_map_request
                    (rt := constant_hash_runtime)
                    mixed_requests small_core Hcap)).
  reflexivity.
Defined.

(** X12 on the first experience of the scenario: from a remembered
    performance of 0 to 0.8. *)
Lemma improvement_is_against_last_performance_witness :
  is_failure (fst (learn_from_experience (rt := constant_hash_runtime)
                     "t0" buy_experience small_core)) = false /\
  last_performance (snd (learn_from_experience (rt := constant_hash_runtime)
                           "t0" buy_experience small_core)) = 8 # 10.
Proof.
  assert (Hok : is_failure
                  (fst (learn_from_experience (rt := constant_hash_runtime)
                          "t0" buy_experience small_core)) = false)
    by (vm_compute; reflexivity).
  split; [exact Hok|].
  destruct (improvement_is_against_last_performance
              (rt := constant_hash_runtime) "t0" buy_experience small_core Hok)
    as (v & x & Hv & Hx & _ & Hlast).
  rewrite Hlast. injection Hv as <-. injection Hx as <-. reflexivity.
Defined.

(** X13 on the constructor's engine: the performance ['high'], then
    the first experience of the scenario, which fails. *)
Lemma string_performance_fails_next_request_witness :
  let r1 := learn_from_experience (rt := constant_hash_runtime)
              "t0" bad_performance_experience (init None) in
  let r2 := learn_from_experience (rt := constant_hash_runtime)
              "t1" buy_experience (snd r1) in
  is_failure (fst r1) = true /\
  fst r2 = failure_result (rt := constant_hash_runtime) TypeError /\
  learning_iteration (snd r2) = 0%Z.
Proof.
  apply (string_performance_fails_next_request (rt := constant_hash_runtime)
           "t0" "t1" bad_performance_experience buy_experience (init None)
           "high" (PNum (8 # 10)) (8 # 10)).
  - reflexivity.
  - simpl. lia.
  - reflexivity.
  - reflexivity.
  - reflexivity.
Defined.

(** X14 on the scenario and the engine that the constructor returns for
    an empty configuration: both experiences succeed. *)
Lemma well_formed_requests_all_succeed_witness :
  construct (PDict []) = Built (init None) /\
  learning_iteration (snd (run_requests (rt := constant_hash_runtime)
                             scenario_requests (init None))) = 2%Z.
Proof.
  split; [reflexivity|].
  assert (Hreq : Forall (fun r => well_formed_request (snd r) = true)
                        scenario_requests)
    by (repeat constructor).
  rewrite (proj1 (proj2 (well_formed_requests_all_succeed
                           (rt := constant_hash_runtime)
                           scenario_requests (init None)
                           (or_intror (ex_intro _ (PDict []) eq_refl))
                           Hreq))).
  reflexivity.
Defined.

(** X15 on the constructor's engine and three requests of which two
    fail. *)
Lemma engine_keeps_agent_sound_witness :
  let ag' := rl_agent (snd (run_requests (rt := constant_hash_runtime)
                              mixed_requests (init None))) in
  ReinforcementLearningAgent.well_shaped ag' /\
  1 # 100 <= ReinforcementLearningAgent.epsilon ag' <= 1 # 10.
Proof.
  cbv zeta.
  assert (Hshape : ReinforcementLearningAgent.well_shaped
                     (rl_agent (init None)))
    by (apply init_well_shaped; lia).
  destruct (engine_keeps_agent_sound (rt := constant_hash_runtime)
              mixed_requests (init None) Hshape)
    as (Hshape' & _ & Heps').
  - reflexivity.
  - reflexivity.
  - split; unfold Qle; simpl; lia.
  - unfold Qle; simpl; lia.
  - split; [exact Hshape' | exact Heps'].
Defined.
End MoreEngineExamples.

(** ** Analytics and the entry point *)

Section MoreAnalytics.
Import EnhancedAutonomousLearningCore.
Context {rt : PyRuntime} {nf : NumpyFloat}.

(** *** A history that analytics cannot read *)

Lemma performance_values_raises (l : list LearningExperience) :
  Exists (fun x => is_map (outcome x) = false) l ->
  performance_values l = Raise AttributeError.
Proof.
  induction l as [|x l IH]; intros Hex; [now apply Exists_nil in Hex|].
  cbn [performance_values].
  destruct (outcome x) as [| | | | |out] eqn:Eo; try reflexivity.
  cbn [py_get rbind].
  apply Exists_cons in Hex as [Hhead | Htail].
  - rewrite Eo in Hhead. discriminate.
  - now rewrite (IH Htail).
Qed.

(** X16.  One request whose outcome is not a map fails, and from then
    on [get_learning_analytics] raises AttributeError, until a hundred
    further records have pushed the request's record out of the window it
    reads: the record is in the history although the call failed, and
    nothing around the analytics catches what reading it raises. *)
Theorem analytics_raises_after_bad_outcome
    (now : string) (data : pyval) (rest : list (string * pyval)) (e : t)
    (Hcap : (length (items (learning_experiences e))
             <= maxlen (learning_experiences e))%nat)
    (Hmax : (100 <= maxlen (learning_experiences e))%nat)
    (Hbad : bad_outcome_request data = true)
    (Hfew : (map_requests rest < 100)%nat) :
  let r := learn_from_experience now data e in
  fst r = failure_result AttributeError /\
  get_learning_analytics (snd (run_requests rest (snd r)))
  = Raise AttributeError.
Proof.
  cbv zeta.
  pose proof (learn_from_experience_cases now data e) as Hcases.
  pose proof (make_experience_map now data) as Hmake.
  destruct data as [| | | | |d]; try discriminate.
  destruct Hmake as (experience & Hexp & _ & Hout & _).
  unfold bad_outcome_request in Hbad. rewrite <- Hout in Hbad.
  apply negb_true_iff in Hbad.
  destruct (learn_from_experience_steps now (PDict d) e) as [_ Hhist].
  rewrite Hexp in Hcases, Hhist.
  pose proof (update_performance_metrics_cases experience
                (with_experience experience e)) as Hmetrics.
  assert (Hget : py_get (outcome experience) "performance" (PNum 0)
                 = Raise AttributeError)
    by (destruct (outcome experience); try reflexivity; discriminate).
  rewrite Hget in Hmetrics. rewrite Hmetrics in Hcases.
  split; [rewrite Hcases; reflexivity|].
  destruct (run_requests_history rest (snd (learn_from_experience now (PDict d) e)))
    as (recorded & Hlen & Hrec).
  unfold get_learning_analytics. rewrite Hrec, Hhist.
  change (deque_extend recorded
            (deque_append experience (learning_experiences e)))
    with (deque_extend (experience :: recorded) (learning_experiences e)).
  destruct (deque_extend_items (experience :: recorded)
              (learning_experiences e) Hcap) as [Hitems _].
  rewrite Hitems. unfold last_n. rewrite drop_drop.
  rewrite length_drop, length_app. cbn [length].
  rewrite drop_app_le by lia.
  rewrite performance_values_raises; [reflexivity|].
  apply Exists_app. right. now apply Exists_cons_hd.
Qed.

(** *** A history of numbers *)

Lemma performance_values_numeric (l : list LearningExperience) :
  Forall (fun x => numeric_experience x = true) l ->
  exists vs, performance_values l = Ok vs /\
             length vs = length l /\
             Forall (fun v => float_number v = true) vs /\
             Forall (fun v => float_number v = true) (map confidence l).
Proof.
  induction l as [|x l IH]; intros Hnum.
  - exists []. repeat split; constructor.
  - apply Forall_cons_1 in Hnum as [Hx Hl].
    destruct (IH Hl) as (vs & Hvs & Hlen & Hperf & Hconf).
    unfold numeric_experience in Hx. apply andb_true_iff in Hx as [Hp Hc].
    cbn [performance_values map].
    destruct (outcome x) as [| | | | |out]; try discriminate.
    cbn [py_get rbind]. rewrite Hvs. cbn [rbind].
    eexists. split; [reflexivity|].
    split; [simpl; now rewrite Hlen|].
    split; constructor; assumption.
Qed.

Lemma np_array_numeric (vs : list pyval) :
  Forall (fun v => float_number v = true) vs ->
  exists xs, np_array vs = Ok xs /\ length xs = length vs.
Proof.
  induction vs as [|v vs IH]; intros Hnum.
  - now exists [].
  - apply Forall_cons_1 in Hnum as [Hv Hvs].
    destruct (IH Hvs) as (xs & Hxs & Hlen).
    unfold float_number in Hv. cbn [np_array].
    destruct (as_num v) as [x|]; [|discriminate].
    rewrite Hv, Hxs. cbn [rbind]. exists (x :: xs).
    split; [reflexivity | simpl; now rewrite Hlen].
Qed.

(** X17.  On an engine whose last hundred records hold numbers (floats,
    or ints and bools that convert to floats), the analytics return: the
    trends are the mean, standard deviation, minimum and maximum of the
    performances, and the mean and standard deviation of the confidences,
    of the last hundred records, or of all when there are fewer, while
    [total_experiences] counts the whole history; on an empty history both
    trends are all 0. *)
Theorem analytics_of_numeric_history (e : t) (strength : Q)
    (Hnum : Forall (fun x => numeric_experience x = true)
                   (last_n 100 (items (learning_experiences e))))
    (Hstrength : ReinforcementLearningAgent.get_policy_strength (rl_agent e)
                 = Ok strength) :
  (items (learning_experiences e) = [] ->
   get_learning_analytics e
   = Ok (analytics_report 0 (learning_iteration e) (current_optimizer e)
           (performance_trend_entry 0 0 0 0) (confidence_trend_entry 0 0)
           strength (ReinforcementLearningAgent.epsilon (rl_agent e)))) /\
  (items (learning_experiences e) <> [] ->
   exists values performances confidences lo hi,
     performance_values (last_n 100 (items (learning_experiences e)))
     = Ok values /\
     np_array values = Ok performances /\
     np_array (map confidence (last_n 100 (items (learning_experiences e))))
     = Ok confidences /\
     length performances
       = Nat.min 100 (length (items (learning_experiences e))) /\
     length confidences
       = Nat.min 100 (length (items (learning_experiences e))) /\
     np_min performances = Ok lo /\
     ReinforcementLearningAgent.np_max performances = Ok hi /\
     get_learning_analytics e
     = Ok (analytics_report
             (length (items (learning_experiences e)))
             (learning_iteration e) (current_optimizer e)
             (performance_trend_entry
                (ReinforcementLearningAgent.np_mean performances)
                (np_std performances) lo hi)
             (confidence_trend_entry
                (ReinforcementLearningAgent.np_mean confidences)
                (np_std confidences))
             strength (ReinforcementLearningAgent.epsilon (rl_agent e)))).
Proof.
  split.
  - intros Hempty. unfold get_learning_analytics.
    rewrite Hempty. cbn. rewrite Hstrength. reflexivity.
  - intros Hne.
    destruct (performance_values_numeric _ Hnum)
      as (vs & Hvs & Hlen & Hperf & Hconf).
    assert (Hrecent : length (last_n 100 (items (learning_experiences e)))
                      = Nat.min 100 (length (items (learning_experiences e))))
      by (unfold last_n; rewrite length_drop; lia).
    assert (Hpos : (0 < length (items (learning_experiences e)))%nat)
      by (destruct (items (learning_experiences e)); [congruence | simpl; lia]).
    destruct (np_array_numeric vs Hperf) as (xs & Hxs & Hxlen).
    destruct (np_array_numeric _ Hconf) as (cs & Hcs & Hclen).
    rewrite length_map in Hclen.
    assert (Hxne : xs <> []) by (intros ->; simpl in Hxlen; lia).
    destruct xs as [|x xs']; [congruence|].
    exists vs, (x :: xs'), cs, (fold_left Qmin xs' x), (fold_left Qmax xs' x).
    split; [exact Hvs|]. split; [exact Hxs|]. split; [exact Hcs|].
    split; [lia|]. split; [lia|]. split; [reflexivity|].
    split; [reflexivity|].
    unfold get_learning_analytics. rewrite Hvs. cbn [rbind].
    unfold performance_trend, confidence_trend.
    destruct vs as [|v vs']; [simpl in Hxlen; lia|].
    rewrite Hxs. cbn [rbind np_min ReinforcementLearningAgent.np_max].
    destruct (map confidence (last_n 100 (items (learning_experiences e))))
      as [|c0 cl] eqn:Emap.
    { apply (f_equal length) in Emap. rewrite length_map in Emap.
      simpl in Emap. lia. }
    rewrite Hcs. cbn [rbind]. rewrite Hstrength. reflexivity.
Qed.

(** *** One engine for the process *)

(** When the constructor returns one of the engines of this
    development. *)
Lemma construct_built (config : pyval) (q : Q) :
  py_truthy config = false \/ is_map config = true ->
  as_num (configured_rate config) = Some q -> fits_float q = true ->
  construct config = Built (build (config_map config) q).
Proof.
  unfold configured_rate, config_map, construct.
  intros Hcfg Hrate Hfit.
  destruct (py_truthy config) eqn:Etruthy.
  - destruct Hcfg as [Hfalsy | Hmap]; [discriminate|].
    destruct config as [| | | | |d]; try discriminate.
    now rewrite Hrate, Hfit.
  - cbn in Hrate. injection Hrate as <-. reflexivity.
Qed.

Lemma construct_fails (config : pyval) :
  py_truthy config = true -> is_map config = false ->
  construct config = Fails AttributeError.
Proof.
  unfold construct. intros -> Hmap.
  now destruct config as [| | | | |d].
Qed.

Lemma process_learning_request_built (now : string)
    (request : request_data) (g : option t) (core0 : t) :
  get_learning_core (config_of request) g = Built core0 ->
  exists r core,
    process_learning_request now request g = Some (r, Some core) /\
    untouched core0 core.
Proof.
  intros Hcore. unfold process_learning_request. rewrite Hcore.
  destruct (py_eq _ (PStr "learn")).
  - match goal with |- context [learn_from_experience now ?x ?c] =>
      pose proof (learn_from_experience_steps now x c) as [Hu _];
      destruct (learn_from_experience now x c) as [r core1] end.
    exists (Ok r), core1. split; [reflexivity | exact Hu].
  - destruct (py_eq _ (PStr "analytics")); eexists _, _;
      (split; [reflexivity | apply untouched_refl]).
Qed.

Lemma serve_untouched (requests : list (string * request_data)) (core : t) :
  exists results core',
    serve requests (Some core) = Some (results, Some core') /\
    untouched core core'.
Proof.
  revert core. induction requests as [|[now request] rest IH]; intros core.
  - exists [], core. split; [reflexivity | apply untouched_refl].
  - cbn [serve].
    destruct (process_learning_request_built now request (Some core) core
                eq_refl) as (r & core1 & -> & Hu1).
    destruct (IH core1) as (results & core' & -> & Hu).
    exists (r :: results), core'. split; [reflexivity|].
    eapply untouched_trans; [exact Hu1 | exact Hu].
Qed.

(** X18.  The engine of a process is built by the first request whose
    configuration the constructor takes, whatever the action of that
    request is.  A configuration that is truthy and not a map makes the
    constructor, and with it the request, raise AttributeError and leaves
    the process without an engine, so that the next request is the first
    again.  A configuration that is falsy, or a map whose learning rate is
    absent or a float, builds the engine, and after any later requests,
    whose configurations are not looked at, the engine still has that
    configuration (an empty map for a falsy one), the base learning rate
    taken from it (0.01 when it names none) and the gradient strategy as
    its choice. *)
Theorem first_request_configures_engine
    (now : string) (request : request_data)
    (rest : list (string * request_data)) :
  (py_truthy (config_of request) = true ->
   is_map (config_of request) = false ->
   process_learning_request now request None
   = Some (Raise AttributeError, None) /\
   serve ((now, request) :: rest) None
   = match serve rest None with
     | Some (results, g) => Some (Raise AttributeError :: results, g)
     | None => None
     end) /\
  (forall q,
     py_truthy (config_of request) = false \/
     is_map (config_of request) = true ->
     as_num (configured_rate (config_of request)) = Some q ->
     fits_float q = true ->
     exists results core,
       serve ((now, request) :: rest) None = Some (results, Some core) /\
       config core = config_map (config_of request) /\
       AdaptiveGradientDescent.base_learning_rate (gradient_optimizer core)
       = q /\
       current_optimizer core = "gradient"%string).
Proof.
  split.
  - intros Htruthy Hmap.
    assert (Hstep : process_learning_request now request None
                    = Some (Raise AttributeError, None)).
    { unfold process_learning_request, get_learning_core.
      now rewrite (construct_fails _ Htruthy Hmap). }
    split; [exact Hstep|]. cbn [serve]. now rewrite Hstep.
  - intros q Hcfg Hrate Hfit.
    pose proof (construct_built _ q Hcfg Hrate Hfit) as Hbuilt.
    destruct (process_learning_request_built now request None _ Hbuilt)
      as (r & core1 & Hstep & Hu1).
    destruct (serve_untouched rest core1) as (results & core & Hserve & Hu).
    exists (r :: results), core. split.
    { cbn [serve]. now rewrite Hstep, Hserve. }
    destruct (untouched_trans _ _ _ Hu1 Hu)
      as (Ho & Hc & _ & _ & (Hbase & _) & _).
    split; [rewrite Hc; reflexivity|].
    split; [rewrite Hbase; reflexivity | rewrite Ho; reflexivity].
Qed.

Lemma serve_learn_requests (requests : list (string * request_data))
    (core : t) :
  Forall (fun r => learn_request (snd r) = true) requests ->
  serve requests (Some core)
  = Some (map Ok (fst (run_requests (payloads requests) core)),
          Some (snd (run_requests (payloads requests) core))).
Proof.
  revert core. induction requests as [|[now request] rest IH];
    intros core Hlearn; [reflexivity|].
  apply Forall_cons_1 in Hlearn as [Hhead Hrest]. cbn [snd] in Hhead.
  unfold payloads. cbn [map fst snd]. fold (payloads rest).
  rewrite run_requests_cons. cbn [serve fst snd].
  unfold process_learning_request, learn_request in *.
  assert (Haction : py_eq match request_action request with
                          | Some a => a
                          | None => PStr "learn"
                          end (PStr "learn") = true)
    by (destruct (request_action request); [exact Hhead | reflexivity]).
  rewrite Haction. cbn [get_learning_core]. fold (experience_of request).
  destruct (learn_from_experience now (experience_of request) core)
    as [result core1].
  rewrite (IH core1 Hrest). reflexivity.
Qed.

(** X20.  A process that only receives learn requests (the action
    ['learn'], given or by default), the first of them with a configuration
    that is falsy or a map whose learning rate is absent or a float, never
    raises, and is one engine, built from that configuration, that is
    handed the experiences of the requests in order (an empty map for a
    request that carries none): its results and its final state are those
    of the consecutive [learn_from_experience] calls.  The configurations
    of the later requests can be anything. *)
Theorem learn_requests_reach_one_engine
    (now : string) (request : request_data)
    (rest : list (string * request_data)) (q : Q)
    (Hlearn : Forall (fun r => learn_request (snd r) = true)
                     ((now, request) :: rest))
    (Hcfg : py_truthy (config_of request) = false \/
            is_map (config_of request) = true)
    (Hrate : as_num (configured_rate (config_of request)) = Some q)
    (Hfit : fits_float q = true) :
  let run := run_requests (payloads ((now, request) :: rest))
                          (build (config_map (config_of request)) q) in
  serve ((now, request) :: rest) None
  = Some (map Ok (fst run), Some (snd run)).
Proof.
  cbv zeta. apply Forall_cons_1 in Hlearn as [Hhead Hrest].
  cbn [snd] in Hhead.
  unfold payloads. cbn [map fst snd]. fold (payloads rest).
  rewrite run_requests_cons. cbn [serve fst snd].
  unfold process_learning_request, learn_request in *.
  assert (Haction : py_eq match request_action request with
                          | Some a => a
                          | None => PStr "learn"
                          end (PStr "learn") = true)
    by (destruct (request_action request); [exact Hhead | reflexivity]).
  rewrite Haction. cbn [get_learning_core].
  rewrite (construct_built _ q Hcfg Hrate Hfit).
  fold (experience_of request).
  destruct (learn_from_experience now (experience_of request)
              (build (config_map (config_of request)) q)) as [result core1].
  rewrite (serve_learn_requests rest core1 Hrest). reflexivity.
Qed.
End MoreAnalytics.

Section MoreAnalyticsExamples.
Import EnhancedAutonomousLearningCore.

(** X16 on the constructor's engine: an outcome that is a string, then
    the first experience of the scenario, then the analytics. *)
Lemma analytics_raises_after_bad_outcome_witness :
  let r := learn_from_experience (rt := constant_hash_runtime)
             "t0" bad_outcome_experience (init None) in
  fst r = failure_result (rt := constant_hash_runtime) AttributeError /\
  get_learning_analytics (nf := identity_sqrt)
    (snd (run_requests (rt := constant_hash_runtime)
            [("t1"%string, buy_experience)] (snd r)))
  = Raise AttributeError.
Proof.
  apply (analytics_raises_after_bad_outcome (rt := constant_hash_runtime)
           (nf := identity_sqrt)
           "t0" bad_outcome_experience [("t1"%string, buy_experience)]
           (init None)).
  - apply Nat.leb_le. vm_compute. reflexivity.
  - apply Nat.leb_le. vm_compute. reflexivity.
  - reflexivity.
  - apply Nat.ltb_lt. vm_compute. reflexivity.
Defined.

(** X17 on the engine after the scenario: the analytics return, with
    trends over two performances. *)
Lemma analytics_of_numeric_history_witness :
  exists (performances : list Q) report,
    length performances = 2%nat /\
    get_learning_analytics (nf := identity_sqrt) scenario_core = Ok report.
Proof.
  assert (Hnum : Forall (fun x => numeric_experience x = true)
                   (last_n 100 (items (learning_experiences scenario_core))))
    by (vm_compute; repeat constructor).
  destruct (ReinforcementLearningAgent.get_policy_strength
              (rl_agent scenario_core)) as [strength|ex] eqn:Hstrength;
    [|vm_compute in Hstrength; discriminate].
  destruct (proj2 (analytics_of_numeric_history (nf := identity_sqrt)
                     scenario_core strength Hnum Hstrength))
    as (values & performances & confidences & lo & hi
        & _ & _ & _ & Hlen & _ & _ & _ & Hreport).
  - vm_compute. discriminate.
  - exists performances. eexists.
    split; [rewrite Hlen; vm_compute; reflexivity | exact Hreport].
Defined.

(** X18 on a first request whose configuration is the string ['fast'],
    which raises and builds nothing, and on a process whose first request
    asks for a learning rate of 0.05 and whose second asks for 0.5. *)
Lemma first_request_configures_engine_witness :
  process_learning_request (rt := constant_hash_runtime) (nf := identity_sqrt)
    "t0" string_config_request None
  = Some (Raise AttributeError, None) /\
  exists results core,
    serve (rt := constant_hash_runtime) (nf := identity_sqrt)
      [("t0"%string, slow_request); ("t1"%string, fast_request);
       ("t2"%string, analytics_request)] None
    = Some (results, Some core) /\
    AdaptiveGradientDescent.base_learning_rate (gradient_optimizer core)
    = 5 # 100.
Proof.
  split.
  - exact (proj1 (proj1 (first_request_configures_engine
                           (rt := constant_hash_runtime)
                           (nf := identity_sqrt)
                           "t0" string_config_request [])
                        eq_refl eq_refl)).
  - destruct (proj2 (first_request_configures_engine
                       (rt := constant_hash_runtime) (nf := identity_sqrt)
                       "t0" slow_request
                       [("t1"%string, fast_request);
                        ("t2"%string, analytics_request)])
                (5 # 100) (or_intror eq_refl) eq_refl eq_refl)
      as (results & core & Hserve & _ & Hbase & _).
    exists results, core. split; [exact Hserve | exact Hbase].
Defined.

(** X20 on two learn requests without experience: both are learned
    from as empty experiences, by one engine. *)
Lemma learn_requests_reach_one_engine_witness :
  let requests := [("t0"%string, slow_request); ("t1"%string, fast_request)] in
  serve (rt := constant_hash_runtime) (nf := identity_sqrt) requests None
  = Some (map Ok (fst (run_requests (rt := constant_hash_runtime)
                         [("t0"%string, PDict []); ("t1"%string, PDict [])]
                         (init (Some [("learning_rate"%string, 5 # 100)])))),
          Some (snd (run_requests (rt := constant_hash_runtime)
                       [("t0"%string, PDict []); ("t1"%string, PDict [])]
                       (init (Some [("learning_rate"%string, 5 # 100)]))))).
Proof.
  cbv zeta.
  exact (learn_requests_reach_one_engine (rt := constant_hash_runtime)
           (nf := identity_sqrt) "t0" slow_request
           [("t1"%string, fast_request)] (5 # 100)
           ltac:(repeat constructor) (or_intror eq_refl) eq_refl eq_refl).
Defined.
End MoreAnalyticsExamples.
